(** * Customer-service chatbot backend: a shallow embedding and its properties

    The development follows the Apps Script sources file by file
    ([main.gs], [menuService.gs], [loggingService.gs], [aiService.gs],
    the MercadoLibre gateway and the chat service).  JavaScript values,
    strings and exceptions are modelled first; every service function is
    then written as the source writes it, over an explicit world (script
    properties, spreadsheet, HTTP trace) and a host interface for the
    built-ins whose results the runtime decides. *)

From Stdlib Require Import ZArith NArith List Bool Lia Ascii String Floats Uint63.
From stdpp Require Import base option list gmap strings.

Set Default Proof Using "Type".
Set Warnings "-register-all,-notation-incompatible-prefix,-closed-notation-not-level-0,-postfix-notation-not-level-1".

(** ** Strings

    A JavaScript string is a sequence of UTF-16 code units.  Literals are
    written as Rocq strings (UTF-8 in this file) and decoded by [js]. *)

Abbreviation jsstring := (list N).

Definition bytes_of (s : string) : list N :=
  List.map N_of_ascii (list_ascii_of_string s).

Fixpoint utf16_of_utf8 (bs : list N) : list N :=
  match bs with
  | [] => []
  | b :: r =>
      if (b <? 128)%N then b :: utf16_of_utf8 r
      else
        match r with
        | [] => []
        | c :: r1 =>
            if (b <? 224)%N
            then ((b mod 32) * 64 + c mod 64)%N :: utf16_of_utf8 r1
            else
              match r1 with
              | [] => []
              | d :: r2 =>
                  if (b <? 240)%N
                  then ((b mod 16) * 4096 + (c mod 64) * 64 + d mod 64)%N
                         :: utf16_of_utf8 r2
                  else
                    match r2 with
                    | [] => []
                    | e :: r3 =>
                        let cp := ((b mod 8) * 262144 + (c mod 64) * 4096
                                   + (d mod 64) * 64 + e mod 64 - 65536)%N in
                        (55296 + cp / 1024)%N :: (56320 + cp mod 1024)%N
                          :: utf16_of_utf8 r3
                    end
              end
        end
  end.

Definition js (s : string) : jsstring := utf16_of_utf8 (bytes_of s).

(** [String.prototype.startsWith] and [String.prototype.includes]. *)
Fixpoint starts_with (p s : jsstring) : bool :=
  match p, s with
  | [], _ => true
  | a :: p', b :: s' => (a =? b)%N && starts_with p' s'
  | _ :: _, [] => false
  end.

Fixpoint includes (s sub : jsstring) : bool :=
  starts_with sub s
  || match s with
     | [] => false
     | _ :: s' => includes s' sub
     end.

(** [String.prototype.toLowerCase] on the Basic Latin and Latin-1 letters
    (the texts of this application are Spanish and English); the case
    mapping of other scripts is the host's and is left as the identity. *)
Definition lower_unit (c : N) : N :=
  if ((65 <=? c) && (c <=? 90))%N then (c + 32)%N
  else if ((192 <=? c) && (c <=? 222) && negb (c =? 215))%N then (c + 32)%N
  else c.

Definition toLowerCase (s : jsstring) : jsstring := List.map lower_unit s.

(** The texts on which [toLowerCase] above is the mapping of the
    language: every code unit is below 256.  Outside them the language
    maps further letters (the Kelvin sign U+212A to k, for one); a
    statement that a text does not contain a word once lower-cased is
    made for these texts only. *)
Definition latin1 (s : jsstring) : bool := forallb (fun c => (c <? 256)%N) s.

(** [String.prototype.substring(0, n)]. *)
Definition substring0 (n : nat) (s : jsstring) : jsstring := take n s.

(** Decimal printing of a non-negative integer. *)
Fixpoint digits_fuel (fuel : nat) (n : N) (acc : jsstring) : jsstring :=
  match fuel with
  | O => acc
  | S f =>
      let acc' := (48 + n mod 10)%N :: acc in
      if (n <? 10)%N then acc' else digits_fuel f (n / 10)%N acc'
  end.

Definition N_to_decimal (n : N) : jsstring :=
  digits_fuel (S (N.to_nat (N.log2 n))) n [].

Definition Z_to_decimal (z : Z) : jsstring :=
  match z with
  | Zneg p => 45%N :: N_to_decimal (Npos p)
  | _ => N_to_decimal (Z.to_N z)
  end.

(** ** Values

    Numbers held in cells, counters and JSON bodies are integer valued;
    [NaN] only arises from conversions and lives in [jsnum]. *)

Inductive jsval : Type :=
| JUndefined
| JNull
| JBool (b : bool)
| JNum (z : Z)
| JStr (s : jsstring)
| JArr (items : list jsval)
| JObj (fields : list (jsstring * jsval)).

Inductive jsnum : Type :=
| NaN
| Int (z : Z).

(** ToBoolean. *)
Definition truthy (v : jsval) : bool :=
  match v with
  | JUndefined | JNull => false
  | JBool b => b
  | JNum z => negb (z =? 0)%Z
  | JStr s => match s with [] => false | _ => true end
  | JArr _ | JObj _ => true
  end.

(** [a || b] on values. *)
Definition js_or (a b : jsval) : jsval := if truthy a then a else b.

(** Strict equality with a string constant, [v === 'lit']. *)
Definition is_str (v : jsval) (lit : jsstring) : bool :=
  match v with
  | JStr s => bool_decide (s = lit)
  | _ => false
  end.

(** [v !== false]. *)
Definition not_false (v : jsval) : bool :=
  match v with
  | JBool false => false
  | _ => true
  end.

(** Own properties of an object literal, in insertion order. *)
Fixpoint assoc (k : jsstring) (fs : list (jsstring * jsval)) : option jsval :=
  match fs with
  | [] => None
  | (k', v) :: r => if bool_decide (k' = k) then Some v else assoc k r
  end.

Fixpoint assoc_set (k : jsstring) (v : jsval) (fs : list (jsstring * jsval))
  : list (jsstring * jsval) :=
  match fs with
  | [] => [(k, v)]
  | (k', v') :: r =>
      if bool_decide (k' = k) then (k', v) :: r else (k', v') :: assoc_set k v r
  end.

(** An object literal [{k1: v1, ...}]: a later duplicate key overwrites. *)
Definition obj (fs : list (jsstring * jsval)) : jsval :=
  JObj (fold_left (fun acc kv => assoc_set kv.1 kv.2 acc) fs []).

(** Property read that cannot throw: [v?.k], and [v.k] on a non-nullish [v]. *)
Definition prop (v : jsval) (k : jsstring) : jsval :=
  match v with
  | JObj fs => default JUndefined (assoc k fs)
  | _ => JUndefined
  end.

Definition has_field (v : jsval) (k : jsstring) : bool :=
  match v with
  | JObj fs => bool_decide (is_Some (assoc k fs))
  | _ => false
  end.

Definition nullish (v : jsval) : bool :=
  match v with
  | JUndefined | JNull => true
  | _ => false
  end.

(** Array element read [a[i]] (undefined out of range). *)
Definition item (v : jsval) (i : nat) : jsval :=
  match v with
  | JArr l => default JUndefined (l !! i)
  | _ => JUndefined
  end.

(** ToString.  Array elements that are undefined or null print as the
    empty string, as [Array.prototype.join] does. *)
Fixpoint ToString (v : jsval) : jsstring :=
  match v with
  | JUndefined => js "undefined"
  | JNull => js "null"
  | JBool true => js "true"
  | JBool false => js "false"
  | JNum z => Z_to_decimal z
  | JStr s => s
  | JArr l =>
      (fix join (l : list jsval) : jsstring :=
         match l with
         | [] => []
         | x :: r =>
             (if nullish x then [] else ToString x)
               ++ match r with [] => [] | _ => 44%N :: join r end
         end) l
  | JObj _ => js "[object Object]"
  end.

(** ** Exceptions and the world *)

Record exn : Type := mkExn { message : jsstring; stack : jsstring }.

Definition Error (msg : jsstring) : exn := mkExn msg (js "Error: " ++ msg).

(** A [TypeError] raised by the engine; [what] names the failed access
    (the engine's own wording is not modelled). *)
Definition TypeError (what : jsstring) : exn :=
  mkExn what (js "TypeError: " ++ what).

Definition RangeError (what : jsstring) : exn :=
  mkExn what (js "RangeError: " ++ what).

Inductive outcome (A : Type) : Type :=
| Ret (a : A)
| Throw (e : exn).
Arguments Ret {A} a.
Arguments Throw {A} e.

Record Request : Type := mkRequest {
  url : jsstring;
  method : jsstring;
  headers : list (jsstring * jsstring);
  payload : option jsstring
}.

(** An HTTP response: status code and the result of [JSON.parse] on its
    text (a [SyntaxError] when the body is not JSON). *)
Record HttpResponse : Type := mkResponse {
  getResponseCode : Z;
  parsedBody : outcome jsval
}.

(** The [Date] object of the current request, seen through its getters in
    the script's time zone. *)
Record LocalTime : Type := mkLocalTime {
  getDay : nat;
  getHours : Z;
  getMinutes : Z;
  getSeconds : Z
}.

(** Built-ins whose result is decided by the runtime. *)
Class Host : Type := {
  toISOString : Z -> jsstring;
  localTime : Z -> LocalTime;
  (** [new Date(v).getTime()], [None] for an invalid date. *)
  Date_getTime : jsval -> option Z;
  (** [d.setSeconds(s)] on the date [d] with time value [t]: the new time
      value, [None] for an invalid date.  The seconds are set in the
      local time of the script, so the result is decided by its time
      zone. *)
  Date_setSeconds : Z -> Z -> option Z;
  JSON_stringify : jsval -> jsstring;
  JSON_parse : jsstring -> outcome jsval;
  encodeURIComponent : jsstring -> jsstring;
  toLocaleDateString : jsval -> jsstring;
  UrlFetchApp_fetch : Request -> outcome HttpResponse
}.

(** A sheet is its grid of cell values, header row first; the spreadsheet
    maps sheet names to sheets. *)
Record World : Type := mkWorld {
  properties : gmap jsstring jsstring;
  (** [false]: [SpreadsheetApp.openById] throws. *)
  spreadsheet_ok : bool;
  sheets : gmap jsstring (list (list jsval));
  now : Z;
  fetched : list Request;
  (** [ConfigService._configCache] with [_cacheExpiry]. *)
  configCache : option (jsval * Z)
}.

Definition M (A : Type) : Type := World -> outcome A * World.

Definition ret {A} (a : A) : M A := fun w => (Ret a, w).
Definition throw {A} (e : exn) : M A := fun w => (Throw e, w).

Definition bind {A B} (m : M A) (k : A -> M B) : M B :=
  fun w =>
    match m w with
    | (Ret a, w') => k a w'
    | (Throw e, w') => (Throw e, w')
    end.

(** [try { body } catch (error) { handler }]. *)
Definition try_catch {A} (body : M A) (handler : exn -> M A) : M A :=
  fun w =>
    match body w with
    | (Ret a, w') => (Ret a, w')
    | (Throw e, w') => handler e w'
    end.

Definition get_world : M World := fun w => (Ret w, w).
Definition put_world (w' : World) : M unit := fun _ => (Ret tt, w').
Definition lift {A} (o : outcome A) : M A := fun w => (o, w).

Notation "'let*' x ':=' c 'in' k" := (bind c (fun x => k))
  (at level 10, x pattern, c at level 100, k at level 200).
Notation "c ';;' k" := (bind c (fun _ => k))
  (at level 100, k at level 200, right associativity).

(** [v.toString()]: a method call on undefined or null throws. *)
Definition toString_method (v : jsval) : M jsstring :=
  if nullish v then throw (TypeError (js "toString of undefined"))
  else ret (ToString v).

Example js_ascii : js "menu" = [109; 101; 110; 117]%N.
Proof. reflexivity. Qed.

Example js_latin1 : js "menú" = [109; 101; 110; 250]%N.
Proof. reflexivity. Qed.

Example ToString_num : ToString (JNum 120) = js "120".
Proof. reflexivity. Qed.

Example ToString_arr : ToString (JArr [JNum 1; JNull; JStr (js "a")]) = js "1,,a".
Proof. reflexivity. Qed.

(** ** Regular expressions

    The patterns of the sources are sequences of greedy quantified
    character classes and word-boundary assertions.  [exec] is the
    backtracking matcher of the language standard restricted to those
    forms: a quantifier first takes as many code units as it may and gives
    them back one at a time while the rest of the pattern fails. *)

Definition is_digit (c : N) : bool := ((48 <=? c) && (c <=? 57))%N.
Definition is_upper (c : N) : bool := ((65 <=? c) && (c <=? 90))%N.
Definition is_lower (c : N) : bool := ((97 <=? c) && (c <=? 122))%N.
Definition is_alpha (c : N) : bool := is_upper c || is_lower c.

(** [\w] without the unicode flag. *)
Definition is_word (c : N) : bool := is_alpha c || is_digit c || (c =? 95)%N.

(** [\s]: white space and line terminators. *)
Definition is_space (c : N) : bool :=
  (((9 <=? c) && (c <=? 13)) || (c =? 32) || (c =? 160) || (c =? 5760)
   || ((8192 <=? c) && (c <=? 8202)) || (c =? 8232) || (c =? 8233)
   || (c =? 8239) || (c =? 8287) || (c =? 12288) || (c =? 65279))%N.

Definition one_of (l : jsstring) (c : N) : bool :=
  existsb (fun d => (d =? c)%N) l.

Inductive atom : Type :=
| WordB
| Rep (c : N -> bool) (lo : nat) (hi : option nat).

Definition Cls (c : N -> bool) : atom := Rep c 1 (Some 1).
Definition Opt (c : N -> bool) : atom := Rep c 0 (Some 1).
Definition Plus (c : N -> bool) : atom := Rep c 1 None.
Definition Times (n : nat) (c : N -> bool) : atom := Rep c n (Some n).
Definition AtLeast (n : nat) (c : N -> bool) : atom := Rep c n None.

Definition word_before (prev : option N) : bool :=
  match prev with Some c => is_word c | None => false end.

Definition word_at (s : jsstring) : bool :=
  match s with c :: _ => is_word c | [] => false end.

(** [\b] holds between [prev] and the head of [s]. *)
Definition boundary (prev : option N) (s : jsstring) : bool :=
  xorb (word_before prev) (word_at s).

Definition may_take (hi : option nat) : bool :=
  match hi with Some O => false | _ => true end.

Fixpoint rep_go (c : N -> bool) (k : nat -> option N -> jsstring -> option nat)
  (lo : nat) (hi : option nat) (n : nat) (prev : option N) (s : jsstring)
  : option nat :=
  let stop := match lo with O => k n prev s | S _ => None end in
  match s with
  | x :: s' =>
      if c x && may_take hi
      then match rep_go c k (pred lo) (option_map pred hi) (S n) (Some x) s' with
           | Some r => Some r
           | None => stop
           end
      else stop
  | [] => stop
  end.

(** [exec p n prev s]: the length reached by the first successful way of
    matching [p] at the head of [s], [n] code units being consumed already
    and [prev] being the code unit before [s]. *)
Fixpoint exec (p : list atom) (n : nat) (prev : option N) (s : jsstring)
  : option nat :=
  match p with
  | [] => Some n
  | WordB :: p' => if boundary prev s then exec p' n prev s else None
  | Rep c lo hi :: p' => rep_go c (exec p') lo hi n prev s
  end.

Definition match_at (p : list atom) (prev : option N) (s : jsstring) : option nat :=
  exec p 0 prev s.

(** [s.replace(/p/g, by)] for a pattern that matches no empty string:
    after a match the search resumes at its end.  [skip] counts the code
    units of the current match that are still to be dropped. *)
Fixpoint replace_go (p : list atom) (by_ : jsstring) (skip : nat)
  (prev : option N) (s : jsstring) : jsstring :=
  match s with
  | [] => []
  | x :: s' =>
      match skip with
      | S k => replace_go p by_ k (Some x) s'
      | O =>
          match match_at p prev s with
          | Some (S k) => by_ ++ replace_go p by_ k (Some x) s'
          | _ => x :: replace_go p by_ 0 (Some x) s'
          end
      end
  end.

Definition replace_all (p : list atom) (by_ : jsstring) (s : jsstring) : jsstring :=
  replace_go p by_ 0 None s.

(** [s.match(/p/)]: the text of the leftmost match, if any. *)
Fixpoint search_go (p : list atom) (prev : option N) (s : jsstring)
  : option jsstring :=
  match match_at p prev s with
  | Some n => Some (take n s)
  | None =>
      match s with
      | [] => None
      | x :: s' => search_go p (Some x) s'
      end
  end.

Definition search (p : list atom) (s : jsstring) : option jsstring :=
  search_go p None s.

(** The patterns of [loggingService.gs] and of the chat service. *)
Definition sep_space_dash (c : N) : bool := is_space c || (c =? 45)%N.
Definition sep_dash_dot (c : N) : bool := ((c =? 45) || (c =? 46))%N.
Definition email_local (c : N) : bool :=
  is_alpha c || is_digit c || one_of (js "._%+-") c.
Definition email_domain (c : N) : bool :=
  is_alpha c || is_digit c || one_of (js ".-") c.
Definition email_tld (c : N) : bool := is_alpha c || (c =? 124)%N.

(** [/\b\d{4}[\s-]?\d{4}[\s-]?\d{4}[\s-]?\d{4}\b/g] *)
Definition card_re : list atom :=
  [WordB; Times 4 is_digit; Opt sep_space_dash; Times 4 is_digit;
   Opt sep_space_dash; Times 4 is_digit; Opt sep_space_dash;
   Times 4 is_digit; WordB].

(** [/\b[A-Za-z0-9._%+-]+@[A-Za-z0-9.-]+\.[A-Z|a-z]{2,}\b/g] *)
Definition email_re : list atom :=
  [WordB; Plus email_local; Cls (one_of (js "@")); Plus email_domain;
   Cls (one_of (js ".")); AtLeast 2 email_tld; WordB].

(** [/\b\d{3}[-.]?\d{3}[-.]?\d{4}\b/g] *)
Definition phone_re : list atom :=
  [WordB; Times 3 is_digit; Opt sep_dash_dot; Times 3 is_digit;
   Opt sep_dash_dot; Times 4 is_digit; WordB].

(** [/\b\d{12,}\b/] *)
Definition orderIdPattern : list atom := [WordB; AtLeast 12 is_digit; WordB].

(** [/MLA\d+/i]: without the unicode flag only the two ASCII cases of a
    letter canonicalize to it. *)
Definition productIdPattern : list atom :=
  [Cls (one_of (js "Mm")); Cls (one_of (js "Ll")); Cls (one_of (js "Aa"));
   Plus is_digit].

Example card_spaces :
  replace_all card_re (js "[CARD_NUMBER]") (js "pay 1234 5678-9012 3456 now")
  = js "pay [CARD_NUMBER] now".
Proof. reflexivity. Qed.

Example email_backtracks :
  replace_all email_re (js "[EMAIL]") (js "to a.b@mail.example.com1, bye")
  = js "to [EMAIL].com1, bye"
  /\ replace_all email_re (js "[EMAIL]") (js "x@y.com1") = js "x@y.com1"
  /\ replace_all email_re (js "[EMAIL]") (js "to a.b@mail.example.com.") = js "to [EMAIL]."
  /\ replace_all email_re (js "[EMAIL]") (js "x@y.co|z@w.uk") = js "[EMAIL]@w.uk".
Proof. repeat split; reflexivity. Qed.

Example phone_inside_digits :
  replace_all phone_re (js "[PHONE]") (js "12345678901234") = js "12345678901234"
  /\ replace_all phone_re (js "[PHONE]") (js "call 555-123.4567!") = js "call [PHONE]!".
Proof. split; reflexivity. Qed.

Example search_order :
  search orderIdPattern (js "pedido 123456789012?") = Some (js "123456789012")
  /\ search orderIdPattern (js "pedido 12345678901") = None.
Proof. split; reflexivity. Qed.

(** ** Numbers *)

Fixpoint skip_space (s : jsstring) : jsstring :=
  match s with
  | c :: r => if is_space c then skip_space r else s
  | [] => []
  end.

Fixpoint digits_value (acc : Z) (s : jsstring) : jsnum :=
  match s with
  | [] => Int acc
  | c :: r =>
      if is_digit c then digits_value (10 * acc + (Z.of_N c - 48)) r else NaN
  end.

(** ToNumber on a string, for the decimal integer literals (surrounding
    white space and a sign allowed); the empty string is 0.  Other texts
    convert to [NaN] (fractions, exponents and radix prefixes, which no
    text of this application uses, are not recognised). *)
Definition StringToNumber (s : jsstring) : jsnum :=
  let t := rev (skip_space (rev (skip_space s))) in
  match t with
  | [] => Int 0
  | c :: d =>
      let signed := match d with [] => false | _ => true end in
      if (c =? 45)%N && signed
      then match digits_value 0 d with Int z => Int (- z) | NaN => NaN end
      else if (c =? 43)%N && signed then digits_value 0 d
      else digits_value 0 t
  end.

Definition ToNumber (v : jsval) : jsnum :=
  match v with
  | JUndefined => NaN
  | JNull => Int 0
  | JBool b => Int (if b then 1 else 0)
  | JNum z => Int z
  | JStr s => StringToNumber s
  | JArr _ => StringToNumber (ToString v)
  | JObj _ => NaN
  end.

Definition isNaN (v : jsval) : bool :=
  match ToNumber v with NaN => true | Int _ => false end.

(** Arithmetic and comparison on numbers: anything with [NaN] is [NaN],
    and every comparison with [NaN] is false. *)
Definition num_add (a b : jsnum) : jsnum :=
  match a, b with Int x, Int y => Int (x + y) | _, _ => NaN end.
Definition num_mul (a b : jsnum) : jsnum :=
  match a, b with Int x, Int y => Int (x * y) | _, _ => NaN end.
Definition num_le (a b : jsnum) : bool :=
  match a, b with Int x, Int y => (x <=? y)%Z | _, _ => false end.
Definition num_lt (a b : jsnum) : bool :=
  match a, b with Int x, Int y => (x <? y)%Z | _, _ => false end.

(** Doubles, for the rates of the analytics summary. *)
Definition Z_to_float (z : Z) : float :=
  match z with
  | Z0 => 0%float
  | Zpos _ => PrimFloat.of_uint63 (Uint63.of_Z z)
  | Zneg p => PrimFloat.opp (PrimFloat.of_uint63 (Uint63.of_Z (Zpos p)))
  end.

Definition nat_to_float (n : nat) : float := Z_to_float (Z.of_nat n).

(** [Math.round]: the nearest integer, ties towards plus infinity,
    computed on the exact value [m * 2 ^ e] of the double. *)
Definition Math_round (x : float) : float :=
  match Prim2SF x with
  | S754_finite sg m e =>
      if (0 <=? e)%Z then x
      else
        let half := (2 ^ (- e))%Z in
        let n := (((if sg then - 2 * Zpos m else 2 * Zpos m) + half) / (2 * half))%Z in
        if (n =? 0)%Z && sg then (-0)%float else Z_to_float n
  | _ => x
  end.

Example Math_round_examples :
  Math_round 0.5 = 1%float /\ Math_round 2.25 = 2%float
  /\ Math_round (-2.5) = (-2)%float /\ Math_round (1 / 3 * 100) = 33%float
  /\ Math_round (29 / 200 * 100) = 14%float.
Proof. repeat split; vm_compute; reflexivity. Qed.

Example StringToNumber_examples :
  StringToNumber (js "09") = Int 9 /\ StringToNumber (js " 18 ") = Int 18
  /\ StringToNumber [] = Int 0 /\ StringToNumber (js "9h") = NaN
  /\ StringToNumber (js "-5") = Int (-5).
Proof. repeat split; reflexivity. Qed.

(** ** Script properties and global configuration ([main.gs], [CONFIG]) *)

Definition with_properties (f : gmap jsstring jsstring -> gmap jsstring jsstring)
  (w : World) : World :=
  mkWorld (f (properties w)) (spreadsheet_ok w) (sheets w) (now w) (fetched w)
    (configCache w).

Definition with_sheets
  (f : gmap jsstring (list (list jsval)) -> gmap jsstring (list (list jsval)))
  (w : World) : World :=
  mkWorld (properties w) (spreadsheet_ok w) (f (sheets w)) (now w) (fetched w)
    (configCache w).

Definition with_fetched (f : list Request -> list Request) (w : World) : World :=
  mkWorld (properties w) (spreadsheet_ok w) (sheets w) (now w) (f (fetched w))
    (configCache w).

Definition with_configCache (c : option (jsval * Z)) (w : World) : World :=
  mkWorld (properties w) (spreadsheet_ok w) (sheets w) (now w) (fetched w) c.

(** [properties.getProperty(k)]: [None] is JavaScript's null. *)
Definition getProperty (k : jsstring) : M (option jsstring) :=
  fun w => (Ret (properties w !! k), w).

Definition setProperty (k v : jsstring) : M unit :=
  fun w => (Ret tt, with_properties (insert k v) w).

Definition setProperties (kvs : list (jsstring * jsstring)) : M unit :=
  fun w =>
    (Ret tt,
     with_properties (fun m => fold_left (fun acc kv => <[kv.1 := kv.2]> acc) kvs m) w).

(** Truthiness of a property value: null and the empty string are falsy. *)
Definition present (o : option jsstring) : bool :=
  match o with
  | Some (_ :: _) => true
  | _ => false
  end.

Definition cell (row : list jsval) (i : nat) : jsval := default JUndefined (row !! i).

(** Strict equality; two distinct object or array values never compare
    equal (the operands met here are cell values and request fields). *)
Definition strict_eq (a b : jsval) : bool :=
  match a, b with
  | JUndefined, JUndefined | JNull, JNull => true
  | JBool x, JBool y => bool_decide (x = y)
  | JNum x, JNum y => (x =? y)%Z
  | JStr x, JStr y => bool_decide (x = y)
  | _, _ => false
  end.

(** Own enumerable properties copied by [{ ...v }]. *)
Definition spread (v : jsval) : list (jsstring * jsval) :=
  match v with
  | JObj fs => fs
  | JArr l => imap (fun i x => (N_to_decimal (N.of_nat i), x)) l
  | JStr s => imap (fun i c => (N_to_decimal (N.of_nat i), JStr [c])) s
  | _ => []
  end.

Module CONFIG.
Definition MENU_SHEET : jsstring := js "Menu_Config".
Definition LOGS_SHEET : jsstring := js "Chat_Logs".
Definition SETTINGS_SHEET : jsstring := js "Settings".
Definition GEMINI : jsstring := js "gemini".
Definition CLAUDE : jsstring := js "claude".
Definition STATIC : jsstring := js "static".
Definition AI : jsstring := js "ai".
Definition ESCALATE : jsstring := js "escalate".
End CONFIG.

(** ** [sheetsService.gs] *)

Module SheetsService.

Definition S (s : string) : jsval := JStr (js s).

Definition menuHeaders : list jsval :=
  [S "Número"; S "Título"; S "Tipo de Respuesta"; S "Respuesta Estática";
   S "Proveedor IA"; S "Contexto IA"; S "Mensaje Escalación";
   S "Mensaje Fuera Horario"; S "Respuesta Fallback"; S "Volver al Menú";
   S "Activo"; S "Max Tokens"].

Definition sampleData : list (list jsval) :=
  [ [JNum 1; S "Estado de mi pedido"; S "ai"; S ""; S "gemini";
     S "Ayuda con consultas sobre el estado de pedidos y seguimiento de envíos";
     S ""; S ""; S "Consulta el estado de tu pedido en tu cuenta";
     JBool true; JBool true; JNum 300];
    [JNum 2; S "Información de productos"; S "ai"; S ""; S "gemini";
     S "Proporciona información sobre productos, precios y disponibilidad";
     S ""; S ""; S "Consulta nuestro catálogo en línea";
     JBool true; JBool true; JNum 300];
    [JNum 3; S "Política de devoluciones"; S "static";
     S "Puedes devolver productos dentro de 30 días. Visita nuestra sección de devoluciones para más detalles.";
     S ""; S ""; S ""; S ""; S ""; JBool true; JBool true; JNum 0];
    [JNum 4; S "Hablar con un agente"; S "escalate"; S ""; S ""; S "";
     S "Te conectamos con un agente humano";
     S "Fuera del horario de atención. Te contactaremos pronto.";
     S ""; JBool false; JBool true; JNum 0];
    [JNum 0; S "Salir"; S "static";
     S "Gracias por contactarnos. ¡Que tengas un excelente día!";
     S ""; S ""; S ""; S ""; S ""; JBool false; JBool true; JNum 0] ].

Definition logsHeaders : list jsval :=
  [S "Timestamp"; S "Sesión ID"; S "Tipo Interacción"; S "Mensaje Usuario";
   S "Respuesta Bot"; S "Proveedor IA"; S "Tiempo Respuesta (ms)";
   S "Estado"; S "Metadata"].

Definition settingsData : list (list jsval) :=
  [ [S "Configuración"; S "Valor"; S "Descripción"];
    [S "business_hours_start"; S "09:00"; S "Hora de inicio de atención (HH:MM)"];
    [S "business_hours_end"; S "18:00"; S "Hora de fin de atención (HH:MM)"];
    [S "business_days"; S "Mon,Tue,Wed,Thu,Fri"; S "Días de atención (separados por coma)"];
    [S "greeting_business_hours";
     S "¡Hola! Bienvenido a nuestro servicio de atención al cliente. ¿En qué puedo ayudarte?";
     S "Saludo durante horario de atención"];
    [S "greeting_after_hours";
     S "Hola. Actualmente estamos fuera del horario de atención, pero puedo ayudarte con algunas consultas básicas.";
     S "Saludo fuera del horario"];
    [S "footer_message";
     S "Escribe el número de la opción que necesitas o describe tu consulta.";
     S "Mensaje al final del menú"];
    [S "max_ai_tokens"; S "500"; S "Límite máximo de tokens para respuestas IA"];
    [S "default_ai_provider"; S "gemini"; S "Proveedor de IA por defecto (gemini/claude)"];
    [S "escalation_timeout"; S "300"; S "Tiempo límite para escalación (segundos)"];
    [S "session_timeout"; S "1800"; S "Tiempo límite de sesión (segundos)"] ].

Definition setSheet (name : jsstring) (rows : list (list jsval)) : M unit :=
  fun w => (Ret tt, with_sheets (insert name rows) w).

Definition setupMenuSheet (sheet : jsstring) : M unit :=
  setSheet sheet (menuHeaders :: sampleData).

Definition setupLogsSheet (sheet : jsstring) : M unit :=
  setSheet sheet [logsHeaders].

Definition setupSettingsSheet (sheet : jsstring) : M unit :=
  setSheet sheet settingsData.

Definition getSpreadsheet : M unit :=
  try_catch
    (let* spreadsheetId := getProperty (js "SPREADSHEET_ID") in
     if negb (present spreadsheetId)
     then throw (Error (js "SPREADSHEET_ID not configured in Script Properties"))
     else
       let* w := get_world in
       if spreadsheet_ok w then ret tt
       else throw (Error (js "SpreadsheetApp.openById failed")))
    (fun error => throw error).

Definition setupSheetStructure (sheet sheetName : jsstring) : M unit :=
  try_catch
    (if bool_decide (sheetName = CONFIG.MENU_SHEET) then setupMenuSheet sheet
     else if bool_decide (sheetName = CONFIG.LOGS_SHEET) then setupLogsSheet sheet
     else if bool_decide (sheetName = CONFIG.SETTINGS_SHEET) then setupSettingsSheet sheet
     else ret tt)
    (fun _ => ret tt).

(** The sheet object is identified by its name. *)
Definition getSheet (sheetName : jsstring) : M jsstring :=
  try_catch
    (getSpreadsheet ;;
     let* w := get_world in
     match sheets w !! sheetName with
     | Some _ => ret sheetName
     | None =>
         setSheet sheetName [] ;;
         setupSheetStructure sheetName sheetName ;;
         ret sheetName
     end)
    (fun error => throw error).

Definition initializeSheets : M unit :=
  try_catch
    (getSheet CONFIG.MENU_SHEET ;;
     getSheet CONFIG.LOGS_SHEET ;;
     getSheet CONFIG.SETTINGS_SHEET ;;
     ret tt)
    (fun error => throw error).

(** [sheet.getDataRange().getValues()]; an empty sheet yields one empty cell. *)
Definition getValues (sheet : jsstring) : M (list (list jsval)) :=
  fun w =>
    (Ret match default [] (sheets w !! sheet) with
         | [] => [[JStr []]]
         | rows => rows
         end, w).

Definition appendRow (sheet : jsstring) (data : list jsval) : M unit :=
  fun w =>
    (Ret tt, with_sheets (fun m => <[sheet := default [] (m !! sheet) ++ [data]]> m) w).

(** [sheet.clear()]. *)
Definition clear (sheet : jsstring) : M unit :=
  fun w => (Ret tt, with_sheets (insert sheet []) w).

(** [sheet.getRange(1, 1, rows.length, rows[0].length).setValues(rows)] on
    a cleared sheet: a range needs a column, and every row must have the
    width of the range.  A grid of empty cells leaves the sheet empty. *)
Definition setValues (sheet : jsstring) (rows : list (list jsval)) : M unit :=
  fun w =>
    let width := length (default [] (head rows)) in
    if (width =? 0)%nat
    then (Throw (Error (js "The number of columns in the range must be at least 1.")), w)
    else if forallb (fun row => (length row =? width)%nat) rows
    then
      (Ret tt,
       with_sheets
         (insert sheet
            (if forallb (forallb (fun c => is_str c [])) rows then [] else rows)) w)
    else
      (Throw (Error (js "The number of columns in the data does not match the number of columns in the range.")),
       w).

Definition appendData (sheetName : jsstring) (data : list jsval) : M unit :=
  try_catch
    (let* sheet := getSheet sheetName in
     appendRow sheet data)
    (fun error => throw error).

Definition getAllData (sheetName : jsstring) : M (list (list jsval)) :=
  try_catch
    (let* sheet := getSheet sheetName in
     let* w := get_world in
     let rows := default [] (sheets w !! sheet) in
     if (length rows <=? 1)%nat then ret []
     else ret (drop 1 rows))
    (fun _ => ret []).

End SheetsService.

(** ** [loggingService.gs] *)

Record DayStat : Type := mkDayStat {
  total : nat;
  successful : nat;
  escalations : nat
}.

Record Analytics : Type := mkAnalytics {
  totalInteractions : nat;
  interactionsByType : gmap jsstring nat;
  successRate : float;
  averageResponseTime : float;
  escalationRate : float;
  aiUsage : gmap jsstring nat;
  busyHours : gmap jsstring nat;
  dailyStats : gmap jsstring DayStat
}.

(** The accumulators of the [forEach] loop of [getAnalytics]. *)
Record Tally : Type := mkTally {
  t_byType : gmap jsstring nat;
  t_aiUsage : gmap jsstring nat;
  t_busyHours : gmap jsstring nat;
  t_dailyStats : gmap jsstring DayStat;
  totalResponseTime : float;
  successfulInteractions : nat;
  t_escalations : nat
}.

Inductive AnalyticsResult : Type :=
| Summary (a : Analytics)
| Failed (error : jsstring).

(** [counter[k] = (counter[k] || 0) + 1]. *)
Definition bump (k : jsstring) (m : gmap jsstring nat) : gmap jsstring nat :=
  <[k := S (default 0%nat (m !! k))]> m.

(** [date.setDate(date.getDate() - days)] is calendar arithmetic in the
    time zone of the script. *)
Class Calendar : Type := {
  (** The time value of the date at [t] moved back by [days] days of the
      month; [None] when that is no date. *)
  setDate_back : Z -> Z -> option Z
}.

Module LoggingService.
Section WithHost.
Context {host : Host}.

(** The masked text, before the length limit. *)
Definition mask (message : jsstring) : jsstring :=
  replace_all phone_re (js "[PHONE]")
    (replace_all email_re (js "[EMAIL]")
       (replace_all card_re (js "[CARD_NUMBER]") message)).

Definition sanitizeMessage (message : jsval) : jsstring :=
  match message with
  | JStr m => substring0 500 (mask m)
  | _ => ToString (js_or message (JStr []))
  end.

Definition sensitiveFields : list jsstring :=
  [js "password"; js "token"; js "apiKey"; js "secret"; js "credential"].

Definition sanitizeMetadata (metadata : jsval) : jsval :=
  let sanitized := spread metadata in
  JObj (fold_left
          (fun acc key =>
             let lowerKey := toLowerCase key in
             if existsb (fun field => includes lowerKey field) sensitiveFields
             then assoc_set key (JStr (js "[REDACTED]")) acc
             else acc)
          (List.map fst sanitized) sanitized).

Definition logInteraction (interactionType : jsstring) (sessionId data : jsval)
  : M unit :=
  try_catch
    (let* w := get_world in
     let timestamp := toISOString (now w) in
     let startTime := now w in
     if nullish data then throw (TypeError (js "data.userMessage"))
     else
       let logEntry :=
         [JStr timestamp;
          js_or sessionId (JStr (js "anonymous"));
          JStr interactionType;
          JStr (sanitizeMessage
                  (js_or (js_or (prop data (js "userMessage")) (prop data (js "selection")))
                     (JStr [])));
          JStr (sanitizeMessage
                  (js_or (js_or (prop data (js "message"))
                            (prop (prop data (js "botResponse")) (js "message")))
                     (JStr [])));
          js_or (js_or (prop data (js "provider")) (prop data (js "aiProvider"))) (JStr []);
          js_or (prop data (js "responseTime")) (JNum (now w - startTime));
          JStr (if not_false (prop data (js "success")) then js "success" else js "error");
          JStr (JSON_stringify (sanitizeMetadata data))] in
       SheetsService.appendData CONFIG.LOGS_SHEET logEntry)
    (fun _ => ret tt).

Definition logError (operation : jsstring) (error : exn) (context : jsval) : M unit :=
  let context := match context with JUndefined => JObj [] | _ => context end in
  try_catch
    (let* w := get_world in
     let timestamp := toISOString (now w) in
     if nullish context then throw (TypeError (js "context.sessionId"))
     else
       let logEntry :=
         [JStr timestamp;
          js_or (prop context (js "sessionId")) (JStr (js "system"));
          JStr (js "error");
          JStr operation;
          JStr (message error);
          JStr [];
          JNum 0;
          JStr (js "error");
          JStr (JSON_stringify
                  (obj [(js "stack", JStr (stack error));
                        (js "context", sanitizeMetadata context);
                        (js "operation", JStr operation)]))] in
       SheetsService.appendData CONFIG.LOGS_SHEET logEntry)
    (fun _ => ret tt).

Definition logEscalation (sessionId reason : jsval) (status : jsstring) : M unit :=
  try_catch
    (let* w := get_world in
     let timestamp := toISOString (now w) in
     let logEntry :=
       [JStr timestamp;
        sessionId;
        JStr (js "escalation");
        JStr (sanitizeMessage reason);
        JStr (js "Escalation status: " ++ status);
        JStr [];
        JNum 0;
        JStr status;
        JStr (JSON_stringify
                (obj [(js "escalationReason", reason);
                      (js "escalationStatus", JStr status);
                      (js "businessHours",
                       JBool (negb (bool_decide (status = js "after_hours"))))]))] in
     SheetsService.appendData CONFIG.LOGS_SHEET logEntry)
    (fun _ => ret tt).

(** [logDate < new Date(bound)] and its mirror; false on an invalid date. *)
Definition date_lt (a b : jsval) : bool :=
  match Date_getTime a, Date_getTime b with
  | Some x, Some y => (x <? y)%Z
  | _, _ => false
  end.

(** [rows.slice(0, limit)]. *)
Definition slice0 {A} (limit : jsval) (rows : list A) : list A :=
  match ToNumber limit with
  | Int z =>
      if (0 <=? z)%Z then take (Z.to_nat z) rows
      else take (length rows - Z.to_nat (- z)) rows
  | NaN => []
  end.

Definition getLogs (filters : jsval) : M (list (list jsval)) :=
  let filters := match filters with JUndefined => JObj [] | _ => filters end in
  try_catch
    (let* allData := SheetsService.getAllData CONFIG.LOGS_SHEET in
     if nullish filters then throw (TypeError (js "filters.startDate"))
     else
       let startDate := prop filters (js "startDate") in
       let endDate := prop filters (js "endDate") in
       let byDate :=
         if truthy startDate || truthy endDate
         then List.filter
                (fun row =>
                   let logDate := cell row 0 in
                   if truthy startDate && date_lt logDate startDate then false
                   else if truthy endDate && date_lt endDate logDate then false
                   else true)
                allData
         else allData in
       let byType :=
         if truthy (prop filters (js "interactionType"))
         then List.filter (fun row => strict_eq (cell row 2) (prop filters (js "interactionType"))) byDate
         else byDate in
       let bySession :=
         if truthy (prop filters (js "sessionId"))
         then List.filter (fun row => strict_eq (cell row 1) (prop filters (js "sessionId"))) byType
         else byType in
       let byStatus :=
         if truthy (prop filters (js "status"))
         then List.filter (fun row => strict_eq (cell row 7) (prop filters (js "status"))) bySession
         else bySession in
       ret (if truthy (prop filters (js "limit"))
            then slice0 (prop filters (js "limit")) byStatus
            else byStatus))
    (fun _ => ret []).

(** The date part of an ISO instant: [iso.split('T')[0]]. *)
Fixpoint before_T (s : jsstring) : jsstring :=
  match s with
  | [] => []
  | c :: r => if (c =? 84)%N then [] else c :: before_T r
  end.

(** One iteration of the [forEach] of [getAnalytics];
    [toISOString] throws on an invalid date. *)
Definition tally_row (acc : Tally) (log : list jsval) : outcome Tally :=
  let timestamp := cell log 0 in
  let interactionType := cell log 2 in
  let provider := cell log 5 in
  let responseTime := cell log 6 in
  let status := cell log 7 in
  let isSuccess := is_str status (js "success") in
  let isEscalation := is_str interactionType (js "escalation") in
  let byType := bump (ToString interactionType) (t_byType acc) in
  let succ' := if isSuccess then S (successfulInteractions acc)
               else successfulInteractions acc in
  let esc' := if isEscalation then S (t_escalations acc) else t_escalations acc in
  let usage := if truthy provider then bump (ToString provider) (t_aiUsage acc)
               else t_aiUsage acc in
  let time' :=
    match truthy responseTime, ToNumber responseTime with
    | true, Int z => (totalResponseTime acc + Z_to_float z)%float
    | _, _ => totalResponseTime acc
    end in
  match Date_getTime timestamp with
  | None => Throw (RangeError (js "Invalid time value"))
  | Some t =>
      let hour := Z_to_decimal (getHours (localTime t)) in
      let busy := bump hour (t_busyHours acc) in
      let date := before_T (toISOString t) in
      let d0 := default (mkDayStat 0 0 0) (t_dailyStats acc !! date) in
      let d1 := mkDayStat (S (total d0))
                  (if isSuccess then S (successful d0) else successful d0)
                  (if isEscalation then S (escalations d0) else escalations d0) in
      Ret (mkTally byType usage busy (<[date := d1]> (t_dailyStats acc))
             time' succ' esc')
  end.

Fixpoint tally_rows (acc : Tally) (logs : list (list jsval)) : outcome Tally :=
  match logs with
  | [] => Ret acc
  | log :: rest =>
      match tally_row acc log with
      | Ret acc' => tally_rows acc' rest
      | Throw e => Throw e
      end
  end.

Definition rate (count len : nat) : float :=
  if (0 <? len)%nat
  then Math_round (nat_to_float count / nat_to_float len * 100)%float
  else 0%float.

(** The body of [getAnalytics] once the logs are read. *)
Definition summarize (logs : list (list jsval)) : AnalyticsResult :=
  match tally_rows (mkTally ∅ ∅ ∅ ∅ 0%float 0 0) logs with
  | Ret t =>
      Summary
        (mkAnalytics (length logs) (t_byType t)
           (rate (successfulInteractions t) (length logs))
           (if (0 <? length logs)%nat
            then Math_round (totalResponseTime t / nat_to_float (length logs))%float
            else 0%float)
           (rate (t_escalations t) (length logs))
           (t_aiUsage t) (t_busyHours t) (t_dailyStats t))
  | Throw e => Failed (message e)
  end.

Definition getAnalytics (dateRange : jsval) : M AnalyticsResult :=
  let* logs := getLogs dateRange in
  ret (summarize logs).

(** [logDate >= cutoffDate]; false when either date is invalid. *)
Definition date_ge (a : jsval) (cutoff : option Z) : bool :=
  match Date_getTime a, cutoff with
  | Some x, Some c => (c <=? x)%Z
  | _, _ => false
  end.

Context {calendar : Calendar}.

(** The date [daysToKeep] days before the one at [t]. *)
Definition cutoffDate (daysToKeep : jsval) (t : Z) : option Z :=
  match ToNumber daysToKeep with
  | Int days => setDate_back t days
  | NaN => None
  end.

Definition cleanupOldLogs (daysToKeep : jsval) : M unit :=
  let daysToKeep := match daysToKeep with JUndefined => JNum 90 | _ => daysToKeep end in
  try_catch
    (let* w := get_world in
     let cutoff := cutoffDate daysToKeep (now w) in
     let* sheet := SheetsService.getSheet CONFIG.LOGS_SHEET in
     let* data := SheetsService.getValues sheet in
     let rowsToKeep :=
       take 1 data ++ List.filter (fun row => date_ge (cell row 0) cutoff) (drop 1 data) in
     SheetsService.clear sheet ;;
     SheetsService.setValues sheet rowsToKeep)
    (fun _ => ret tt).

End WithHost.
End LoggingService.

(** ** HTTP and small built-ins *)

(** [UrlFetchApp.fetch]: the request is recorded in the world's trace. *)
Definition fetch {host : Host} (req : Request) : M HttpResponse :=
  fun w => (UrlFetchApp_fetch req, with_fetched (fun l => l ++ [req]) w).

(** [String.prototype.trim]. *)
Definition trim (s : jsstring) : jsstring := rev (skip_space (rev (skip_space s))).

(** [v[0]]: a [TypeError] on undefined or null. *)
Definition first_item (v : jsval) : M jsval :=
  match v with
  | JUndefined | JNull => throw (TypeError (js "reading '0'"))
  | JArr l => ret (default JUndefined (l !! 0%nat))
  | JStr s => ret match s with c :: _ => JStr [c] | [] => JUndefined end
  | JObj fs => ret (default JUndefined (assoc (js "0") fs))
  | _ => ret JUndefined
  end.

(** [v.k]: a [TypeError] on undefined or null. *)
Definition member (v : jsval) (k : jsstring) : M jsval :=
  if nullish v then throw (TypeError (js "reading property of " ++ ToString v))
  else ret (prop v k).

(** The text of a JSON object key, quoted, with its colon. *)
Definition key (k : string) : jsstring := 34%N :: js k ++ [34%N; 58%N].

(** A JSON string literal without characters to escape. *)
Definition quoted (k : string) : jsstring := 34%N :: js k ++ [34%N].

(** ** [aiService.gs] *)

Module AIService.
Section WithHost.
Context {host : Host}.

Definition buildPrompt (context : jsval) : jsstring :=
  js "Eres un asistente de atención al cliente para una tienda en línea. 
    Tu objetivo es proporcionar respuestas útiles, precisas y amigables.
    
    Contexto específico: "
  ++ ToString (js_or (prop context (js "context"))
                 (JStr (js "Consulta general de atención al cliente")))
  ++ js "
    
    Instrucciones:
    - Mantén un tono profesional pero cercano
    - Proporciona información específica y accionable
    - Si no tienes información suficiente, sugiere contactar con un agente humano
    - Mantén las respuestas concisas pero completas
    - Incluye pasos específicos cuando sea apropiado
    
    Consulta del usuario: "
  ++ ToString (prop context (js "userQuery"))
  ++ js "
    
    Respuesta:".

Definition failure (error : jsstring) (provider : jsval) : jsval :=
  obj [(js "success", JBool false); (js "error", JStr error);
       (js "provider", provider)].

Definition completion (content : jsstring) (provider : jsstring) (w : World) : jsval :=
  obj [(js "success", JBool true); (js "content", JStr (trim content));
       (js "provider", JStr provider);
       (js "timestamp", JStr (toISOString (now w)))].

(** [content.trim()] exists on strings only. *)
Definition trimmed (content : jsval) : M jsstring :=
  match content with
  | JStr s => ret s
  | _ => throw (TypeError (js "content.trim is not a function"))
  end.

Definition callGemini (context : jsval) : M jsval :=
  try_catch
    (let* apiKey := getProperty (js "GEMINI_API_KEY") in
     if negb (present apiKey) then throw (Error (js "Gemini API key not configured"))
     else
       let endpoint :=
         js "https://generativelanguage.googleapis.com/v1beta/models/gemini-pro:generateContent?key="
         ++ default [] apiKey in
       let* _ := member context (js "context") in
       let prompt := buildPrompt context in
       let payload :=
         js "{" ++ key "contents" ++ js "[{" ++ key "parts" ++ js "[{" ++ key "text"
         ++ JSON_stringify (JStr prompt)
         ++ js "}]}]," ++ key "generationConfig" ++ js "{" ++ key "maxOutputTokens"
         ++ JSON_stringify (js_or (prop context (js "maxTokens")) (JNum 500))
         ++ js "," ++ key "temperature" ++ js "0.7," ++ key "topP" ++ js "0.8,"
         ++ key "topK" ++ js "40}}" in
       let options :=
         mkRequest endpoint (js "POST")
           [(js "Content-Type", js "application/json")] (Some payload) in
       let* response := fetch options in
       let* responseData := lift (parsedBody response) in
       let* found :=
         if (getResponseCode response =? 200)%Z
         then
           let* candidates := member responseData (js "candidates") in
           if truthy candidates
           then
             let* c0 := first_item candidates in
             let content0 := prop c0 (js "content") in
             let* content :=
               if nullish c0 || nullish content0 then ret JUndefined
               else
                 let* p0 := first_item (prop content0 (js "parts")) in
                 ret (prop p0 (js "text")) in
             if truthy content
             then
               let* text := trimmed content in
               let* w := get_world in
               ret (Some (completion text (js "gemini") w))
             else ret None
           else ret None
         else ret None in
       match found with
       | Some r => ret r
       | None => throw (Error (js "Invalid response from Gemini API"))
       end)
    (fun error =>
       ret (failure (js "Gemini API error: " ++ message error) (JStr (js "gemini")))).

Definition callClaude (context : jsval) : M jsval :=
  try_catch
    (let* apiKey := getProperty (js "CLAUDE_API_KEY") in
     if negb (present apiKey) then throw (Error (js "Claude API key not configured"))
     else
       let endpoint := js "https://api.anthropic.com/v1/messages" in
       let* _ := member context (js "context") in
       let prompt := buildPrompt context in
       let payload :=
         js "{" ++ key "model" ++ quoted "claude-3-sonnet-20240229" ++ js ","
         ++ key "max_tokens"
         ++ JSON_stringify (js_or (prop context (js "maxTokens")) (JNum 500))
         ++ js "," ++ key "messages" ++ js "[{" ++ key "role" ++ quoted "user"
         ++ js "," ++ key "content" ++ JSON_stringify (JStr prompt) ++ js "}]}" in
       let options :=
         mkRequest endpoint (js "POST")
           [(js "Content-Type", js "application/json");
            (js "x-api-key", default [] apiKey);
            (js "anthropic-version", js "2023-06-01")] (Some payload) in
       let* response := fetch options in
       let* responseData := lift (parsedBody response) in
       let* found :=
         if (getResponseCode response =? 200)%Z
         then
           let* content0 := member responseData (js "content") in
           if truthy content0
           then
             let* c0 := first_item content0 in
             let content := prop c0 (js "text") in
             if truthy content
             then
               let* text := trimmed content in
               let* w := get_world in
               ret (Some (completion text (js "claude") w))
             else ret None
           else ret None
         else ret None in
       match found with
       | Some r => ret r
       | None => throw (Error (js "Invalid response from Claude API"))
       end)
    (fun error =>
       ret (failure (js "Claude API error: " ++ message error) (JStr (js "claude")))).

Definition generateResponse (provider context : jsval) : M jsval :=
  try_catch
    (if is_str provider CONFIG.GEMINI then callGemini context
     else if is_str provider CONFIG.CLAUDE then callClaude context
     else throw (Error (js "Unsupported AI provider: " ++ ToString provider)))
    (fun error => ret (failure (message error) provider)).

End WithHost.
End AIService.

(** ** The MercadoLibre gateway *)

Module MercadoLibreService.
Section WithHost.
Context {host : Host}.

(** [d.setSeconds(d.getSeconds() + v)] on [d = new Date()], then
    [d.toISOString()], which throws on an invalid date.  The sum is a
    text concatenation when [v] is not a number or boolean. *)
Definition expiry_after (w : World) (expires_in : jsval) : outcome jsstring :=
  let sec := getSeconds (localTime (now w)) in
  let target :=
    match expires_in with
    | JStr _ | JArr _ | JObj _ =>
        StringToNumber (Z_to_decimal sec ++ ToString expires_in)
    | _ => num_add (Int sec) (ToNumber expires_in)
    end in
  match target with
  | Int n =>
      match Date_setSeconds (now w) n with
      | Some t => Ret (toISOString t)
      | None => Throw (RangeError (js "Invalid time value"))
      end
  | NaN => Throw (RangeError (js "Invalid time value"))
  end.

Definition refreshAccessToken : M jsval :=
  try_catch
    (let* clientId := getProperty (js "ML_CLIENT_ID") in
     let* clientSecret := getProperty (js "ML_CLIENT_SECRET") in
     let* refreshToken := getProperty (js "ML_REFRESH_TOKEN") in
     if negb (present clientId) || negb (present clientSecret)
        || negb (present refreshToken)
     then throw (Error (js "Missing required credentials for token refresh"))
     else
       let endpoint := js "https://api.mercadolibre.com/oauth/token" in
       let payload :=
         js "grant_type=" ++ encodeURIComponent (js "refresh_token")
         ++ js "&client_id=" ++ encodeURIComponent (default [] clientId)
         ++ js "&client_secret=" ++ encodeURIComponent (default [] clientSecret)
         ++ js "&refresh_token=" ++ encodeURIComponent (default [] refreshToken) in
       let options :=
         mkRequest endpoint (js "POST")
           [(js "Accept", js "application/json");
            (js "Content-Type", js "application/x-www-form-urlencoded")]
           (Some payload) in
       let* response := fetch options in
       let* responseData := lift (parsedBody response) in
       let* granted :=
         if (getResponseCode response =? 200)%Z
         then let* t := member responseData (js "access_token") in ret (truthy t)
         else ret false in
       if granted
       then
         let access_token := prop responseData (js "access_token") in
         let* w := get_world in
         let* expirationDate := lift (expiry_after w (prop responseData (js "expires_in"))) in
         let newProperties :=
           [(js "ML_ACCESS_TOKEN", ToString access_token);
            (js "ML_ACCESS_TOKEN_FECHA_EXPIRA", expirationDate)] in
         let newProperties :=
           if truthy (prop responseData (js "refresh_token"))
           then newProperties
                  ++ [(js "ML_REFRESH_TOKEN", ToString (prop responseData (js "refresh_token")))]
           else newProperties in
         setProperties newProperties ;;
         ret access_token
       else
         let* description := member responseData (js "error_description") in
         throw (Error (js "Token refresh failed: "
                       ++ ToString (js_or description (JStr (js "Unknown error"))))))
    (fun error =>
       LoggingService.logError (js "refreshAccessToken") error JUndefined ;;
       ret JNull).

Definition bufferTime : Z := 5 * 60 * 1000.

Definition getValidAccessToken : M jsval :=
  try_catch
    (let* currentToken := getProperty (js "ML_ACCESS_TOKEN") in
     let* expirationDate := getProperty (js "ML_ACCESS_TOKEN_FECHA_EXPIRA") in
     let* w := get_world in
     if present currentToken && present expirationDate
        && match Date_getTime (JStr (default [] expirationDate)) with
           | Some expiry => (now w <? expiry - bufferTime)%Z
           | None => false
           end
     then ret (JStr (default [] currentToken))
     else refreshAccessToken)
    (fun _ => ret JNull).

(** The tail shared by the three operations: parse the body, then
    succeed on status 200 and throw the upstream message otherwise. *)
Definition answer (response : HttpResponse) : M jsval :=
  let* responseData := lift (parsedBody response) in
  if (getResponseCode response =? 200)%Z
  then
    let* w := get_world in
    ret (obj [(js "success", JBool true); (js "data", responseData);
              (js "timestamp", JStr (toISOString (now w)))])
  else
    let* msg := member responseData (js "message") in
    throw (Error (js "ML API error: " ++ ToString (js_or msg (JStr (js "Unknown error"))))).

Definition failure (error : exn) : jsval :=
  obj [(js "success", JBool false); (js "error", JStr (message error))].

Definition bearer (token : jsval) : list (jsstring * jsstring) :=
  [(js "Authorization", js "Bearer " ++ ToString token);
   (js "Content-Type", js "application/json")].


Definition getOrderDetails (orderId : jsval) : M jsval :=
  try_catch
    (let* token := getValidAccessToken in
     if negb (truthy token) then throw (Error (js "No valid access token available"))
     else
       let endpoint := js "https://api.mercadolibre.com/orders/" ++ ToString orderId in
       let options := mkRequest endpoint (js "GET") (bearer token) None in
       let* response := fetch options in
       answer response)
    (fun error =>
       LoggingService.logError (js "getOrderDetails") error
         (obj [(js "orderId", orderId)]) ;;
       ret (failure error)).

Definition getProductInfo (itemId : jsval) : M jsval :=
  try_catch
    (let endpoint := js "https://api.mercadolibre.com/items/" ++ ToString itemId in
     let options :=
       mkRequest endpoint (js "GET") [(js "Content-Type", js "application/json")] None in
     let* response := fetch options in
     answer response)
    (fun error => ret (failure error)).

End WithHost.
End MercadoLibreService.

(** ** [configService.gs] *)

Record DaySchedule : Type := mkDay {
  open : bool;
  start : jsval;
  end_ : jsval
}.

Record BusinessHours : Type := mkHours {
  schedule : list DaySchedule;
  display : jsstring;
  timezone : jsstring
}.

(** [s.split(sep)] for a one-unit separator. *)
Fixpoint split_on (sep : N) (s : jsstring) : list jsstring :=
  match s with
  | [] => [[]]
  | c :: r =>
      if (c =? sep)%N then [] :: split_on sep r
      else match split_on sep r with
           | [] => [[c]]
           | p :: ps => (c :: p) :: ps
           end
  end.

Module ConfigService.

Definition cacheTimeout : Z := 5 * 60 * 1000.

Definition getDefaultConfig : jsval :=
  obj [(js "business_hours_start", JStr (js "09:00"));
       (js "business_hours_end", JStr (js "18:00"));
       (js "business_days", JStr (js "Mon,Tue,Wed,Thu,Fri"));
       (js "greeting_business_hours",
        JStr (js "¡Hola! Bienvenido a nuestro servicio de atención al cliente. ¿En qué puedo ayudarte?"));
       (js "greeting_after_hours",
        JStr (js "Hola. Actualmente estamos fuera del horario de atención, pero puedo ayudarte con algunas consultas básicas."));
       (js "footer_message",
        JStr (js "Escribe el número de la opción que necesitas o describe tu consulta."));
       (js "max_ai_tokens", JNum 500);
       (js "default_ai_provider", JStr (js "gemini"));
       (js "escalation_timeout", JNum 300);
       (js "session_timeout", JNum 1800)].

Definition getDefaultBusinessHours : BusinessHours :=
  let closed := mkDay false JUndefined JUndefined in
  let opened := mkDay true (JStr (js "09:00")) (JStr (js "18:00")) in
  mkHours [closed; opened; opened; opened; opened; opened; closed]
    (js "09:00 - 18:00, Mon-Fri") (js "America/Argentina/Buenos_Aires").

(** A text that is a number becomes that number, ["true"] and ["false"]
    become booleans, anything else stays as it is. *)
Definition parseConfigValue (value : jsval) : jsval :=
  match value with
  | JStr s =>
      match StringToNumber s, trim s with
      | Int z, _ :: _ => JNum z
      | _, _ =>
          if bool_decide (toLowerCase s = js "true") then JBool true
          else if bool_decide (toLowerCase s = js "false") then JBool false
          else value
      end
  | _ => value
  end.

Definition getConfig : M jsval :=
  try_catch
    (let* w := get_world in
     let cached :=
       match configCache w with
       | Some (cache, expiry) =>
           if negb (expiry =? 0)%Z && (now w <? expiry)%Z then Some cache else None
       | None => None
       end in
     match cached with
     | Some cache => ret cache
     | None =>
         let* sheet := SheetsService.getSheet CONFIG.SETTINGS_SHEET in
         let* data := SheetsService.getValues sheet in
         let config :=
           JObj (fold_left
                   (fun acc row =>
                      if truthy (cell row 0)
                      then assoc_set (ToString (cell row 0)) (parseConfigValue (cell row 1)) acc
                      else acc)
                   (drop 1 data) []) in
         (fun w => (Ret tt, with_configCache (Some (config, now w + cacheTimeout)%Z) w)) ;;
         ret config
     end)
    (fun _ => ret getDefaultConfig).

Definition daysMap (day : jsstring) : option nat :=
  if bool_decide (day = js "Sun") then Some 0%nat
  else if bool_decide (day = js "Mon") then Some 1%nat
  else if bool_decide (day = js "Tue") then Some 2%nat
  else if bool_decide (day = js "Wed") then Some 3%nat
  else if bool_decide (day = js "Thu") then Some 4%nat
  else if bool_decide (day = js "Fri") then Some 5%nat
  else if bool_decide (day = js "Sat") then Some 6%nat
  else None.

Definition getBusinessHours : M BusinessHours :=
  try_catch
    (let* config := getConfig in
     let startTime := js_or (prop config (js "business_hours_start")) (JStr (js "09:00")) in
     let endTime := js_or (prop config (js "business_hours_end")) (JStr (js "18:00")) in
     let businessDays :=
       js_or (prop config (js "business_days")) (JStr (js "Mon,Tue,Wed,Thu,Fri")) in
     match businessDays with
     | JStr days =>
         let activeDays := List.map (fun day => daysMap (trim day)) (split_on 44 days) in
         let schedule :=
           List.map
             (fun i => mkDay (existsb (fun d => bool_decide (d = Some i)) activeDays)
                         startTime endTime)
             (seq 0 7) in
         ret (mkHours schedule
                (ToString startTime ++ js " - " ++ ToString endTime ++ js ", " ++ days)
                (js "America/Argentina/Buenos_Aires"))
     | _ => throw (TypeError (js "businessDays.split is not a function"))
     end)
    (fun _ => ret getDefaultBusinessHours).

Definition getGreetings : M (jsval * jsval) :=
  let* config := getConfig in
  ret (js_or (prop config (js "greeting_business_hours"))
         (JStr (js "¡Hola! Bienvenido a nuestro servicio de atención al cliente. ¿En qué puedo ayudarte?")),
       js_or (prop config (js "greeting_after_hours"))
         (JStr (js "Hola. Actualmente estamos fuera del horario de atención, pero puedo ayudarte con algunas consultas básicas."))).

Definition getFooterMessage : M jsval :=
  let* config := getConfig in
  ret (js_or (prop config (js "footer_message"))
         (JStr (js "Escribe el número de la opción que necesitas o describe tu consulta."))).

Definition initializeConfig : M unit :=
  try_catch
    (let* sheet := SheetsService.getSheet CONFIG.SETTINGS_SHEET in
     let* existingData := SheetsService.getValues sheet in
     ret tt)
    (fun _ => ret tt).

(** The index of the first element that passes the test. *)
Fixpoint first_index {A} (test : A -> bool) (l : list A) : option nat :=
  match l with
  | [] => None
  | x :: r => if test x then Some 0%nat else option_map S (first_index test r)
  end.

(** The list with [v] at index [i]; a list too short for that is
    filled up with [blank]. *)
Fixpoint write_at {A} (blank : A) (i : nat) (v : A) (l : list A) : list A :=
  match i, l with
  | O, [] => [v]
  | O, _ :: r => v :: r
  | S i, [] => blank :: write_at blank i v []
  | S i, x :: r => x :: write_at blank i v r
  end.

(** [sheet.getRange(row, column).setValue(value)], rows and columns
    counted from 1; cells not yet in the grid are empty. *)
Definition setValue (sheet : jsstring) (row column : nat) (value : jsval) : M unit :=
  fun w =>
    (Ret tt,
     with_sheets
       (fun m =>
          let rows := default [] (m !! sheet) in
          <[sheet := write_at [] (pred row)
                       (write_at (JStr []) (pred column) value
                          (default [] (rows !! pred row)))
                       rows]> m) w).

(** The loop looks for the first data row whose first cell is strictly
    equal to the key: [data[i]] is row [i + 1] of the sheet. *)
Definition set (key value : jsval) : M unit :=
  try_catch
    (let* sheet := SheetsService.getSheet CONFIG.SETTINGS_SHEET in
     let* data := SheetsService.getValues sheet in
     match first_index (fun row => strict_eq (cell row 0) key) (drop 1 data) with
     | Some j => setValue sheet (S (S j)) 2 value
     | None => SheetsService.appendRow sheet [key; value; JStr []]
     end ;;
     fun w => (Ret tt, with_configCache None w))
    (fun _ => ret tt).

End ConfigService.

Example split_on_time : split_on 58 (js "09:00") = [js "09"; js "00"].
Proof. reflexivity. Qed.

(** ** [menuService.gs] *)

(** The AI gateway as the menu and chat services call it. *)
Class AIGateway : Type := {
  ai_generateResponse : jsval -> jsval -> M jsval
}.

Module MenuService.

Record MenuOption : Type := mkOption {
  number : jsval;
  title : jsval;
  responseType : jsval;
  response : jsval;
  aiProvider : jsval;
  aiContext : jsval;
  escalationMessage : jsval;
  afterHoursMessage : jsval;
  fallbackResponse : jsval;
  returnToMenu : bool;
  active : bool;
  maxTokens : jsval
}.

Definition option_obj (o : MenuOption) : jsval :=
  obj [(js "number", number o); (js "title", title o);
       (js "responseType", responseType o); (js "response", response o);
       (js "aiProvider", aiProvider o); (js "aiContext", aiContext o);
       (js "escalationMessage", escalationMessage o);
       (js "afterHoursMessage", afterHoursMessage o);
       (js "fallbackResponse", fallbackResponse o);
       (js "returnToMenu", JBool (returnToMenu o));
       (js "active", JBool (active o)); (js "maxTokens", maxTokens o)].

(** [{ ...option, response: r }]. *)
Definition with_response (o : MenuOption) (r : jsval) : MenuOption :=
  mkOption (number o) (title o) (responseType o) r (aiProvider o) (aiContext o)
    (escalationMessage o) (afterHoursMessage o) (fallbackResponse o)
    (returnToMenu o) (active o) (maxTokens o).

(** The object built from one row of the menu sheet. *)
Definition menuItem (row : list jsval) : MenuOption :=
  mkOption (cell row 0) (cell row 1) (cell row 2) (cell row 3) (cell row 4)
    (cell row 5) (cell row 6) (cell row 7) (cell row 8)
    (not_false (cell row 9)) (not_false (cell row 10))
    (js_or (cell row 11) (JNum 500)).

(** [item.number && item.title]. *)
Definition kept (item : MenuOption) : bool :=
  truthy (number item) && truthy (title item).

(** The menu read from the grid of the sheet, header row skipped. *)
Definition menuItems (data : list (list jsval)) : list MenuOption :=
  List.filter kept (List.map menuItem (drop 1 data)).

Definition parseTime (timeString : jsval) : outcome jsnum :=
  match timeString with
  | JStr s =>
      let parts := List.map StringToNumber (split_on 58 s) in
      let hours := default NaN (parts !! 0%nat) in
      let minutes := default NaN (parts !! 1%nat) in
      Ret (num_add (num_mul hours (Int 60)) minutes)
  | _ => Throw (TypeError (js "timeString.split is not a function"))
  end.

Definition isWithinBusinessHours (currentTime : LocalTime)
  (businessHours : BusinessHours) : bool :=
  let currentDay := getDay currentTime in
  let currentHour := getHours currentTime in
  let currentMinute := getMinutes currentTime in
  let currentTimeMinutes := (currentHour * 60 + currentMinute)%Z in
  match schedule businessHours !! currentDay with
  | None => false
  | Some daySchedule =>
      if negb (open daySchedule) then false
      else
        match parseTime (start daySchedule), parseTime (end_ daySchedule) with
        | Ret openTime, Ret closeTime =>
            num_le openTime (Int currentTimeMinutes)
            && num_le (Int currentTimeMinutes) closeTime
        | _, _ => false
        end
  end.

Section WithHost.
Context {host : Host} {ai : AIGateway}.

Definition getMenuConfig : M (list MenuOption) :=
  try_catch
    (let* sheet := SheetsService.getSheet CONFIG.MENU_SHEET in
     let* data := SheetsService.getValues sheet in
     ret (menuItems data))
    (fun _ => ret []).

Definition getGreeting (isBusinessHours : bool) : M jsval :=
  let* greetings := ConfigService.getGreetings in
  ret (if isBusinessHours then greetings.1 else greetings.2).

Definition getFooter : M jsval := ConfigService.getFooterMessage.

Definition getMenu : M jsval :=
  try_catch
    (let* menuConfig := getMenuConfig in
     let* w := get_world in
     let currentTime := now w in
     let* businessHours := ConfigService.getBusinessHours in
     let isBusinessHours := isWithinBusinessHours (localTime currentTime) businessHours in
     let* greeting := getGreeting isBusinessHours in
     let* footer := getFooter in
     let menu :=
       obj [(js "success", JBool true);
            (js "timestamp", JStr (toISOString currentTime));
            (js "businessHours", JBool isBusinessHours);
            (js "greeting", greeting);
            (js "options", JArr (List.map option_obj (List.filter active menuConfig)));
            (js "footer", footer)] in
     LoggingService.logInteraction (js "menu_display") JNull menu ;;
     ret menu)
    (fun error =>
       let* w := get_world in
       ret (obj [(js "success", JBool false);
                 (js "error", JStr (js "No se pudo cargar el menú. Intenta nuevamente."));
                 (js "timestamp", JStr (toISOString (now w)))])).

Definition handleStaticResponse (option : MenuOption) (sessionId : jsval) : M jsval :=
  let* w := get_world in
  let response :=
    obj [(js "success", JBool true);
         (js "type", JStr (js "static"));
         (js "title", title option);
         (js "message", response option);
         (js "showMenu", JBool (returnToMenu option));
         (js "timestamp", JStr (toISOString (now w)))] in
  LoggingService.logInteraction (js "static_response") sessionId response ;;
  ret response.

Definition handleAIResponse (option : MenuOption) (sessionId : jsval) : M jsval :=
  try_catch
    (let aiProvider := js_or (aiProvider option) (JStr CONFIG.GEMINI) in
     let context :=
       obj [(js "userQuery", title option);
            (js "context", js_or (aiContext option) (JStr []));
            (js "maxTokens", js_or (maxTokens option) (JNum 500))] in
     let* aiResponse := ai_generateResponse aiProvider context in
     let* ok := member aiResponse (js "success") in
     if truthy ok
     then
       let* w := get_world in
       let response :=
         obj [(js "success", JBool true);
              (js "type", JStr (js "ai"));
              (js "title", title option);
              (js "message", prop aiResponse (js "content"));
              (js "provider", aiProvider);
              (js "showMenu", JBool (returnToMenu option));
              (js "timestamp", JStr (toISOString (now w)))] in
       LoggingService.logInteraction (js "ai_response") sessionId response ;;
       ret response
     else
       handleStaticResponse
         (with_response option
            (js_or (fallbackResponse option)
               (JStr (js "Lo siento, no puedo procesar tu consulta en este momento."))))
         sessionId)
    (fun error =>
       handleStaticResponse
         (with_response option
            (js_or (fallbackResponse option)
               (JStr (js "Error en el servicio de IA. Intenta nuevamente."))))
         sessionId).

Definition handleEscalation (option : MenuOption) (sessionId : jsval) : M jsval :=
  let* w := get_world in
  let currentTime := now w in
  let* businessHours := ConfigService.getBusinessHours in
  let isBusinessHours := isWithinBusinessHours (localTime currentTime) businessHours in
  let* message :=
    if isBusinessHours
    then
      LoggingService.logEscalation sessionId (title option) (js "pending") ;;
      ret (js_or (escalationMessage option)
             (JStr (js "Te estoy conectando con un agente humano. Por favor espera un momento.")))
    else
      LoggingService.logEscalation sessionId (title option) (js "after_hours") ;;
      ret (js_or (afterHoursMessage option)
             (JStr (js "Actualmente estamos fuera del horario de atención ("
                    ++ display businessHours
                    ++ js "). Tu consulta será atendida en el próximo horario hábil."))) in
  ret (obj [(js "success", JBool true);
            (js "type", JStr (js "escalation"));
            (js "title", title option);
            (js "message", message);
            (js "businessHours", JBool isBusinessHours);
            (js "showMenu", JBool false);
            (js "timestamp", JStr (toISOString currentTime))]).

(** [menuConfig.find(option => option.number.toString() ===
    selection.toString() && option.active)]: the callback runs on the
    first option already, so a missing selection throws unless the menu
    is empty. *)
Definition findOption (menuConfig : list MenuOption) (selection : jsval)
  : M (option MenuOption) :=
  match menuConfig with
  | [] => ret None
  | _ :: _ =>
      let* wanted := toString_method selection in
      ret (List.find
             (fun option => bool_decide (ToString (number option) = wanted) && active option)
             menuConfig)
  end.

Definition processSelection (selection sessionId : jsval) : M jsval :=
  try_catch
    (let* menuConfig := getMenuConfig in
     let* selectedOption := findOption menuConfig selection in
     match selectedOption with
     | None =>
         ret (obj [(js "success", JBool false);
                   (js "message",
                    JStr (js "Selección inválida. Por favor elige una opción del menú."));
                   (js "showMenu", JBool true)])
     | Some selectedOption =>
         LoggingService.logInteraction (js "menu_selection") sessionId
           (obj [(js "selection", selection); (js "option", title selectedOption)]) ;;
         if is_str (responseType selectedOption) CONFIG.STATIC
         then handleStaticResponse selectedOption sessionId
         else if is_str (responseType selectedOption) CONFIG.AI
         then handleAIResponse selectedOption sessionId
         else if is_str (responseType selectedOption) CONFIG.ESCALATE
         then handleEscalation selectedOption sessionId
         else
           ret (obj [(js "success", JBool false);
                     (js "message", JStr (js "Configuración inválida para esta opción."));
                     (js "showMenu", JBool true)])
     end)
    (fun error =>
       LoggingService.logError (js "processSelection") error
         (obj [(js "selection", selection); (js "sessionId", sessionId)]) ;;
       ret (obj [(js "success", JBool false);
                 (js "message", JStr (js "Error procesando tu selección. Intenta nuevamente."));
                 (js "showMenu", JBool true)])).

End WithHost.
End MenuService.

(** ** The chat service *)

Inductive Strategy : Type :=
| menu_request
| order_inquiry (context : jsval)
| product_inquiry (context : jsval)
| escalation
| general_ai (context : jsval).

Definition strategy_type (s : Strategy) : jsstring :=
  match s with
  | menu_request => js "menu_request"
  | order_inquiry _ => js "order_inquiry"
  | product_inquiry _ => js "product_inquiry"
  | escalation => js "escalation"
  | general_ai _ => js "general_ai"
  end.

Module ChatService.
Section WithHost.
Context {host : Host} {ai : AIGateway}.

Definition sessionKey (sessionId : jsval) : jsstring :=
  js "SESSION_" ++ ToString sessionId.

Definition getSessionContext (sessionId : jsval) : M jsval :=
  let* contextData := getProperty (sessionKey sessionId) in
  if present contextData then lift (JSON_parse (default [] contextData))
  else ret (JObj []).

Definition updateSessionContext (sessionId updates : jsval) : M unit :=
  let* currentContext := getSessionContext sessionId in
  let newContext :=
    JObj (fold_left (fun acc kv => assoc_set kv.1 kv.2 acc) (spread updates)
            (spread currentContext)) in
  setProperty (sessionKey sessionId) (JSON_stringify newContext).

Definition containsOrderKeywords (message : jsstring) : bool :=
  existsb (fun keyword => includes message keyword)
    [js "pedido"; js "orden"; js "compra"; js "envío"; js "seguimiento";
     js "rastreo"; js "entrega"].

Definition containsProductKeywords (message : jsstring) : bool :=
  existsb (fun keyword => includes message keyword)
    [js "producto"; js "artículo"; js "disponibilidad"; js "precio";
     js "stock"; js "característica"].

Definition containsEscalationKeywords (message : jsstring) : bool :=
  existsb (fun keyword => includes message keyword)
    [js "agente"; js "humano"; js "persona"; js "hablar"; js "representante";
     js "ayuda directa"].

(** The chat service defines no method of this name: the call
    [this.extractOrderContext(message)] is a [TypeError]. *)
Definition extractOrderContext (message : jsval) : M jsval :=
  throw (TypeError (js "this.extractOrderContext is not a function")).

(** Likewise for [this.extractProductContext(message)]. *)
Definition extractProductContext (message : jsval) : M jsval :=
  throw (TypeError (js "this.extractProductContext is not a function")).

Definition determineResponseStrategy (message context : jsval) : M Strategy :=
  match message with
  | JStr m =>
      let lowerMessage := toLowerCase m in
      if includes lowerMessage (js "menú") || includes lowerMessage (js "menu")
         || includes lowerMessage (js "opciones") || includes lowerMessage (js "ayuda")
      then ret menu_request
      else if containsOrderKeywords lowerMessage
      then let* c := extractOrderContext message in ret (order_inquiry c)
      else if containsProductKeywords lowerMessage
      then let* c := extractProductContext message in ret (product_inquiry c)
      else if containsEscalationKeywords lowerMessage
      then ret escalation
      else ret (general_ai (obj [(js "userMessage", message);
                                 (js "sessionContext", context)]))
  | _ => throw (TypeError (js "message.toLowerCase is not a function"))
  end.

(** [message.match(pattern)] with [match ? match[0] : null]. *)
Definition match0 (pattern : list atom) (message : jsval) : M (option jsstring) :=
  match message with
  | JStr m => ret (search pattern m)
  | _ => throw (TypeError (js "message.match is not a function"))
  end.

Definition extractOrderId (message : jsval) : M (option jsstring) :=
  match0 orderIdPattern message.

Definition extractProductId (message : jsval) : M (option jsstring) :=
  match0 productIdPattern message.

Definition formatOrderInfo (orderData : jsval) : M jsstring :=
  let* id := member orderData (js "id") in
  ret (js "📦 **Información del Pedido**
    
**Número:** " ++ ToString id ++ js "
**Estado:** " ++ ToString (prop orderData (js "status")) ++ js "
**Total:** $" ++ ToString (prop orderData (js "total_amount")) ++ js "
**Fecha:** " ++ toLocaleDateString (prop orderData (js "date_created")) ++ js "

¿Necesitas más información sobre este pedido?").

Definition formatProductInfo (productData : jsval) : M jsstring :=
  let* title := member productData (js "title") in
  ret (js "🛍️ **" ++ ToString title ++ js "**
    
**Precio:** $" ++ ToString (prop productData (js "price")) ++ js "
**Disponibles:** " ++ ToString (prop productData (js "available_quantity")) ++ js "
**Condición:** " ++ ToString (prop productData (js "condition")) ++ js "

¿Te interesa este producto o necesitas más información?").

Definition handleDefault (message sessionId : jsval) : M jsval :=
  let* w := get_world in
  ret (obj [(js "success", JBool true);
            (js "type", JStr (js "default"));
            (js "message",
             JStr (js "Entiendo tu consulta. ¿Te gustaría ver el menú de opciones disponibles o prefieres que te conecte con un agente humano?"));
            (js "showMenu", JBool true);
            (js "timestamp", JStr (toISOString (now w)))]).

(** The non-empty match text is truthy; [null] and the empty text are not. *)
Definition found (id : option jsstring) : bool := present id.

Definition handleOrderInquiry (message sessionId context : jsval) : M jsval :=
  try_catch
    (let* orderId := extractOrderId message in
     let* answered :=
       if found orderId
       then
         let* orderDetails :=
           MercadoLibreService.getOrderDetails (JStr (default [] orderId)) in
         let* ok := member orderDetails (js "success") in
         if truthy ok
         then
           let* orderInfo := formatOrderInfo (prop orderDetails (js "data")) in
           let* w := get_world in
           ret (Some (obj [(js "success", JBool true);
                           (js "type", JStr (js "order_info"));
                           (js "message", JStr orderInfo);
                           (js "data", prop orderDetails (js "data"));
                           (js "showMenu", JBool true);
                           (js "timestamp", JStr (toISOString (now w)))]))
         else ret None
       else ret None in
     match answered with
     | Some r => ret r
     | None =>
         let aiContext :=
           obj [(js "userQuery", message);
                (js "context",
                 JStr (js "El usuario está preguntando sobre pedidos. Proporciona información general sobre cómo consultar pedidos, estados de envío, y políticas de devolución."));
                (js "maxTokens", JNum 300)] in
         ai_generateResponse (JStr CONFIG.GEMINI) aiContext
     end)
    (fun error => handleDefault message sessionId).

Definition handleProductInquiry (message sessionId context : jsval) : M jsval :=
  try_catch
    (let* productId := extractProductId message in
     let* answered :=
       if found productId
       then
         let* productInfo :=
           MercadoLibreService.getProductInfo (JStr (default [] productId)) in
         let* ok := member productInfo (js "success") in
         if truthy ok
         then
           let* formattedInfo := formatProductInfo (prop productInfo (js "data")) in
           let* w := get_world in
           ret (Some (obj [(js "success", JBool true);
                           (js "type", JStr (js "product_info"));
                           (js "message", JStr formattedInfo);
                           (js "data", prop productInfo (js "data"));
                           (js "showMenu", JBool true);
                           (js "timestamp", JStr (toISOString (now w)))]))
         else ret None
       else ret None in
     match answered with
     | Some r => ret r
     | None =>
         let aiContext :=
           obj [(js "userQuery", message);
                (js "context",
                 JStr (js "El usuario está preguntando sobre productos. Ayuda con información sobre disponibilidad, características, precios, y recomendaciones."));
                (js "maxTokens", JNum 300)] in
         ai_generateResponse (JStr CONFIG.GEMINI) aiContext
     end)
    (fun error => handleDefault message sessionId).

Definition handleGeneralAI (message sessionId context : jsval) : M jsval :=
  let aiContext :=
    obj [(js "userQuery", message);
         (js "context",
          JStr (js "Conversación general de atención al cliente. Mantén un tono amigable y profesional."));
         (js "maxTokens", JNum 400)] in
  let* aiResponse := ai_generateResponse (JStr CONFIG.GEMINI) aiContext in
  let* ok := member aiResponse (js "success") in
  if truthy ok
  then
    let* w := get_world in
    ret (obj [(js "success", JBool true);
              (js "type", JStr (js "ai_chat"));
              (js "message", prop aiResponse (js "content"));
              (js "showMenu", JBool true);
              (js "timestamp", JStr (toISOString (now w)))])
  else handleDefault message sessionId.

Definition handleChatEscalation (message sessionId : jsval) : M jsval :=
  let* w := get_world in
  let currentTime := now w in
  let* businessHours := ConfigService.getBusinessHours in
  let isBusinessHours :=
    MenuService.isWithinBusinessHours (localTime currentTime) businessHours in
  LoggingService.logEscalation sessionId message
    (if isBusinessHours then js "pending" else js "after_hours") ;;
  let escalationMessage :=
    if isBusinessHours
    then js "Te conectaré con un agente humano. Por favor espera un momento mientras te transfiero."
    else js "Actualmente estamos fuera del horario de atención. Tu consulta será atendida en el próximo horario hábil." in
  ret (obj [(js "success", JBool true);
            (js "type", JStr (js "escalation"));
            (js "message", JStr escalationMessage);
            (js "businessHours", JBool isBusinessHours);
            (js "showMenu", JBool false);
            (js "timestamp", JStr (toISOString currentTime))]).

Definition processMessage (message sessionId : jsval) : M jsval :=
  try_catch
    (let* sessionContext := getSessionContext sessionId in
     let* responseStrategy := determineResponseStrategy message sessionContext in
     let* response :=
       match responseStrategy with
       | menu_request => MenuService.getMenu
       | order_inquiry context => handleOrderInquiry message sessionId context
       | product_inquiry context => handleProductInquiry message sessionId context
       | general_ai context => handleGeneralAI message sessionId context
       | escalation => handleChatEscalation message sessionId
       end in
     let* w := get_world in
     updateSessionContext sessionId
       (obj [(js "lastMessage", message); (js "lastResponse", response);
             (js "timestamp", JStr (toISOString (now w)))]) ;;
     LoggingService.logInteraction (js "chat_message") sessionId
       (obj [(js "userMessage", message);
             (js "responseType", JStr (strategy_type responseStrategy));
             (js "botResponse", response)]) ;;
     ret response)
    (fun error =>
       LoggingService.logError (js "processMessage") error
         (obj [(js "message", message); (js "sessionId", sessionId)]) ;;
       let* w := get_world in
       ret (obj [(js "success", JBool false);
                 (js "message",
                  JStr (js "Lo siento, ocurrió un error procesando tu mensaje. ¿Podrías intentar nuevamente?"));
                 (js "showMenu", JBool true);
                 (js "timestamp", JStr (toISOString (now w)))])).

End WithHost.
End ChatService.

(** ** [main.gs] *)

Section Main.
Context {host : Host} {ai : AIGateway}.

Definition isSystemInitialized : M bool :=
  let* v := getProperty (js "SYSTEM_INITIALIZED") in
  ret (bool_decide (v = Some (js "true"))).

Definition initializeSystem : M unit :=
  try_catch
    (SheetsService.initializeSheets ;;
     ConfigService.initializeConfig ;;
     setProperty (js "SYSTEM_INITIALIZED") (js "true"))
    (fun error => throw error).

Definition errorEnvelope (w : World) : jsval :=
  obj [(js "success", JBool false);
       (js "error", JStr (js "Lo siento, ocurriÃ³ un error. Por favor intenta nuevamente."));
       (js "timestamp", JStr (toISOString (now w)))].

(** The body of the [try] block. *)
Definition dispatch (params : jsval) : M jsval :=
  let* initialized := isSystemInitialized in
  (if negb initialized then initializeSystem else ret tt) ;;
  let* action := member params (js "action") in
  let userInput := prop params (js "userInput") in
  let sessionId := prop params (js "sessionId") in
  if is_str action (js "getMenu") then MenuService.getMenu
  else if is_str action (js "processSelection")
  then MenuService.processSelection userInput sessionId
  else if is_str action (js "sendMessage")
  then ChatService.processMessage userInput sessionId
  else MenuService.getMenu.

Definition handleChatbotRequest (params : jsval) : M jsval :=
  let params := match params with JUndefined => JObj [] | _ => params end in
  try_catch
    (dispatch params)
    (fun error =>
       LoggingService.logError (js "handleChatbotRequest") error params ;;
       let* w := get_world in
       ret (errorEnvelope w)).

End Main.

(** The gateway of the deployed system is [aiService.gs]. *)
Definition deployed {host : Host} : AIGateway :=
  {| ai_generateResponse := AIService.generateResponse |}.

(** * Properties *)

Arguments js : simpl never.

(** Literals are compared as they are written: [js] is unfolded last. *)
Strategy 100 [js].

(** Unfolds the plumbing of the exception-and-state monad. *)
Ltac munfold :=
  cbv beta iota delta [bind try_catch ret throw get_world put_world lift].

Ltac munfold_in H :=
  cbv beta iota delta [bind try_catch ret throw get_world put_world lift] in H.

(** Closed goals: split the conjunctions and evaluate each side. *)
Ltac evaluate :=
  repeat match goal with |- _ /\ _ => split end; vm_compute; reflexivity.

(** A computation that returns on every world. *)
Definition never_throws {A} (m : M A) : Prop :=
  forall w, exists a w', m w = (Ret a, w').

Lemma never_throws_ret {A} (a : A) : never_throws (ret a).
Proof. intros w. by exists a, w. Qed.

Lemma never_throws_bind {A B} (m : M A) (k : A -> M B) :
  never_throws m -> (forall a, never_throws (k a)) -> never_throws (bind m k).
Proof.
  intros Hm Hk w. destruct (Hm w) as (a & w1 & E).
  destruct (Hk a w1) as (b & w2 & E2).
  exists b, w2. munfold. by rewrite E.
Qed.

(** A [try] whose handler always returns never lets an exception out. *)
Lemma never_throws_try_catch {A} (body : M A) (handler : exn -> M A) :
  (forall e, never_throws (handler e)) -> never_throws (try_catch body handler).
Proof.
  intros Hh w. munfold.
  destruct (body w) as [[a | e] w1].
  - by exists a, w1.
  - apply Hh.
Qed.

(** A computation that never throws is its own [try]. *)
Lemma try_catch_never_throws {A} (body : M A) (handler : exn -> M A) w :
  never_throws body -> try_catch body handler w = body w.
Proof.
  intros Hb. munfold. destruct (Hb w) as (a & w1 & E). by rewrite E.
Qed.

(** ** Business hours (menuService.gs, [isWithinBusinessHours]) *)

Section BusinessHoursProps.

Lemma parseTime_0900 : MenuService.parseTime (JStr (js "09:00")) = Ret (Int 540).
Proof. reflexivity. Qed.

Lemma parseTime_1800 : MenuService.parseTime (JStr (js "18:00")) = Ret (Int 1080).
Proof. reflexivity. Qed.

(** With the day's entry open from 09:00 to 18:00 the test is the
    closed interval of minutes [540, 1080]. *)
Lemma within_nine_to_six (bh : BusinessHours) (t : LocalTime) (d : DaySchedule) :
  schedule bh !! getDay t = Some d ->
  open d = true ->
  start d = JStr (js "09:00") ->
  end_ d = JStr (js "18:00") ->
  MenuService.isWithinBusinessHours t bh
  = ((540 <=? getHours t * 60 + getMinutes t)
     && (getHours t * 60 + getMinutes t <=? 1080))%Z.
Proof.
  intros Hd Ho Hs He. unfold MenuService.isWithinBusinessHours.
  rewrite Hd, Ho, Hs, He, parseTime_0900, parseTime_1800. reflexivity.
Qed.

Lemma closed_day (bh : BusinessHours) (t : LocalTime) (d : DaySchedule) :
  schedule bh !! getDay t = Some d ->
  open d = false ->
  MenuService.isWithinBusinessHours t bh = false.
Proof.
  intros Hd Ho. unfold MenuService.isWithinBusinessHours. by rewrite Hd, Ho.
Qed.

End BusinessHoursProps.

(** C6.  For a schedule whose entry for the weekday is open from '09:00'
    to '18:00', the business-hours test holds exactly when the minutes
    since midnight lie in the closed interval from the start to the end:
    09:00 and 18:00 are in hours, 08:59 and 18:01 are not; when the entry
    of the weekday is marked closed the test is false at every time. *)
Theorem business_hours_inclusive_at_both_ends
  (bh : BusinessHours) (day : nat) (d : DaySchedule) :
  schedule bh !! day = Some d ->
  (open d = true -> start d = JStr (js "09:00") -> end_ d = JStr (js "18:00") ->
   (forall h m s,
      MenuService.isWithinBusinessHours (mkLocalTime day h m s) bh
      = ((540 <=? h * 60 + m) && (h * 60 + m <=? 1080))%Z)
   /\ (forall s, MenuService.isWithinBusinessHours (mkLocalTime day 8 59 s) bh = false)
   /\ (forall s, MenuService.isWithinBusinessHours (mkLocalTime day 9 0 s) bh = true)
   /\ (forall s, MenuService.isWithinBusinessHours (mkLocalTime day 18 0 s) bh = true)
   /\ (forall s, MenuService.isWithinBusinessHours (mkLocalTime day 18 1 s) bh = false))
  /\ (open d = false ->
      forall h m s, MenuService.isWithinBusinessHours (mkLocalTime day h m s) bh = false).
Proof.
  intros Hd. split.
  - intros Ho Hs He.
    assert (G : forall h m s,
      MenuService.isWithinBusinessHours (mkLocalTime day h m s) bh
      = ((540 <=? h * 60 + m) && (h * 60 + m <=? 1080))%Z).
    { intros h m s. by apply (within_nine_to_six bh (mkLocalTime day h m s) d). }
    split; [exact G|].
    repeat split; intros s; rewrite G; reflexivity.
  - intros Ho h m s. by apply (closed_day bh (mkLocalTime day h m s) d).
Qed.

(** The default schedule of [configService.gs] on a Monday and a Sunday. *)
Lemma business_hours_inclusive_witness :
  schedule ConfigService.getDefaultBusinessHours !! 1%nat
  = Some (mkDay true (JStr (js "09:00")) (JStr (js "18:00")))
  /\ MenuService.isWithinBusinessHours (mkLocalTime 1 18 0 30)
       ConfigService.getDefaultBusinessHours = true
  /\ MenuService.isWithinBusinessHours (mkLocalTime 1 18 1 0)
       ConfigService.getDefaultBusinessHours = false.
Proof.
  split; [reflexivity|].
  destruct (business_hours_inclusive_at_both_ends
              ConfigService.getDefaultBusinessHours 1
              (mkDay true (JStr (js "09:00")) (JStr (js "18:00"))) eq_refl)
    as [Hopen _].
  destruct (Hopen eq_refl eq_refl eq_refl) as (_ & _ & _ & H18 & H1801).
  split; [apply H18 | apply H1801].
Defined.

(** ** A concrete host and world, used to run the code on examples *)

Module Demo.

Definition host : Host :=
  {| toISOString := fun t => js "T" ++ Z_to_decimal t;
     localTime := fun t =>
       mkLocalTime (Z.to_nat ((t / 86400000 + 4) mod 7)) ((t / 3600000) mod 24)
         ((t / 60000) mod 60) ((t / 1000) mod 60);
     Date_getTime := fun v =>
       match v with
       | JNum z => Some z
       | JStr (84%N :: d) =>
           match StringToNumber d with Int z => Some z | NaN => None end
       | _ => None
       end;
     Date_setSeconds := fun t s =>
       let u := (t + (s - (t / 1000) mod 60) * 1000)%Z in
       if ((-8640000000000000 <=? u) && (u <=? 8640000000000000))%Z then Some u
       else None;
     JSON_stringify := ToString;
     JSON_parse := fun _ => Ret (JObj []);
     encodeURIComponent := fun s => s;
     toLocaleDateString := ToString;
     UrlFetchApp_fetch := fun _ => Throw (Error (js "Address unavailable")) |}.

(** A newly deployed script: only the spreadsheet id is configured. *)
Definition fresh : World :=
  mkWorld {[ js "SPREADSHEET_ID" := js "sheet-1" ]} true ∅ 1705314600000 [] None.

(** A gateway that always throws. *)
Definition broken : AIGateway :=
  {| ai_generateResponse := fun _ _ => throw (Error (js "AI down")) |}.

(** A gateway that answers every query. *)
Definition canned : AIGateway :=
  {| ai_generateResponse := fun provider _ =>
       ret (obj [(js "success", JBool true); (js "content", JStr (js "generic answer"));
                 (js "provider", provider)]) |}.

(** A host on which every HTTP call succeeds with a product record. *)
Definition shop : Host :=
  {| toISOString := @toISOString host;
     localTime := @localTime host;
     Date_getTime := @Date_getTime host;
     Date_setSeconds := @Date_setSeconds host;
     JSON_stringify := ToString;
     JSON_parse := fun _ => Ret (JObj []);
     encodeURIComponent := fun s => s;
     toLocaleDateString := ToString;
     UrlFetchApp_fetch := fun _ =>
       Ret (mkResponse 200
              (Ret (obj [(js "title", JStr (js "Teclado")); (js "price", JNum 100);
                         (js "available_quantity", JNum 3);
                         (js "condition", JStr (js "new"))]))) |}.

(** The world once the sheets are set up and the system marked initialised. *)
Definition ready : World := (initializeSystem fresh).2.

Definition request (action userInput : string) : jsval :=
  obj [(js "action", JStr (js action)); (js "userInput", JStr (js userInput));
       (js "sessionId", JStr (js "s1"))].

End Demo.

(** ** Menu rows (menuService.gs, [getMenuConfig]) *)

Section MenuConfigProps.

Lemma menuItems_spec (data : list (list jsval)) (o : MenuService.MenuOption) :
  In o (MenuService.menuItems data) <->
  exists row, In row (drop 1 data) /\ o = MenuService.menuItem row
              /\ truthy (cell row 0) = true /\ truthy (cell row 1) = true.
Proof.
  unfold MenuService.menuItems. rewrite filter_In, in_map_iff. split.
  - intros [(row & <- & Hin) Hk]. exists row.
    unfold MenuService.kept in Hk. apply andb_prop in Hk as [H0 H1]. auto.
  - intros (row & Hin & -> & H0 & H1). split; [by exists row|].
    unfold MenuService.kept. cbn. by rewrite H0, H1.
Qed.

(** Every option of the loaded menu has a truthy number and title. *)
Lemma menuItems_fields (data : list (list jsval)) (o : MenuService.MenuOption) :
  In o (MenuService.menuItems data) ->
  truthy (MenuService.number o) = true /\ truthy (MenuService.title o) = true.
Proof.
  rewrite menuItems_spec. intros (row & _ & -> & H0 & H1). by split.
Qed.

(** A row numbered 0 is never loaded, whatever its title. *)
Lemma menuItems_no_zero (data : list (list jsval)) (o : MenuService.MenuOption) :
  In o (MenuService.menuItems data) -> MenuService.number o <> JNum 0.
Proof.
  intros Hin E. apply menuItems_fields in Hin as [H0 _]. by rewrite E in H0.
Qed.

End MenuConfigProps.

(** C9 (the code drops the exit option).  On the sample menu that
    [setupMenuSheet] installs, the row numbered 0 with the title 'Salir'
    has both fields present, yet the loaded menu holds the options 1 to 4
    only; on a newly deployed system the selection '0' is answered as an
    invalid selection. *)
Theorem exit_option_is_dropped :
  List.map MenuService.number
    (MenuService.menuItems (SheetsService.menuHeaders :: SheetsService.sampleData))
  = [JNum 1; JNum 2; JNum 3; JNum 4]
  /\ MenuService.kept
       (MenuService.menuItem
          [JNum 0; JStr (js "Salir"); JStr (js "static");
           JStr (js "Gracias por contactarnos. ¡Que tengas un excelente día!");
           JStr []; JStr []; JStr []; JStr []; JStr []; JBool false; JBool true; JNum 0])
     = false
  /\ (@handleChatbotRequest Demo.host Demo.broken
        (Demo.request "processSelection" "0") Demo.fresh).1
     = Ret (obj [(js "success", JBool false);
                 (js "message",
                  JStr (js "Selección inválida. Por favor elige una opción del menú."));
                 (js "showMenu", JBool true)]).
Proof. evaluate. Qed.

(** ** Metadata redaction (loggingService.gs, [sanitizeMetadata]) *)

Section RedactionProps.

Lemma starts_with_In (p s : jsstring) (c : N) :
  starts_with p s = true -> In c p -> In c s.
Proof.
  revert s. induction p as [|a p IH]; intros [|b s] H Hin; try done.
  cbn in H. apply andb_prop in H as [Hab Hp]. apply N.eqb_eq in Hab as ->.
  destruct Hin as [-> | Hin]; [by left | right; eauto].
Qed.

Lemma includes_In (s sub : jsstring) (c : N) :
  includes s sub = true -> In c sub -> In c s.
Proof.
  induction s as [|b s IH]; cbn; intros H Hin.
  - rewrite orb_false_r in H. exact (starts_with_In _ _ _ H Hin).
  - apply orb_prop in H as [H | H].
    + exact (starts_with_In _ _ _ H Hin).
    + right. by apply IH.
Qed.

Lemma lower_unit_not_K (c : N) : lower_unit c <> 75%N.
Proof.
  unfold lower_unit.
  destruct ((65 <=? c)%N && (c <=? 90)%N) eqn:E1;
    [| destruct ((192 <=? c)%N && (c <=? 222)%N && negb (c =? 215)%N) eqn:E2 ];
    rewrite ?andb_true_iff, ?andb_false_iff, ?N.leb_le, ?N.leb_gt in *; lia.
Qed.

(** The entry 'apiKey' of the sensitive list holds a capital letter and
    is looked for in a lower-cased key: it matches no key at all. *)
Lemma apiKey_entry_matches_nothing (k : jsstring) :
  includes (toLowerCase k) (js "apiKey") = false.
Proof.
  destruct (includes (toLowerCase k) (js "apiKey")) eqn:E; [|done].
  exfalso. apply (includes_In _ _ 75%N) in E; [|vm_compute; tauto].
  unfold toLowerCase in E. apply in_map_iff in E as (c & Hc & _).
  by apply lower_unit_not_K in Hc.
Qed.

End RedactionProps.

(** C3 (the code leaves API keys in the log).  The key 'apiKey' contains
    the substring apikey compared case-insensitively, but its value comes
    out of the sanitization unchanged; the neighbouring key 'authToken'
    is redacted. *)
Theorem apiKey_is_not_redacted :
  LoggingService.sanitizeMetadata
    (obj [(js "apiKey", JStr (js "sk-live-123")); (js "authToken", JStr (js "abc"))])
  = obj [(js "apiKey", JStr (js "sk-live-123"));
         (js "authToken", JStr (js "[REDACTED]"))].
Proof. vm_compute. reflexivity. Qed.

(** ** Matching: general facts *)

Section MatcherFacts.

(** A quantifier with nothing left to take runs the continuation. *)
Lemma rep_go_done c k n prev s : rep_go c k 0 (Some 0%nat) n prev s = k n prev s.
Proof. destruct s as [|x s]; cbn; [done|]. by rewrite andb_false_r. Qed.

(** One code unit of a class. *)
Lemma exec_Cls c p n prev s :
  exec (Cls c :: p) n prev s
  = match s with
    | x :: s' => if c x then exec p (S n) (Some x) s' else None
    | [] => None
    end.
Proof.
  destruct s as [|x s]; cbn; [done|].
  rewrite andb_true_r. destruct (c x); [|done].
  rewrite rep_go_done. by destruct (exec p (S n) (Some x) s).
Qed.

(** The longest prefix of code units of a class. *)
Fixpoint run (c : N -> bool) (s : jsstring) : nat :=
  match s with
  | x :: s' => if c x then S (run c s') else 0
  | [] => 0
  end.

(** An unbounded greedy quantifier that ends the pattern takes the whole run. *)
Lemma rep_go_last c lo n prev s :
  rep_go c (exec []) lo None n prev s
  = if (lo <=? run c s)%nat then Some (n + run c s)%nat else None.
Proof.
  revert lo n prev. induction s as [|x s IH]; intros lo n prev; cbn.
  - destruct lo; cbn; [f_equal; lia | done].
  - rewrite andb_true_r. destruct (c x).
    + rewrite IH. destruct lo as [|lo]; cbn.
      * f_equal. lia.
      * destruct (lo <=? run c s)%nat; [f_equal; lia | done].
    + destruct lo; cbn; [f_equal; lia | done].
Qed.

Lemma run_forall c s : forallb c (take (run c s) s) = true.
Proof.
  induction s as [|x s IH]; cbn; [done|].
  destruct (c x) eqn:E; cbn; [by rewrite E | done].
Qed.

Lemma run_stops c s x r : drop (run c s) s = x :: r -> c x = false.
Proof.
  induction s as [|y s IH]; cbn; [done|].
  destruct (c y) eqn:E; cbn; [done | intros [= -> _]; done].
Qed.

Lemma run_le c s : (run c s <= length s)%nat.
Proof. induction s as [|x s IH]; cbn; [lia|]. destruct (c x); cbn; lia. Qed.

(** The code unit before the position reached after reading [pre]. *)
Fixpoint after (prev : option N) (pre : jsstring) : option N :=
  match pre with
  | [] => prev
  | x :: r => after (Some x) r
  end.

(** What [search_go] returns is a match at some position of the text. *)
Lemma search_go_sound p prev s id :
  search_go p prev s = Some id ->
  exists pre rest n,
    s = pre ++ rest /\ match_at p (after prev pre) rest = Some n
    /\ id = take n rest.
Proof.
  revert prev. induction s as [|x s IH]; intros prev; cbn.
  - destruct (match_at p prev []) as [n|] eqn:E; [|done].
    intros [= <-]. by exists [], [], n.
  - destruct (match_at p prev (x :: s)) as [n|] eqn:E.
    + intros [= <-]. by exists [], (x :: s), n.
    + intros H. apply IH in H as (pre & rest & n & -> & Hm & ->).
      by exists (x :: pre), rest, n.
Qed.

(** A match anywhere makes the search succeed. *)
Lemma search_go_complete p prev pre rest :
  match_at p (after prev pre) rest <> None ->
  search_go p prev (pre ++ rest) <> None.
Proof.
  revert prev. induction pre as [|x pre IH]; intros prev Hm; cbn in *.
  - destruct rest as [|y rest]; cbn; by destruct (match_at p prev _).
  - destruct (match_at p prev (x :: pre ++ rest)); [done|]. by apply IH.
Qed.

(** The search returns the match at the first position that has one. *)
Lemma search_go_leftmost p prev s id :
  search_go p prev s = Some id ->
  exists pre rest n,
    s = pre ++ rest /\ match_at p (after prev pre) rest = Some n
    /\ id = take n rest
    /\ forall pre' rest',
         s = pre' ++ rest' -> (length pre' < length pre)%nat ->
         match_at p (after prev pre') rest' = None.
Proof.
  revert prev. induction s as [|x s IH]; intros prev; cbn.
  - destruct (match_at p prev []) as [n|] eqn:E; [|done].
    intros [= <-]. exists [], [], n. repeat split; try done.
    intros pre' rest' _ Hl. cbn in Hl. lia.
  - destruct (match_at p prev (x :: s)) as [n|] eqn:E.
    + intros [= <-]. exists [], (x :: s), n. repeat split; try done.
      intros pre' rest' _ Hl. cbn in Hl. lia.
    + intros H. apply IH in H as (pre & rest & n & -> & Hm & -> & Hleft).
      exists (x :: pre), rest, n. repeat split; try done.
      intros pre' rest' Hs Hl. destruct pre' as [|y pre']; cbn in *.
      * by subst rest'.
      * injection Hs as -> Hs. apply Hleft; [done | lia].
Qed.

End MatcherFacts.

(** ** Product inquiries (chat service, [extractProductId], [handleProductInquiry]) *)

(** Modelled from the spec: an item id as the specification words it, any
    three letters followed by digits. *)
Definition item_id_like : list atom :=
  [Cls is_alpha; Cls is_alpha; Cls is_alpha; Plus is_digit].

(** What the code looks for: M, L, A in either case, then digits. *)
Definition is_item_id (id : jsstring) : Prop :=
  exists a b c ds,
    id = a :: b :: c :: ds
    /\ one_of (js "Mm") a = true /\ one_of (js "Ll") b = true
    /\ one_of (js "Aa") c = true
    /\ ds <> [] /\ forallb is_digit ds = true.

Section ProductInquiryProps.
Context {host : Host} {ai : AIGateway}.

Lemma product_match prev s :
  match_at productIdPattern prev s
  = match s with
    | a :: b :: c :: r =>
        if one_of (js "Mm") a && one_of (js "Ll") b && one_of (js "Aa") c
           && (1 <=? run is_digit r)%nat
        then Some (3 + run is_digit r)%nat
        else None
    | _ => None
    end.
Proof.
  unfold match_at, productIdPattern. rewrite exec_Cls.
  destruct s as [|a [|b [|c r]]]; try done.
  - by destruct (one_of _ a).
  - destruct (one_of _ a); [|done]. rewrite exec_Cls. by destruct (one_of _ b).
  - destruct (one_of _ a); [|done]. rewrite exec_Cls.
    destruct (one_of _ b); [|done]. rewrite exec_Cls.
    destruct (one_of _ c); [|done].
    change (exec [Plus is_digit] 3 (Some c) r)
      with (rep_go is_digit (exec []) 1 None 3 (Some c) r).
    rewrite rep_go_last. reflexivity.
Qed.

(** The extracted text is an MLA id, it occurs in the message, and the
    digits after it (if any) were all taken. *)
Lemma extractProductId_sound (m id : jsstring) :
  search productIdPattern m = Some id ->
  is_item_id id
  /\ exists pre rest,
       m = pre ++ id ++ rest
       /\ match rest with x :: _ => is_digit x = false | [] => True end.
Proof.
  intros H. apply search_go_sound in H as (pre & t & n & -> & Hm & ->).
  rewrite product_match in Hm.
  destruct t as [|a [|b [|c r]]]; try done.
  destruct (one_of _ a) eqn:Ea; [|done]. destruct (one_of _ b) eqn:Eb; [|done].
  destruct (one_of _ c) eqn:Ec; [|done].
  destruct (1 <=? run is_digit r)%nat eqn:Er; [|done].
  cbn in Hm. injection Hm as <-. apply Nat.leb_le in Er. cbn [take].
  split.
  - exists a, b, c, (take (run is_digit r) r). repeat split; try done.
    + destruct r as [|x r]; cbn in *; [lia|].
      destruct (is_digit x); cbn in *; [done | lia].
    + apply run_forall.
  - exists pre, (drop (run is_digit r) r). split.
    + cbn. by rewrite take_drop.
    + destruct (drop (run is_digit r) r) as [|x q] eqn:Ed; [done|].
      by apply run_stops in Ed.
Qed.

(** No MLA id begins before the extracted one. *)
Lemma extractProductId_leftmost (m id : jsstring) :
  search productIdPattern m = Some id ->
  exists pre rest,
    m = pre ++ id ++ rest
    /\ match rest with x :: _ => is_digit x = false | [] => True end
    /\ forall pre1 id1 rest1,
         m = pre1 ++ id1 ++ rest1 -> is_item_id id1 ->
         (length pre <= length pre1)%nat.
Proof.
  intros H. apply search_go_leftmost in H as (pre & t & n & -> & Hm & -> & Hleft).
  rewrite product_match in Hm.
  destruct t as [|a [|b [|c r]]]; try done.
  destruct (one_of _ a) eqn:Ea; [|done]. destruct (one_of _ b) eqn:Eb; [|done].
  destruct (one_of _ c) eqn:Ec; [|done].
  destruct (1 <=? run is_digit r)%nat eqn:Er; [|done].
  cbn in Hm. injection Hm as <-. cbn [take].
  exists pre, (drop (run is_digit r) r). split; [|split].
  - cbn. by rewrite take_drop.
  - destruct (drop (run is_digit r) r) as [|x q] eqn:Ed; [done|].
    by apply run_stops in Ed.
  - intros pre1 id1 rest1 Hs (a1 & b1 & c1 & ds & -> & Ha & Hb & Hc & Hne & Hds).
    destruct (decide (length pre1 < length pre)%nat) as [Hlt|]; [exfalso|lia].
    specialize (Hleft pre1 _ Hs Hlt). rewrite product_match in Hleft.
    cbn [app] in Hleft. rewrite Ha, Hb, Hc in Hleft. cbn [andb] in Hleft.
    destruct ds as [|d ds]; [done|]. cbn in Hds. apply andb_prop in Hds as [Hd _].
    cbn in Hleft. by rewrite Hd in Hleft.
Qed.

(** Whenever an MLA id occurs in the message, one is extracted. *)
Lemma extractProductId_complete (pre id rest : jsstring) :
  is_item_id id -> search productIdPattern (pre ++ id ++ rest) <> None.
Proof.
  intros (a & b & c & ds & -> & Ha & Hb & Hc & Hne & Hds).
  apply search_go_complete. rewrite product_match. cbn [app].
  rewrite Ha, Hb, Hc. cbn [andb].
  destruct ds as [|d ds]; [done|]. cbn in Hds. apply andb_prop in Hds as [Hd _].
  cbn. by rewrite Hd.
Qed.

Definition productAiContext (message : jsval) : jsval :=
  obj [(js "userQuery", message);
       (js "context",
        JStr (js "El usuario está preguntando sobre productos. Ayuda con información sobre disponibilidad, características, precios, y recomendaciones."));
       (js "maxTokens", JNum 300)].

(** The fallback of the handler: the gateway's answer, or the default
    reply when the gateway throws. *)
Definition productFallback (message sessionId : jsval) : M jsval :=
  try_catch (ai_generateResponse (JStr CONFIG.GEMINI) (productAiContext message))
    (fun _ => ChatService.handleDefault message sessionId).

Lemma answer_result (response : HttpResponse) w r w1 :
  MercadoLibreService.answer response w = (Ret r, w1) -> nullish r = false.
Proof.
  unfold MercadoLibreService.answer, member. munfold.
  destruct (parsedBody response) as [d|e]; [|done].
  destruct (getResponseCode response =? 200)%Z.
  - by intros [= <- _].
  - by destruct (nullish d).
Qed.

(** [getProductInfo] never throws and never returns null. *)
Lemma getProductInfo_result (itemId : jsval) w :
  exists info w1,
    MercadoLibreService.getProductInfo itemId w = (Ret info, w1)
    /\ nullish info = false.
Proof.
  unfold MercadoLibreService.getProductInfo, fetch. munfold.
  destruct (UrlFetchApp_fetch _) as [resp|e]; [|by eexists _, _].
  match goal with |- context [MercadoLibreService.answer resp ?w0] =>
    destruct (MercadoLibreService.answer resp w0) as [[r|e] w1] eqn:E end.
  - apply answer_result in E. by exists r, w1.
  - by eexists _, _.
Qed.

Lemma product_no_id (m : jsstring) (sessionId context : jsval) w :
  search productIdPattern m = None ->
  ChatService.handleProductInquiry (JStr m) sessionId context w
  = productFallback (JStr m) sessionId w.
Proof.
  intros H. unfold ChatService.handleProductInquiry, productFallback,
    ChatService.extractProductId, ChatService.match0.
  munfold. rewrite H. reflexivity.
Qed.

Lemma product_fetch_fails (m id : jsstring) (sessionId context info : jsval) w w1 :
  search productIdPattern m = Some id ->
  MercadoLibreService.getProductInfo (JStr id) w = (Ret info, w1) ->
  truthy (prop info (js "success")) = false ->
  ChatService.handleProductInquiry (JStr m) sessionId context w
  = productFallback (JStr m) sessionId w1.
Proof.
  intros H Hinfo Hok.
  assert (Hid : id <> []).
  { apply extractProductId_sound in H as [(a & b & c & ds & -> & _) _]. done. }
  destruct (getProductInfo_result (JStr id) w) as (info' & w1' & E & Hnn).
  rewrite Hinfo in E. injection E as <- <-.
  unfold ChatService.handleProductInquiry, productFallback,
    ChatService.extractProductId, ChatService.match0, ChatService.found, member.
  munfold. rewrite H.
  destruct id as [|x id]; [done|]. cbn [present from_option Datatypes.id].
  rewrite Hinfo, Hnn, Hok. reflexivity.
Qed.

(** A lookup that reports success without a record: formatting it
    throws, and the handler answers with the default reply. *)
Lemma product_fetch_without_record (m id : jsstring) (sessionId context info : jsval)
  w w1 :
  search productIdPattern m = Some id ->
  MercadoLibreService.getProductInfo (JStr id) w = (Ret info, w1) ->
  truthy (prop info (js "success")) = true ->
  nullish (prop info (js "data")) = true ->
  ChatService.handleProductInquiry (JStr m) sessionId context w
  = ChatService.handleDefault (JStr m) sessionId w1.
Proof.
  intros H Hinfo Hok Hdata.
  assert (Hid : id <> []).
  { apply extractProductId_sound in H as [(a & b & c & ds & -> & _) _]. done. }
  destruct (getProductInfo_result (JStr id) w) as (info' & w1' & E & Hnn).
  rewrite Hinfo in E. injection E as <- <-.
  unfold ChatService.handleProductInquiry,
    ChatService.extractProductId, ChatService.match0, ChatService.found,
    ChatService.formatProductInfo, member.
  munfold. rewrite H.
  destruct id as [|x id]; [done|]. cbn [present from_option Datatypes.id].
  rewrite Hinfo, Hnn, Hok, Hdata. reflexivity.
Qed.

Lemma product_fetch_succeeds (m id : jsstring) (sessionId context info : jsval) w w1 :
  search productIdPattern m = Some id ->
  MercadoLibreService.getProductInfo (JStr id) w = (Ret info, w1) ->
  truthy (prop info (js "success")) = true ->
  nullish (prop info (js "data")) = false ->
  exists text,
    ChatService.formatProductInfo (prop info (js "data")) w1 = (Ret text, w1)
    /\ ChatService.handleProductInquiry (JStr m) sessionId context w
    = (Ret (obj [(js "success", JBool true);
                 (js "type", JStr (js "product_info"));
                 (js "message", JStr text);
                 (js "data", prop info (js "data"));
                 (js "showMenu", JBool true);
                 (js "timestamp", JStr (toISOString (now w1)))]), w1).
Proof.
  intros H Hinfo Hok Hdata.
  assert (Hid : id <> []).
  { apply extractProductId_sound in H as [(a & b & c & ds & -> & _) _]. done. }
  destruct (getProductInfo_result (JStr id) w) as (info' & w1' & E & Hnn).
  rewrite Hinfo in E. injection E as <- <-.
  unfold ChatService.handleProductInquiry,
    ChatService.extractProductId, ChatService.match0, ChatService.found,
    ChatService.formatProductInfo, member.
  munfold. rewrite H.
  destruct id as [|x id]; [done|]. cbn [present from_option Datatypes.id].
  rewrite Hinfo, Hnn, Hok, Hdata. eexists. split; reflexivity.
Qed.

End ProductInquiryProps.

(** C10, as the specification states it, fails: the message below holds
    the token MLB123456, three letters followed by digits, yet no id is
    extracted and the handler answers with the gateway's generic reply
    without any product lookup, on a host where every lookup succeeds. *)
Lemma product_id_other_prefix_not_extracted :
  search item_id_like (js "precio de MLB123456") = Some (js "MLB123456")
  /\ ChatService.extractProductId (JStr (js "precio de MLB123456")) Demo.fresh
     = (Ret None, Demo.fresh)
  /\ @ChatService.handleProductInquiry Demo.shop Demo.canned
       (JStr (js "precio de MLB123456")) (JStr (js "s1")) JUndefined Demo.fresh
     = (Ret (obj [(js "success", JBool true);
                  (js "content", JStr (js "generic answer"));
                  (js "provider", JStr (js "gemini"))]), Demo.fresh)
  /\ (@ChatService.handleProductInquiry Demo.shop Demo.canned
        (JStr (js "precio de mla123456")) (JStr (js "s1")) JUndefined Demo.fresh).1
     = Ret (obj [(js "success", JBool true);
                 (js "type", JStr (js "product_info"));
                 (js "message",
                  JStr (js "🛍️ **Teclado**
    
**Precio:** $100
**Disponibles:** 3
**Condición:** new

¿Te interesa este producto o necesitas más información?"));
                 (js "data",
                  obj [(js "title", JStr (js "Teclado")); (js "price", JNum 100);
                       (js "available_quantity", JNum 3);
                       (js "condition", JStr (js "new"))]);
                 (js "showMenu", JBool true);
                 (js "timestamp", JStr (js "T1705314600000"))]).
Proof. evaluate. Qed.

(** C10, amended.  [extractProductId] returns, without touching the
    script, the first token made of the letters M, L, A (each in either
    case) followed by digits: what it extracts has that shape, no such
    token begins before it in the message, and it takes every digit that
    follows; it extracts nothing exactly when the message holds no such
    token.  The handler answers with the product record, formatted, when
    the lookup of that id reports success with a record; it falls back to
    the gateway's answer (the default reply if the gateway throws)
    exactly when there is no id or the lookup reports failure; and when
    the lookup reports success without a record it answers with the
    default reply. *)
Theorem product_inquiry_extracts_MLA_ids {host : Host} {ai : AIGateway}
  (m : jsstring) (sessionId context : jsval) (w : World) :
  exists extracted,
    ChatService.extractProductId (JStr m) w = (Ret extracted, w)
    /\ (forall id, extracted = Some id ->
          is_item_id id
          /\ exists pre rest,
               m = pre ++ id ++ rest
               /\ match rest with x :: _ => is_digit x = false | [] => True end
               /\ forall pre1 id1 rest1,
                    m = pre1 ++ id1 ++ rest1 -> is_item_id id1 ->
                    (length pre <= length pre1)%nat)
    /\ (extracted = None <->
        forall pre id rest, m = pre ++ id ++ rest -> ~ is_item_id id)
    /\ (extracted = None ->
          ChatService.handleProductInquiry (JStr m) sessionId context w
          = productFallback (JStr m) sessionId w)
    /\ (forall id, extracted = Some id ->
          exists info w1,
            MercadoLibreService.getProductInfo (JStr id) w = (Ret info, w1)
            /\ (truthy (prop info (js "success")) = false ->
                  ChatService.handleProductInquiry (JStr m) sessionId context w
                  = productFallback (JStr m) sessionId w1)
            /\ (truthy (prop info (js "success")) = true ->
                nullish (prop info (js "data")) = true ->
                  ChatService.handleProductInquiry (JStr m) sessionId context w
                  = ChatService.handleDefault (JStr m) sessionId w1)
            /\ (truthy (prop info (js "success")) = true ->
                nullish (prop info (js "data")) = false ->
                  exists text,
                    ChatService.formatProductInfo (prop info (js "data")) w1
                    = (Ret text, w1)
                    /\ ChatService.handleProductInquiry (JStr m) sessionId context w
                       = (Ret (obj [(js "success", JBool true);
                                    (js "type", JStr (js "product_info"));
                                    (js "message", JStr text);
                                    (js "data", prop info (js "data"));
                                    (js "showMenu", JBool true);
                                    (js "timestamp", JStr (toISOString (now w1)))]),
                          w1))).
Proof.
  exists (search productIdPattern m). split; [reflexivity|].
  split.
  { intros id Hs. split; [by apply extractProductId_sound in Hs as [? _]|].
    by apply extractProductId_leftmost. }
  split.
  { split.
    - intros Hs pre id rest -> Hid.
      by apply (extractProductId_complete pre id rest) in Hid.
    - intros Hno. destruct (search productIdPattern m) as [id|] eqn:E; [exfalso|done].
      apply extractProductId_sound in E as (Hid & pre & rest & -> & _).
      by apply (Hno pre id rest). }
  split; [apply product_no_id|].
  intros id Hs.
  destruct (getProductInfo_result (JStr id) w) as (info & w1 & E & _).
  exists info, w1. split; [done|]. split; [|split].
  - intros Hok. by apply (product_fetch_fails m id sessionId context info w w1).
  - intros Hok Hdata.
    by apply (product_fetch_without_record m id sessionId context info w w1).
  - intros Hok Hdata.
    by apply (product_fetch_succeeds m id sessionId context info w w1).
Qed.

(** ** Analytics (loggingService.gs, [getAnalytics]) *)

Definition success_count (logs : list (list jsval)) : nat :=
  length (List.filter (fun log => is_str (cell log 7) (js "success")) logs).

Definition escalation_count (logs : list (list jsval)) : nat :=
  length (List.filter (fun log => is_str (cell log 2) (js "escalation")) logs).

(** Every row carries a timestamp that [new Date] can read. *)
Definition timestamps_readable {host : Host} (logs : list (list jsval)) : bool :=
  forallb (fun log => match Date_getTime (cell log 0) with
                      | Some _ => true
                      | None => false
                      end) logs.

(** The three log rows of the example; cells the example leaves open are
    filled as [logInteraction] and [logEscalation] fill them. *)
Definition example_logs (t1 t2 t3 : jsval) : list (list jsval) :=
  [ [t1; JStr (js "anonymous"); JStr (js "menu_display"); JStr []; JStr [];
     JStr []; JNum 0; JStr (js "success"); JStr (js "{}")];
    [t2; JStr (js "s1"); JStr (js "escalation"); JStr (js "agente");
     JStr (js "Escalation status: pending"); JStr []; JNum 0;
     JStr (js "pending"); JStr (js "{}")];
    [t3; JStr (js "s1"); JStr (js "ai_response"); JStr []; JStr [];
     JStr (js "gemini"); JNum 0; JStr (js "error"); JStr (js "{}")] ].

Section AnalyticsProps.
Context {host : Host}.

Lemma cell_head (x : jsval) (r : list jsval) : cell (x :: r) 0 = x.
Proof. reflexivity. Qed.

(** The provider table after the loop. *)
Definition usage_of (logs : list (list jsval)) (start : gmap jsstring nat)
  : gmap jsstring nat :=
  fold_left
    (fun m log => if truthy (cell log 5) then bump (ToString (cell log 5)) m else m)
    logs start.

Lemma tally_rows_counts (logs : list (list jsval)) (acc t : Tally) :
  LoggingService.tally_rows acc logs = Ret t ->
  successfulInteractions t = (successfulInteractions acc + success_count logs)%nat
  /\ t_escalations t = (t_escalations acc + escalation_count logs)%nat
  /\ t_aiUsage t = usage_of logs (t_aiUsage acc).
Proof.
  revert acc. induction logs as [|log logs IH]; intros acc; cbn.
  - intros [= <-]. unfold success_count, escalation_count. cbn.
    repeat split; lia.
  - destruct (LoggingService.tally_row acc log) as [acc'|e] eqn:E; [|done].
    intros H. apply IH in H as (Hs & He & Hu).
    unfold LoggingService.tally_row in E.
    destruct (Date_getTime (cell log 0)); [|done]. injection E as <-.
    cbn in Hs, He, Hu. unfold success_count, escalation_count in *. cbn.
    split; [|split; [|exact Hu]].
    + destruct (is_str (cell log 7) (js "success")); cbn; lia.
    + destruct (is_str (cell log 2) (js "escalation")); cbn; lia.
Qed.

Lemma tally_rows_returns (logs : list (list jsval)) (acc : Tally) :
  timestamps_readable logs = true ->
  exists t, LoggingService.tally_rows acc logs = Ret t.
Proof.
  revert acc. induction logs as [|log logs IH]; intros acc; cbn.
  - by exists acc.
  - intros H. apply andb_prop in H as [Hl Hr].
    unfold LoggingService.tally_row.
    destruct (Date_getTime (cell log 0)); [|done]. by apply IH.
Qed.

(** An unreadable timestamp anywhere turns the summary into the error
    record, whose only count is [totalInteractions: 0]. *)
Lemma tally_rows_throws (logs : list (list jsval)) (acc : Tally) :
  timestamps_readable logs = false ->
  exists e, LoggingService.tally_rows acc logs = Throw e.
Proof.
  revert acc. induction logs as [|log logs IH]; intros acc; cbn; [done|].
  unfold LoggingService.tally_row.
  destruct (Date_getTime (cell log 0)); cbn; [apply IH | by eexists].
Qed.

End AnalyticsProps.

Section AnalyticsSummary.
Context {host : Host}.

Lemma summarize_rates (logs : list (list jsval)) :
  timestamps_readable logs = true ->
  exists a,
    LoggingService.summarize logs = Summary a
    /\ totalInteractions a = length logs
    /\ successRate a
       = (if (0 <? length logs)%nat
          then Math_round (nat_to_float (success_count logs)
                           / nat_to_float (length logs) * 100)
          else 0)%float
    /\ escalationRate a
       = (if (0 <? length logs)%nat
          then Math_round (nat_to_float (escalation_count logs)
                           / nat_to_float (length logs) * 100)
          else 0)%float
    /\ aiUsage a = usage_of logs ∅
    /\ (logs = [] ->
        successRate a = 0%float /\ escalationRate a = 0%float
        /\ averageResponseTime a = 0%float).
Proof.
  intros Hlogs.
  destruct (tally_rows_returns logs (mkTally ∅ ∅ ∅ ∅ 0%float 0 0) Hlogs) as [t Ht].
  pose proof (tally_rows_counts _ _ _ Ht) as (Hs & He & Hu). cbn in Hs, He, Hu.
  unfold LoggingService.summarize. rewrite Ht.
  exists (mkAnalytics (length logs) (t_byType t)
            (LoggingService.rate (successfulInteractions t) (length logs))
            (if (0 <? length logs)%nat
             then Math_round (totalResponseTime t / nat_to_float (length logs))%float
             else 0%float)
            (LoggingService.rate (t_escalations t) (length logs))
            (t_aiUsage t) (t_busyHours t) (t_dailyStats t)).
  split; [reflexivity|].
  cbn [totalInteractions successRate escalationRate averageResponseTime aiUsage].
  unfold LoggingService.rate. rewrite Hs, He, Hu.
  split; [reflexivity|]. split; [reflexivity|]. split; [reflexivity|].
  split; [reflexivity|]. intros ->. by cbn.
Qed.

End AnalyticsSummary.

(** C8, as the specification states it, fails: the three rows of its
    example carry no timestamp, and over such rows [getAnalytics] does
    not compute any rate; it returns its error record (with
    [totalInteractions: 0]).  The same rows with readable timestamps are
    summarised. *)
Lemma analytics_need_readable_timestamps :
  (@LoggingService.getAnalytics Demo.host JUndefined
     (with_sheets
        (insert CONFIG.LOGS_SHEET
           (SheetsService.logsHeaders :: example_logs (JStr []) (JStr []) (JStr [])))
        Demo.fresh)).1
  = Ret (Failed (js "Invalid time value"))
  /\ (@LoggingService.getLogs Demo.host JUndefined
        (with_sheets
           (insert CONFIG.LOGS_SHEET
              (SheetsService.logsHeaders :: example_logs (JStr []) (JStr []) (JStr [])))
           Demo.fresh)).1
     = Ret (example_logs (JStr []) (JStr []) (JStr []))
  /\ @timestamps_readable Demo.host (example_logs (JStr []) (JStr []) (JStr [])) = false.
Proof. evaluate. Qed.

(** C8, amended.  [getAnalytics] summarises the rows [getLogs] selects.
    When every selected row has a timestamp that reads as a date, the
    summary has the number of rows as [totalInteractions], and
    [successRate = round(success_count / total * 100)],
    [escalationRate = round(escalation_count / total * 100)] in double
    arithmetic; over the empty selection the two rates and the average
    response time are 0.  For the three rows menu_display/success,
    escalation/pending and ai_response/error with provider gemini it
    yields 3, 33, 33 and the usage table gemini: 1.  When some selected
    row has no readable timestamp, the result is the error record
    instead. *)
Theorem analytics_rates {host : Host} (dateRange : jsval) (w w1 : World)
  (logs : list (list jsval)) :
  LoggingService.getLogs dateRange w = (Ret logs, w1) ->
  (timestamps_readable logs = true ->
   exists a,
     LoggingService.getAnalytics dateRange w = (Ret (Summary a), w1)
     /\ totalInteractions a = length logs
     /\ successRate a
        = (if (0 <? length logs)%nat
           then Math_round (nat_to_float (success_count logs)
                            / nat_to_float (length logs) * 100)
           else 0)%float
     /\ escalationRate a
        = (if (0 <? length logs)%nat
           then Math_round (nat_to_float (escalation_count logs)
                            / nat_to_float (length logs) * 100)
           else 0)%float
     /\ (logs = [] ->
         successRate a = 0%float /\ escalationRate a = 0%float
         /\ averageResponseTime a = 0%float)
     /\ (forall t1 t2 t3, logs = example_logs t1 t2 t3 ->
         totalInteractions a = 3%nat
         /\ successRate a = 33%float
         /\ escalationRate a = 33%float
         /\ aiUsage a = {[ js "gemini" := 1%nat ]}))
  /\ (timestamps_readable logs = false ->
      exists msg,
        LoggingService.getAnalytics dateRange w = (Ret (Failed msg), w1)).
Proof.
  intros Hl.
  assert (Ha : LoggingService.getAnalytics dateRange w
               = (Ret (LoggingService.summarize logs), w1)).
  { unfold LoggingService.getAnalytics. munfold. by rewrite Hl. }
  split.
  - intros Hlogs.
    destruct (summarize_rates logs Hlogs) as (a & E & Hn & Hs & He & Hu & H0).
    exists a. rewrite Ha, E. split; [reflexivity|]. split; [exact Hn|].
    split; [exact Hs|]. split; [exact He|]. split; [exact H0|].
    intros t1 t2 t3 ->. split; [exact Hn|].
    split; [rewrite Hs; vm_compute; reflexivity|].
    split; [rewrite He; vm_compute; reflexivity|].
    rewrite Hu. vm_compute. reflexivity.
  - intros Hlogs. rewrite Ha. unfold LoggingService.summarize.
    destruct (tally_rows_throws logs (mkTally ∅ ∅ ∅ ∅ 0%float 0 0) Hlogs) as [e ->].
    by eexists.
Qed.

(** A log that holds the three rows of the example, with timestamps. *)
Definition example_log : World :=
  with_sheets
    (insert CONFIG.LOGS_SHEET
       (SheetsService.logsHeaders
        :: example_logs (JNum 1705314600000) (JNum 1705314660000) (JNum 1705314720000)))
    Demo.fresh.

Lemma analytics_rates_witness :
  exists a,
    @LoggingService.getAnalytics Demo.host JUndefined example_log
    = (Ret (Summary a), example_log)
    /\ totalInteractions a = 3%nat
    /\ successRate a = 33%float
    /\ escalationRate a = 33%float
    /\ aiUsage a = {[ js "gemini" := 1%nat ]}.
Proof.
  assert (Hl : @LoggingService.getLogs Demo.host JUndefined example_log
                = (Ret (example_logs (JNum 1705314600000) (JNum 1705314660000)
                          (JNum 1705314720000)), example_log))
    by (vm_compute; reflexivity).
  destruct (proj1 (@analytics_rates Demo.host JUndefined example_log example_log
                     (example_logs (JNum 1705314600000) (JNum 1705314660000)
                        (JNum 1705314720000)) Hl))
    as (a & E & _ & _ & _ & _ & Hex).
  - vm_compute. reflexivity.
  - exists a. split; [exact E|]. exact (Hex _ _ _ eq_refl).
Defined.

(** ** The log sink: what a write changes *)

(** Two worlds that differ in the spreadsheet and the configuration cache
    only: same properties, clock and HTTP trace. *)
Definition same_outside_sheets (w w' : World) : Prop :=
  properties w' = properties w /\ now w' = now w /\ fetched w' = fetched w
  /\ spreadsheet_ok w' = spreadsheet_ok w.

Definition log_rows (w : World) : list (list jsval) :=
  default [] (sheets w !! CONFIG.LOGS_SHEET).

(** The log sheet exists and can be opened. *)
Definition logs_ready (w : World) : Prop :=
  present (properties w !! js "SPREADSHEET_ID") = true
  /\ spreadsheet_ok w = true
  /\ is_Some (sheets w !! CONFIG.LOGS_SHEET).

Section LogSinkProps.
Context {host : Host}.

Lemma same_outside_sheets_refl w : same_outside_sheets w w.
Proof. by repeat split. Qed.

Lemma same_outside_sheets_trans w1 w2 w3 :
  same_outside_sheets w1 w2 -> same_outside_sheets w2 w3 -> same_outside_sheets w1 w3.
Proof.
  intros (A1 & A2 & A3 & A4) (B1 & B2 & B3 & B4).
  repeat split; congruence.
Qed.

Lemma getSheet_frame (name : jsstring) w r w' :
  SheetsService.getSheet name w = (r, w') -> same_outside_sheets w w'.
Proof.
  unfold SheetsService.getSheet, SheetsService.getSpreadsheet,
    SheetsService.setupSheetStructure, SheetsService.setupMenuSheet,
    SheetsService.setupLogsSheet, SheetsService.setupSettingsSheet,
    SheetsService.setSheet, getProperty.
  munfold.
  destruct (present (properties w !! js "SPREADSHEET_ID")); cbn;
    [| intros [= _ <-]; apply same_outside_sheets_refl ].
  destruct (spreadsheet_ok w) eqn:Eok; cbn;
    [| intros [= _ <-]; apply same_outside_sheets_refl ].
  destruct (sheets w !! name); cbn;
    [ intros [= _ <-]; apply same_outside_sheets_refl |].
  repeat case_bool_decide; cbn; intros [= _ <-]; by repeat split.
Qed.

Lemma getSheet_ready (name : jsstring) w :
  present (properties w !! js "SPREADSHEET_ID") = true ->
  spreadsheet_ok w = true ->
  is_Some (sheets w !! name) ->
  SheetsService.getSheet name w = (Ret name, w).
Proof.
  intros Hid Hok [rows Hrows].
  unfold SheetsService.getSheet, SheetsService.getSpreadsheet, getProperty.
  munfold. rewrite Hid. cbn. rewrite Hok, Hrows. reflexivity.
Qed.

Lemma appendData_frame (name : jsstring) (row : list jsval) w r w' :
  SheetsService.appendData name row w = (r, w') -> same_outside_sheets w w'.
Proof.
  unfold SheetsService.appendData, SheetsService.appendRow. munfold.
  destruct (SheetsService.getSheet name w) as [[sheet|e] w1] eqn:E;
    apply getSheet_frame in E; intros [= _ <-]; [|done].
  destruct E as (A1 & A2 & A3 & A4). by repeat split.
Qed.

Lemma appendData_ready (row : list jsval) w :
  logs_ready w ->
  SheetsService.appendData CONFIG.LOGS_SHEET row w
  = (Ret tt, with_sheets (insert CONFIG.LOGS_SHEET (log_rows w ++ [row])) w).
Proof.
  intros (Hid & Hok & Hs).
  unfold SheetsService.appendData, SheetsService.appendRow. munfold.
  by rewrite getSheet_ready.
Qed.

Lemma logs_ready_append (rows : list (list jsval)) w :
  logs_ready w -> logs_ready (with_sheets (insert CONFIG.LOGS_SHEET rows) w).
Proof.
  intros (Hid & Hok & Hs). repeat split; [done..|].
  cbn. rewrite lookup_insert_eq. by eexists.
Qed.

Lemma log_rows_append (rows : list (list jsval)) w :
  log_rows (with_sheets (insert CONFIG.LOGS_SHEET rows) w) = rows.
Proof. unfold log_rows. cbn. by rewrite lookup_insert_eq. Qed.

(** [logError] never throws and touches the spreadsheet only. *)
Lemma logError_frame (operation : jsstring) (error : exn) (context : jsval) w :
  exists w', LoggingService.logError operation error context w = (Ret tt, w')
             /\ same_outside_sheets w w'.
Proof.
  unfold LoggingService.logError. munfold.
  destruct (nullish _); [eexists; split; [reflexivity | apply same_outside_sheets_refl]|].
  match goal with |- context [SheetsService.appendData ?n ?r w] =>
    destruct (SheetsService.appendData n r w) as [[[]|e] w1] eqn:E end;
    apply appendData_frame in E; by exists w1.
Qed.

(** [logInteraction] never throws and touches the spreadsheet only. *)
Lemma logInteraction_frame (interactionType : jsstring) (sessionId data : jsval) w :
  exists w', LoggingService.logInteraction interactionType sessionId data w = (Ret tt, w')
             /\ same_outside_sheets w w'.
Proof.
  unfold LoggingService.logInteraction. munfold.
  destruct (nullish data); [eexists; split; [reflexivity | apply same_outside_sheets_refl]|].
  match goal with |- context [SheetsService.appendData ?n ?r w] =>
    destruct (SheetsService.appendData n r w) as [[[]|e] w1] eqn:E end;
    apply appendData_frame in E; by exists w1.
Qed.

(** The row that [logInteraction] writes. *)
Definition interactionRow (interactionType : jsstring) (sessionId data : jsval)
  (w : World) : list jsval :=
  [JStr (toISOString (now w));
   js_or sessionId (JStr (js "anonymous"));
   JStr interactionType;
   JStr (LoggingService.sanitizeMessage
           (js_or (js_or (prop data (js "userMessage")) (prop data (js "selection")))
              (JStr [])));
   JStr (LoggingService.sanitizeMessage
           (js_or (js_or (prop data (js "message"))
                     (prop (prop data (js "botResponse")) (js "message")))
              (JStr [])));
   js_or (js_or (prop data (js "provider")) (prop data (js "aiProvider"))) (JStr []);
   js_or (prop data (js "responseTime")) (JNum (now w - now w));
   JStr (if not_false (prop data (js "success")) then js "success" else js "error");
   JStr (JSON_stringify (LoggingService.sanitizeMetadata data))].

(** With the log sheet in place, [logInteraction] appends exactly that row. *)
Lemma logInteraction_ready (interactionType : jsstring) (sessionId data : jsval) w :
  logs_ready w -> nullish data = false ->
  LoggingService.logInteraction interactionType sessionId data w
  = (Ret tt,
     with_sheets
       (insert CONFIG.LOGS_SHEET
          (log_rows w ++ [interactionRow interactionType sessionId data w])) w).
Proof.
  intros Hr Hd. unfold LoggingService.logInteraction. munfold. rewrite Hd.
  rewrite (appendData_ready _ w Hr). reflexivity.
Qed.

End LogSinkProps.

(** ** The access token (MercadoLibre gateway) *)

(** The stored token is usable: token and expiry are stored, the expiry
    reads as a date, and now is strictly before expiry minus five minutes. *)
Definition token_fresh {host : Host} (w : World) : Prop :=
  exists token exp expiry,
    properties w !! js "ML_ACCESS_TOKEN" = Some token /\ token <> []
    /\ properties w !! js "ML_ACCESS_TOKEN_FECHA_EXPIRA" = Some exp /\ exp <> []
    /\ Date_getTime (JStr exp) = Some expiry
    /\ (now w < expiry - 5 * 60 * 1000)%Z.

Definition credentials_missing (w : World) : Prop :=
  present (properties w !! js "ML_CLIENT_ID") = false
  \/ present (properties w !! js "ML_CLIENT_SECRET") = false
  \/ present (properties w !! js "ML_REFRESH_TOKEN") = false.


Definition oauthEndpoint : jsstring := js "https://api.mercadolibre.com/oauth/token".

Section TokenProps.
Context {host : Host}.

Lemma present_spec (o : option jsstring) :
  present o = true <-> exists s, o = Some s /\ s <> [].
Proof.
  split.
  - destruct o as [[|c s]|]; try done. intros _. by exists (c :: s).
  - intros (s & -> & Hs). by destruct s.
Qed.

Lemma refresh_never_throws : never_throws MercadoLibreService.refreshAccessToken.
Proof.
  apply never_throws_try_catch. intros e w.
  destruct (logError_frame (js "refreshAccessToken") e JUndefined w) as (w' & E & _).
  exists JNull, w'. munfold. by rewrite E.
Qed.

(** A refresh adds at most the one request to the token endpoint. *)
Lemma refresh_fetched w r w1 :
  MercadoLibreService.refreshAccessToken w = (r, w1) ->
  fetched w1 = fetched w
  \/ exists req, url req = oauthEndpoint /\ fetched w1 = fetched w ++ [req].
Proof.
  unfold MercadoLibreService.refreshAccessToken, getProperty, fetch, member,
    setProperties.
  munfold.
  assert (Hlog : forall e w0 r0 w2,
    (let (o, w') := LoggingService.logError (js "refreshAccessToken") e JUndefined w0 in
     match o with Ret _ => (Ret JNull, w') | Throw e0 => (Throw e0, w') end) = (r0, w2) ->
    fetched w2 = fetched w0).
  { intros e w0 r0 w2.
    destruct (logError_frame (js "refreshAccessToken") e JUndefined w0)
      as (w' & -> & _ & _ & Hf & _).
    by intros [= _ <-]. }
  destruct (negb _ || negb _ || negb _).
  { intros H. left. by apply Hlog in H. }
  match goal with |- context [UrlFetchApp_fetch ?q] =>
    set (req := q); destruct (UrlFetchApp_fetch req) as [resp|e] end;
    cbn [with_fetched fetched];
    [| intros H; apply Hlog in H; right; by exists req ].
  destruct (parsedBody resp) as [d|e];
    [| intros H; apply Hlog in H; right; by exists req ].
  destruct (getResponseCode resp =? 200)%Z.
  - destruct (nullish d); [intros H; apply Hlog in H; right; by exists req|].
    destruct (truthy (prop d (js "access_token"))).
    + destruct (MercadoLibreService.expiry_after _ _);
        [| intros H; apply Hlog in H; right; by exists req ].
      intros [= _ <-]. right. by exists req.
    + intros H; apply Hlog in H; right; by exists req.
  - destruct (nullish d); intros H; apply Hlog in H; right; by exists req.
Qed.

(** Without the client id, the client secret or the refresh token no
    request is made and the refresh yields null. *)
Lemma refresh_without_credentials w :
  credentials_missing w ->
  exists w1, MercadoLibreService.refreshAccessToken w = (Ret JNull, w1)
             /\ fetched w1 = fetched w.
Proof.
  intros Hm. unfold MercadoLibreService.refreshAccessToken, getProperty. munfold.
  assert (E : negb (present (properties w !! js "ML_CLIENT_ID"))
              || negb (present (properties w !! js "ML_CLIENT_SECRET"))
              || negb (present (properties w !! js "ML_REFRESH_TOKEN")) = true).
  { destruct Hm as [-> | [-> | ->]]; cbn; by rewrite ?orb_true_r. }
  rewrite E.
  destruct (logError_frame (js "refreshAccessToken")
              (Error (js "Missing required credentials for token refresh")) JUndefined w)
    as (w' & -> & _ & _ & Hf & _).
  by exists w'.
Qed.

Lemma getValidAccessToken_fresh w :
  token_fresh w ->
  exists token,
    properties w !! js "ML_ACCESS_TOKEN" = Some token /\ token <> []
    /\ MercadoLibreService.getValidAccessToken w = (Ret (JStr token), w).
Proof.
  intros (token & exp & expiry & Ht & Hne & He & Hne' & Hd & Hlt).
  exists token. split; [done|]. split; [done|].
  unfold MercadoLibreService.getValidAccessToken, getProperty. munfold.
  rewrite Ht, He. cbn [from_option Datatypes.id]. rewrite Hd.
  destruct token; [done|]. destruct exp; [done|]. cbn [present andb].
  unfold MercadoLibreService.bufferTime.
  by apply Z.ltb_lt in Hlt as ->.
Qed.

Lemma getValidAccessToken_stale w :
  ~ token_fresh w ->
  MercadoLibreService.getValidAccessToken w = MercadoLibreService.refreshAccessToken w.
Proof.
  intros Hn.
  assert (Hr := refresh_never_throws).
  transitivity (try_catch MercadoLibreService.refreshAccessToken
                  (fun _ : exn => ret JNull) w);
    [| by apply try_catch_never_throws ].
  unfold MercadoLibreService.getValidAccessToken, getProperty. munfold.
  destruct (present (properties w !! js "ML_ACCESS_TOKEN")) eqn:Et; [|done].
  destruct (present (properties w !! js "ML_ACCESS_TOKEN_FECHA_EXPIRA")) eqn:Ee; [|done].
  cbn [andb].
  apply present_spec in Et as (token & Et & Hne).
  apply present_spec in Ee as (exp & Ee & Hne').
  rewrite Ee. cbn [from_option Datatypes.id].
  destruct (Date_getTime (JStr exp)) as [expiry|] eqn:Ed; [|done].
  destruct (now w <? expiry - MercadoLibreService.bufferTime)%Z eqn:El; [|done].
  exfalso. apply Hn. exists token, exp, expiry.
  apply Z.ltb_lt in El. unfold MercadoLibreService.bufferTime in El. by repeat split.
Qed.

End TokenProps.

(** ** The dispatcher ([main.gs], [handleChatbotRequest]) *)

Section DispatcherProps.
Context {host : Host} {ai : AIGateway}.

(** The first statements of the [try] block: initialise on first use. *)
Definition prepare : M unit :=
  let* initialized := isSystemInitialized in
  if negb initialized then initializeSystem else ret tt.

Lemma getMenu_never_throws : never_throws MenuService.getMenu.
Proof.
  apply never_throws_try_catch. intros e w. munfold. by eexists _, _.
Qed.

Lemma handler_never_throws (params : jsval) (e : exn) :
  never_throws
    (LoggingService.logError (js "handleChatbotRequest") e params ;;
     let* w := get_world in ret (errorEnvelope w)).
Proof.
  intros w. destruct (logError_frame (js "handleChatbotRequest") e params w)
    as (w' & E & _).
  exists (errorEnvelope w'), w'. munfold. by rewrite E.
Qed.

Lemma handleChatbotRequest_never_throws (params : jsval) :
  never_throws (handleChatbotRequest params).
Proof.
  unfold handleChatbotRequest. apply never_throws_try_catch.
  intros e. apply handler_never_throws.
Qed.

Lemma errorEnvelope_shape w :
  prop (errorEnvelope w) (js "success") = JBool false
  /\ prop (errorEnvelope w) (js "error")
     = JStr (js "Lo siento, ocurriÃ³ un error. Por favor intenta nuevamente.")
  /\ prop (errorEnvelope w) (js "timestamp") = JStr (toISOString (now w)).
Proof. repeat split; vm_compute; reflexivity. Qed.

Lemma dispatch_default (params : jsval) w w1 :
  nullish params = false ->
  is_str (prop params (js "action")) (js "processSelection") = false ->
  is_str (prop params (js "action")) (js "sendMessage") = false ->
  prepare w = (Ret tt, w1) ->
  dispatch params w = MenuService.getMenu w1.
Proof.
  intros Hn Hp Hs Hprep. unfold dispatch, member.
  revert Hprep. unfold prepare. munfold.
  destruct (isSystemInitialized w) as [[b|e] w0]; [|done].
  destruct (negb b).
  - destruct (initializeSystem w0) as [[[]|e] w0']; [|done].
    intros [= ->]. rewrite Hn, Hp, Hs. by destruct (is_str _ (js "getMenu")).
  - intros [= ->]. rewrite Hn, Hp, Hs. by destruct (is_str _ (js "getMenu")).
Qed.

End DispatcherProps.

(** C1.  For every request value, [handleChatbotRequest] returns: it
    never raises.  An exception of the dispatch is turned into the
    envelope with [success: false], an error text and a timestamp.  An
    action other than 'processSelection' and 'sendMessage' (missing and
    unrecognised ones included) goes to [MenuService.getMenu]. *)
Theorem dispatcher_never_raises {host : Host} {ai : AIGateway}
  (params : jsval) (w : World) :
  (exists r w', handleChatbotRequest params w = (Ret r, w'))
  /\ (forall e w1,
        dispatch (match params with JUndefined => JObj [] | _ => params end) w
        = (Throw e, w1) ->
        exists w2,
          handleChatbotRequest params w = (Ret (errorEnvelope w2), w2)
          /\ prop (errorEnvelope w2) (js "success") = JBool false
          /\ (exists text, prop (errorEnvelope w2) (js "error") = JStr text)
          /\ prop (errorEnvelope w2) (js "timestamp") = JStr (toISOString (now w2)))
  /\ (forall w1,
        params <> JNull ->
        is_str (prop params (js "action")) (js "processSelection") = false ->
        is_str (prop params (js "action")) (js "sendMessage") = false ->
        prepare w = (Ret tt, w1) ->
        handleChatbotRequest params w = MenuService.getMenu w1).
Proof.
  split; [apply handleChatbotRequest_never_throws|]. split.
  - intros e w1 Hd. unfold handleChatbotRequest. munfold. rewrite Hd.
    match goal with |- context [LoggingService.logError ?o e ?c w1] =>
      destruct (logError_frame o e c w1) as (w2 & -> & _) end.
    exists w2. split; [reflexivity|].
    destruct (errorEnvelope_shape w2) as (Hs & He & Ht).
    split; [done|]. split; [by eexists | done].
  - intros w1 Hnull Hp Hs Hprep. unfold handleChatbotRequest.
    set (params' := match params with JUndefined => JObj [] | _ => params end).
    assert (Hd : dispatch params' w = MenuService.getMenu w1).
    { apply dispatch_default; [| | |done]; subst params'; by destruct params. }
    destruct (getMenu_never_throws w1) as (r & w2 & Hm).
    munfold. rewrite Hd, Hm. reflexivity.
Qed.

(** The statement at the request [null], whose [action] cannot be read,
    and at an unrecognised action, on a newly deployed script. *)
Lemma dispatcher_never_raises_witness :
  (exists w2,
     @handleChatbotRequest Demo.host (@deployed Demo.host) JNull Demo.fresh
     = (Ret (@errorEnvelope Demo.host w2), w2))
  /\ @handleChatbotRequest Demo.host (@deployed Demo.host)
       (Demo.request "ayuda" "hola") Demo.fresh
     = @MenuService.getMenu Demo.host Demo.ready.
Proof.
  split.
  - destruct (@dispatcher_never_raises Demo.host (@deployed Demo.host) JNull Demo.fresh)
      as (_ & He & _).
    assert (exists e w1,
              @dispatch Demo.host (@deployed Demo.host) JNull Demo.fresh = (Throw e, w1))
      as (e & w1 & E) by (vm_compute; by eexists _, _).
    destruct (He e w1 E) as (w2 & H & _). by exists w2.
  - destruct (@dispatcher_never_raises Demo.host (@deployed Demo.host)
                (Demo.request "ayuda" "hola") Demo.fresh) as (_ & _ & Hd).
    apply Hd; [done | vm_compute; reflexivity | vm_compute; reflexivity |].
    vm_compute. reflexivity.
Defined.

(** ** Response envelopes *)

(** C2 (the code returns envelopes without a timestamp).  On a newly
    deployed system the request [{action: 'processSelection', userInput:
    '99'}] is answered by an object with the fields success, message and
    showMenu only.  The same holds for the answer the order-inquiry
    handler takes from the AI gateway when the gateway fails; through the
    dispatcher that handler is never reached, because
    [determineResponseStrategy] calls a method the chat service does not
    define and the message is answered by the error envelope of
    [processMessage]. *)
Theorem invalid_selection_has_no_timestamp :
  (@handleChatbotRequest Demo.host (@deployed Demo.host)
     (Demo.request "processSelection" "99") Demo.fresh).1
  = Ret (obj [(js "success", JBool false);
              (js "message",
               JStr (js "Selección inválida. Por favor elige una opción del menú."));
              (js "showMenu", JBool true)])
  /\ has_field
       (obj [(js "success", JBool false);
             (js "message",
              JStr (js "Selección inválida. Por favor elige una opción del menú."));
             (js "showMenu", JBool true)]) (js "timestamp") = false
  /\ (@ChatService.handleOrderInquiry Demo.host (@deployed Demo.host)
        (JStr (js "estado de mi pedido")) (JStr (js "s1")) JUndefined Demo.fresh).1
     = Ret (obj [(js "success", JBool false);
                 (js "error", JStr (js "Gemini API error: Gemini API key not configured"));
                 (js "provider", JStr (js "gemini"))])
  /\ (@handleChatbotRequest Demo.host (@deployed Demo.host)
        (Demo.request "sendMessage" "estado de mi pedido") Demo.fresh).1
     = Ret (obj [(js "success", JBool false);
                 (js "message",
                  JStr (js "Lo siento, ocurrió un error procesando tu mensaje. ¿Podrías intentar nuevamente?"));
                 (js "showMenu", JBool true);
                 (js "timestamp", JStr (js "T1705314600000"))]).
Proof. evaluate. Qed.

(** ** AI options and their static fallback (menuService.gs) *)

(** The gateway call did not produce an answer: it threw, or what it
    returned has no truthy [success]. *)
Definition ai_failed (r : outcome jsval) : Prop :=
  match r with
  | Throw _ => True
  | Ret v => truthy (prop v (js "success")) = false
  end.

(** The generic apology of the branch taken: the [else] branch when the
    gateway returned an object, the [catch] branch otherwise. *)
Definition apology (r : outcome jsval) : jsstring :=
  match r with
  | Ret v =>
      if nullish v then js "Error en el servicio de IA. Intenta nuevamente."
      else js "Lo siento, no puedo procesar tu consulta en este momento."
  | Throw _ => js "Error en el servicio de IA. Intenta nuevamente."
  end.

(** The context object handed to the gateway for a menu option. *)
Definition optionContext (o : MenuService.MenuOption) : jsval :=
  obj [(js "userQuery", MenuService.title o);
       (js "context", js_or (MenuService.aiContext o) (JStr []));
       (js "maxTokens", js_or (MenuService.maxTokens o) (JNum 500))].

Section FallbackProps.
Context {host : Host} {ai : AIGateway}.

(** The static reply for an option, built at world [w]. *)
Definition staticReply (o : MenuService.MenuOption) (w : World) : jsval :=
  obj [(js "success", JBool true);
       (js "type", JStr (js "static"));
       (js "title", MenuService.title o);
       (js "message", MenuService.response o);
       (js "showMenu", JBool (MenuService.returnToMenu o));
       (js "timestamp", JStr (toISOString (now w)))].

(** The world after [logInteraction] wrote one row. *)
Definition logged (interactionType : jsstring) (sessionId data : jsval) (w : World)
  : World :=
  with_sheets
    (insert CONFIG.LOGS_SHEET
       (log_rows w ++ [interactionRow interactionType sessionId data w])) w.

Lemma staticReply_fields o w :
  prop (staticReply o w) (js "type") = JStr (js "static")
  /\ prop (staticReply o w) (js "message") = MenuService.response o
  /\ prop (staticReply o w) (js "success") = JBool true.
Proof. repeat split; vm_compute; reflexivity. Qed.

Lemma handleStaticResponse_ready (o : MenuService.MenuOption) (sessionId : jsval) w :
  logs_ready w ->
  MenuService.handleStaticResponse o sessionId w
  = (Ret (staticReply o w),
     logged (js "static_response") sessionId (staticReply o w) w).
Proof.
  intros Hr. unfold MenuService.handleStaticResponse. munfold.
  fold (staticReply o w).
  rewrite (logInteraction_ready _ _ _ w Hr); [reflexivity|].
  vm_compute. reflexivity.
Qed.

Lemma handleStaticResponse_never_throws (o : MenuService.MenuOption) (sessionId : jsval) :
  never_throws (MenuService.handleStaticResponse o sessionId).
Proof.
  intros w. unfold MenuService.handleStaticResponse. munfold.
  match goal with |- context [LoggingService.logInteraction ?t ?s ?d w] =>
    destruct (logInteraction_frame t s d w) as (w' & -> & _) end.
  by eexists _, _.
Qed.

(** When the gateway fails, [handleAIResponse] is [handleStaticResponse]
    on the fallback text (or the apology), run after the gateway. *)
Lemma handleAIResponse_failed (o : MenuService.MenuOption) (sessionId : jsval)
  w (r : outcome jsval) w1 :
  ai_generateResponse (js_or (MenuService.aiProvider o) (JStr CONFIG.GEMINI))
    (optionContext o) w = (r, w1) ->
  ai_failed r ->
  MenuService.handleAIResponse o sessionId w
  = MenuService.handleStaticResponse
      (MenuService.with_response o
         (js_or (MenuService.fallbackResponse o) (JStr (apology r))))
      sessionId w1.
Proof.
  intros Hg Hf. unfold MenuService.handleAIResponse, member. munfold.
  fold (optionContext o). rewrite Hg.
  destruct r as [v|e]; [|reflexivity]. cbn in Hf. unfold apology.
  destruct (nullish v) eqn:En; [reflexivity|].
  cbv beta iota. rewrite Hf.
  match goal with |- context [MenuService.handleStaticResponse ?x ?s w1] =>
    destruct (handleStaticResponse_never_throws x s w1) as (a & w2 & ->) end.
  reflexivity.
Qed.

End FallbackProps.

(** C5.  When the option selected has response type 'ai' and the gateway
    call fails (it throws, or what it returns has no truthy [success]),
    [processSelection] returns a reply of type 'static' whose message is
    the option's fallback text when there is one and a generic apology
    otherwise, and the one row it writes after the gateway call has the
    interaction type 'static_response'. *)
Theorem ai_failure_answered_as_static {host : Host} {ai : AIGateway}
  (selection sessionId : jsval) (o : MenuService.MenuOption)
  (menu : list MenuService.MenuOption) (w wm w1 : World) (r : outcome jsval) :
  MenuService.getMenuConfig w = (Ret menu, wm) ->
  MenuService.findOption menu selection wm = (Ret (Some o), wm) ->
  is_str (MenuService.responseType o) CONFIG.AI = true ->
  logs_ready wm ->
  ai_generateResponse (js_or (MenuService.aiProvider o) (JStr CONFIG.GEMINI))
    (optionContext o)
    (logged (js "menu_selection") sessionId
       (obj [(js "selection", selection); (js "option", MenuService.title o)]) wm)
  = (r, w1) ->
  ai_failed r ->
  logs_ready w1 ->
  let reply :=
    staticReply
      (MenuService.with_response o
         (js_or (MenuService.fallbackResponse o) (JStr (apology r)))) w1 in
  MenuService.processSelection selection sessionId w
  = (Ret reply, logged (js "static_response") sessionId reply w1)
  /\ prop reply (js "type") = JStr (js "static")
  /\ prop reply (js "message")
     = (if truthy (MenuService.fallbackResponse o)
        then MenuService.fallbackResponse o
        else JStr (apology r))
  /\ log_rows (logged (js "static_response") sessionId reply w1)
     = log_rows w1 ++ [interactionRow (js "static_response") sessionId reply w1]
  /\ cell (interactionRow (js "static_response") sessionId reply w1) 2
     = JStr (js "static_response").
Proof.
  intros Hmenu Hfind Hai Hwm Hg Hf Hw1 reply.
  assert (Hstatic : is_str (MenuService.responseType o) CONFIG.STATIC = false).
  { destruct (MenuService.responseType o) as [| | | |s| |]; try done.
    cbn in Hai |- *. apply bool_decide_eq_true in Hai as ->. by vm_compute. }
  split.
  - unfold MenuService.processSelection. munfold.
    rewrite Hmenu, Hfind.
    rewrite (logInteraction_ready _ _ _ wm Hwm); [|by vm_compute].
    rewrite Hstatic, Hai.
    fold (logged (js "menu_selection") sessionId
            (obj [(js "selection", selection); (js "option", MenuService.title o)]) wm).
    rewrite (handleAIResponse_failed o sessionId _ r w1 Hg Hf).
    rewrite (handleStaticResponse_ready _ sessionId w1 Hw1). reflexivity.
  - destruct (staticReply_fields
               (MenuService.with_response o
                  (js_or (MenuService.fallbackResponse o) (JStr (apology r)))) w1)
      as (Ht & Hm & _).
    split; [exact Ht|]. split; [exact Hm|]. split.
    + unfold logged. by rewrite log_rows_append.
    + reflexivity.
Qed.

(** The sample option 1 ('Estado de mi pedido', type ai) with a gateway
    that throws. *)
Lemma ai_failure_answered_as_static_witness :
  logs_ready Demo.ready
  /\ (@MenuService.processSelection Demo.host Demo.broken
        (JStr (js "1")) (JStr (js "s1")) Demo.ready).1
     = Ret (obj [(js "success", JBool true);
                 (js "type", JStr (js "static"));
                 (js "title", JStr (js "Estado de mi pedido"));
                 (js "message", JStr (js "Consulta el estado de tu pedido en tu cuenta"));
                 (js "showMenu", JBool true);
                 (js "timestamp", JStr (js "T1705314600000"))]).
Proof.
  assert (Hready : logs_ready Demo.ready).
  { repeat split; [vm_compute; reflexivity .. | vm_compute; by eexists]. }
  split; [exact Hready|].
  pose (o := MenuService.menuItem (default [] (SheetsService.sampleData !! 0%nat))).
  pose (ws := @logged Demo.host (js "menu_selection") (JStr (js "s1"))
                (obj [(js "selection", JStr (js "1")); (js "option", MenuService.title o)])
                Demo.ready).
  destruct (@ai_failure_answered_as_static Demo.host Demo.broken
              (JStr (js "1")) (JStr (js "s1")) o
              (MenuService.menuItems (SheetsService.menuHeaders :: SheetsService.sampleData))
              Demo.ready Demo.ready ws (Throw (Error (js "AI down"))))
    as (Hp & _).
  - vm_compute. reflexivity.
  - vm_compute. reflexivity.
  - vm_compute. reflexivity.
  - exact Hready.
  - reflexivity.
  - exact I.
  - repeat split; [vm_compute; reflexivity .. | vm_compute; by eexists].
  - rewrite Hp. vm_compute. reflexivity.
Defined.

(** ** The deployed gateway writes no log row *)

(** A computation that leaves the spreadsheet as it found it. *)
Definition keeps_sheets {A} (m : M A) : Prop :=
  forall w r w1, m w = (r, w1) -> sheets w1 = sheets w.

Section KeepsSheets.
Context {host : Host}.

Lemma keeps_ret {A} (a : A) : keeps_sheets (ret a).
Proof. by intros w r w1 [= _ <-]. Qed.

Lemma keeps_throw {A} (e : exn) : keeps_sheets (@throw A e).
Proof. by intros w r w1 [= _ <-]. Qed.

Lemma keeps_lift {A} (o : outcome A) : keeps_sheets (lift o).
Proof. by intros w r w1 [= _ <-]. Qed.

Lemma keeps_get_world : keeps_sheets get_world.
Proof. by intros w r w1 [= _ <-]. Qed.

Lemma keeps_getProperty (k : jsstring) : keeps_sheets (getProperty k).
Proof. by intros w r w1 [= _ <-]. Qed.

Lemma keeps_fetch (req : Request) : keeps_sheets (fetch req).
Proof. by intros w r w1 [= _ <-]. Qed.

Lemma keeps_bind {A B} (m : M A) (k : A -> M B) :
  keeps_sheets m -> (forall a, keeps_sheets (k a)) -> keeps_sheets (bind m k).
Proof.
  intros Hm Hk w r w2. munfold.
  destruct (m w) as [[a|e] w1] eqn:E; apply Hm in E.
  - intros H. apply Hk in H. congruence.
  - intros [= _ <-]. done.
Qed.

Lemma keeps_try_catch {A} (body : M A) (handler : exn -> M A) :
  keeps_sheets body -> (forall e, keeps_sheets (handler e)) ->
  keeps_sheets (try_catch body handler).
Proof.
  intros Hb Hh w r w2. munfold.
  destruct (body w) as [[a|e] w1] eqn:E; apply Hb in E.
  - intros [= _ <-]. done.
  - intros H. apply Hh in H. congruence.
Qed.

Lemma keeps_member (v : jsval) (k : jsstring) : keeps_sheets (member v k).
Proof. unfold member. destruct (nullish v); [apply keeps_throw | apply keeps_ret]. Qed.

Lemma keeps_first_item (v : jsval) : keeps_sheets (first_item v).
Proof. destruct v; first [apply keeps_throw | apply keeps_ret]. Qed.

Lemma keeps_trimmed (v : jsval) : keeps_sheets (AIService.trimmed v).
Proof. destruct v; first [apply keeps_throw | apply keeps_ret]. Qed.

End KeepsSheets.

Create HintDb keeps.
#[export] Hint Resolve keeps_ret keeps_throw keeps_lift keeps_get_world
  keeps_getProperty keeps_fetch keeps_member keeps_first_item keeps_trimmed : keeps.

(** Walks down binds, handlers and branches. *)
Ltac keeps :=
  repeat first
    [ progress auto with keeps
    | apply keeps_bind; [|intros ?]
    | apply keeps_try_catch; [|intros ?]
    | match goal with
      | |- keeps_sheets (if ?b then _ else _) => destruct b
      | |- keeps_sheets (match ?x with _ => _ end) => destruct x
      end ].

Section DeployedGateway.
Context {host : Host}.

Lemma callGemini_keeps (context : jsval) : keeps_sheets (AIService.callGemini context).
Proof. unfold AIService.callGemini. keeps. Qed.

Lemma callClaude_keeps (context : jsval) : keeps_sheets (AIService.callClaude context).
Proof. unfold AIService.callClaude. keeps. Qed.

Lemma generateResponse_keeps (provider context : jsval) :
  keeps_sheets (AIService.generateResponse provider context).
Proof.
  unfold AIService.generateResponse.
  apply keeps_try_catch; [|intros ?; apply keeps_ret].
  destruct (is_str provider CONFIG.GEMINI); [apply callGemini_keeps|].
  destruct (is_str provider CONFIG.CLAUDE); [apply callClaude_keeps | apply keeps_throw].
Qed.

(** Under the deployed gateway the rows of a failed AI selection are the
    selection row and the static reply row, in that order. *)
Lemma deployed_log_rows (sessionId : jsval) (o : MenuService.MenuOption)
  (data reply : jsval) (wm w1 : World) (r : outcome jsval) :
  @ai_generateResponse deployed
    (js_or (MenuService.aiProvider o) (JStr CONFIG.GEMINI)) (optionContext o)
    (logged (js "menu_selection") sessionId data wm) = (r, w1) ->
  log_rows (logged (js "static_response") sessionId reply w1)
  = log_rows wm
    ++ [interactionRow (js "menu_selection") sessionId data wm;
        interactionRow (js "static_response") sessionId reply w1].
Proof.
  intros Hg. apply generateResponse_keeps in Hg.
  unfold logged at 1. rewrite log_rows_append.
  unfold log_rows at 1. rewrite Hg.
  fold (log_rows (logged (js "menu_selection") sessionId data wm)).
  unfold logged. rewrite log_rows_append. by rewrite <- app_assoc.
Qed.

End DeployedGateway.

(** ** Message sanitization (loggingService.gs, [sanitizeMessage]) *)

(** C7, as the specification states it, fails.  The text below is 489
    letters, a space and 14 digits.  No pattern matches it, so one pass
    only cuts it at 500 code units, which leaves a run of 10 digits: the
    result of one pass holds a phone-like substring, and a second pass
    masks it and returns a shorter text. *)
Lemma sanitizeMessage_twice_differs :
  LoggingService.sanitizeMessage (JStr (repeat 97%N 489 ++ js " 12345678901234"))
  = repeat 97%N 489 ++ js " 1234567890"
  /\ search phone_re (repeat 97%N 489 ++ js " 1234567890") = Some (js "1234567890")
  /\ LoggingService.sanitizeMessage (JStr (repeat 97%N 489 ++ js " 1234567890"))
     = repeat 97%N 489 ++ js " [PHONE]"
  /\ length (LoggingService.sanitizeMessage
               (JStr (repeat 97%N 489 ++ js " 12345678901234"))) = 500%nat
  /\ length (LoggingService.sanitizeMessage
               (JStr (LoggingService.sanitizeMessage
                        (JStr (repeat 97%N 489 ++ js " 12345678901234"))))) = 497%nat.
Proof. evaluate. Qed.

(** *** The matcher against a declarative reading of a pattern *)

Definition within (hi : option nat) (j : nat) : Prop :=
  match hi with Some h => (j <= h)%nat | None => True end.

(** [sem p prev t k]: the pattern [p] can match the first [k] code units
    of [t], [prev] being the code unit before [t]. *)
Fixpoint sem (p : list atom) (prev : option N) (t : jsstring) (k : nat) : Prop :=
  match p with
  | [] => k = 0%nat
  | WordB :: p' => boundary prev t = true /\ sem p' prev t k
  | Rep c lo hi :: p' =>
      exists j, (lo <= j)%nat /\ within hi j /\ (j <= length t)%nat
                /\ forallb c (take j t) = true /\ (j <= k)%nat
                /\ sem p' (after prev (take j t)) (drop j t) (k - j)
  end.

Section MatcherSemantics.

Lemma after_app prev (a b : jsstring) : after prev (a ++ b) = after (after prev a) b.
Proof. revert prev. induction a as [|x a IH]; intros prev; cbn; [done | apply IH]. Qed.

Lemma rep_go_sound (c : N -> bool) (K : nat -> option N -> jsstring -> option nat)
  (P : option N -> jsstring -> nat -> Prop) :
  (forall n prev t m, K n prev t = Some m -> exists k, m = (n + k)%nat /\ P prev t k) ->
  forall t lo hi n prev m,
    rep_go c K lo hi n prev t = Some m ->
    exists j k, (lo <= j)%nat /\ within hi j /\ (j <= length t)%nat
                /\ forallb c (take j t) = true /\ m = (n + j + k)%nat
                /\ P (after prev (take j t)) (drop j t) k.
Proof.
  intros HK. induction t as [|x t IH]; intros lo hi n prev m; cbn.
  - destruct lo; [|done]. intros H. apply HK in H as (k & -> & HP).
    exists 0%nat, k. repeat split; try done; try lia. by destruct hi; cbn; lia.
  - assert (Hstop : match lo with 0%nat => K n prev (x :: t) | S _ => None end = Some m ->
      exists j k, (lo <= j)%nat /\ within hi j /\ (j <= length (x :: t))%nat
                  /\ forallb c (take j (x :: t)) = true /\ m = (n + j + k)%nat
                  /\ P (after prev (take j (x :: t))) (drop j (x :: t)) k).
    { destruct lo; [|done]. intros H. apply HK in H as (k & -> & HP).
      exists 0%nat, k. repeat split; try done; try lia. by destruct hi; cbn; lia. }
    destruct (c x && may_take hi) eqn:E; [|exact Hstop].
    apply andb_prop in E as [Ec Eh].
    destruct (rep_go c K (pred lo) (option_map pred hi) (S n) (Some x) t) as [r|] eqn:Er;
      [|exact Hstop].
    intros [= ->]. apply IH in Er as (j & k & Hlo & Hhi & Hlen & Hall & -> & HP).
    exists (S j), k. cbn. rewrite Ec, Hall.
    repeat split; try done; try lia.
    destruct hi as [[|h]|]; cbn in *; try done; lia.
Qed.

Lemma exec_sound p : forall n prev t m,
  exec p n prev t = Some m -> exists k, m = (n + k)%nat /\ sem p prev t k.
Proof.
  induction p as [|[|c lo hi] p IH]; intros n prev t m; cbn.
  - intros [= <-]. exists 0%nat. split; [lia | done].
  - destruct (boundary prev t) eqn:Eb; [|done].
    intros H. apply IH in H as (k & -> & Hs). by exists k.
  - intros H. apply (rep_go_sound c (exec p) (sem p) IH) in H
      as (j & k & Hlo & Hhi & Hlen & Hall & -> & HP).
    exists (j + k)%nat. split; [lia|]. exists j.
    repeat split; try done; try lia. by replace (j + k - j)%nat with k by lia.
Qed.

Lemma rep_go_complete (c : N -> bool) (K : nat -> option N -> jsstring -> option nat)
  (P : option N -> jsstring -> nat -> Prop) :
  (forall n prev t k, P prev t k -> K n prev t <> None) ->
  forall t lo hi n prev j k,
    (lo <= j)%nat -> within hi j -> (j <= length t)%nat ->
    forallb c (take j t) = true ->
    P (after prev (take j t)) (drop j t) k ->
    rep_go c K lo hi n prev t <> None.
Proof.
  intros HK. induction t as [|x t IH]; intros lo hi n prev j k Hlo Hhi Hlen Hall HP; cbn.
  - assert (j = 0%nat) as -> by (cbn in Hlen; lia).
    assert (lo = 0%nat) as -> by lia. by apply (HK n) in HP.
  - destruct j as [|j].
    + assert (lo = 0%nat) as -> by lia. cbn in HP. apply (HK n) in HP.
      destruct (c x && may_take hi); [|done].
      by destruct (rep_go c K _ _ _ _ t).
    + cbn in Hall, HP, Hlen. apply andb_prop in Hall as [Ec Hall]. rewrite Ec.
      assert (may_take hi = true) as -> by (destruct hi as [[|h]|]; cbn in *; done || lia).
      cbn [andb].
      assert (rep_go c K (pred lo) (option_map pred hi) (S n) (Some x) t <> None) as Hr.
      { apply (IH _ _ _ _ j k); try done; try lia.
        destruct hi as [[|h]|]; cbn in *; try done; lia. }
      by destruct (rep_go c K _ _ _ _ t).
Qed.

Lemma exec_complete p : forall n prev t k, sem p prev t k -> exec p n prev t <> None.
Proof.
  induction p as [|[|c lo hi] p IH]; intros n prev t k; cbn.
  - done.
  - intros [-> Hs]. by apply (IH n) in Hs.
  - intros (j & Hlo & Hhi & Hlen & Hall & Hjk & Hs).
    by apply (rep_go_complete c (exec p) (sem p) IH t lo hi n prev j (k - j)).
Qed.

(** A match never runs past the end of the text. *)
Lemma sem_le p : forall prev t k, sem p prev t k -> (k <= length t)%nat.
Proof.
  induction p as [|[|c lo hi] p IH]; intros prev t k; cbn.
  - lia.
  - intros [_ Hs]. by apply IH in Hs.
  - intros (j & Hlo & Hhi & Hlen & Hall & Hjk & Hs).
    apply IH in Hs. rewrite length_drop in Hs. lia.
Qed.

End MatcherSemantics.

(** *** What a match depends on *)

(** The code units some quantifier of the pattern accepts. *)
Definition in_classes (p : list atom) (x : N) : bool :=
  existsb (fun a => match a with Rep c _ _ => c x | WordB => false end) p.

(** A pattern enclosed in word boundaries whose first quantifier takes at
    least one code unit: the shape of the three masking patterns. *)
Definition bounded_pattern (p : list atom) : Prop :=
  exists c lo hi inner, p = WordB :: Rep c (S lo) hi :: inner ++ [WordB].

Section MatchLocality.

Lemma after_nonempty prev prev' (l : jsstring) : l <> [] -> after prev l = after prev' l.
Proof. destruct l as [|x l]; [done|]. reflexivity. Qed.

Lemma drop_take_sub {A} (j k : nat) (t : list A) :
  (j <= k)%nat -> drop j (take k t) = take (k - j) (drop j t).
Proof.
  intros Hjk. rewrite take_drop_commute. by replace (j + (k - j))%nat with k by lia.
Qed.

Lemma take_take_drop {A} (j k : nat) (t : list A) :
  (j <= k)%nat -> take k t = take j t ++ take (k - j) (drop j t).
Proof.
  intros Hjk. rewrite <- (take_drop j (take k t)).
  rewrite take_take, Nat.min_l by lia. f_equal. by apply drop_take_sub.
Qed.

Lemma take_prefix_eq {A} (j k : nat) (t t' : list A) :
  (j <= k)%nat -> take k t = take k t' -> take j t = take j t'.
Proof.
  intros Hjk H. rewrite <- (Nat.min_l j k) by lia.
  rewrite <- !take_take. by rewrite H.
Qed.

Lemma take_suffix_eq {A} (j k : nat) (t t' : list A) :
  (j <= k)%nat -> take k t = take k t' ->
  take (k - j) (drop j t) = take (k - j) (drop j t').
Proof.
  intros Hjk H. rewrite <- !drop_take_sub by done. by rewrite H.
Qed.

Lemma word_at_local (t t' : jsstring) (k : nat) :
  (k <= length t)%nat -> (k <= length t')%nat ->
  take k t = take k t' ->
  word_at (drop k t) = word_at (drop k t') ->
  word_at t = word_at t'.
Proof.
  intros Hk Hk' Ht Hd. destruct k as [|k]; [done|].
  destruct t as [|x t]; [cbn in Hk; lia|]. destruct t' as [|x' t']; [cbn in Hk'; lia|].
  cbn in Ht. by injection Ht as -> _.
Qed.

(** Whether a match is possible depends on the matched code units and on
    whether the code units before and after them are word characters. *)
Lemma sem_local p : forall prev prev' t t' k,
  sem p prev t k ->
  (k <= length t')%nat ->
  take k t = take k t' ->
  word_before prev = word_before prev' ->
  word_at (drop k t) = word_at (drop k t') ->
  sem p prev' t' k.
Proof.
  induction p as [|[|c lo hi] p IH]; intros prev prev' t t' k Hs Hk' Ht Hp Hd.
  - done.
  - pose proof (sem_le _ _ _ _ Hs) as Hk. destruct Hs as [Hb Hs]. split.
    + unfold boundary in *. rewrite <- Hp.
      by rewrite <- (word_at_local t t' k).
    + by apply (IH prev prev' t t' k).
  - pose proof (sem_le _ _ _ _ Hs) as Hk.
    destruct Hs as (j & Hlo & Hhi & Hlen & Hall & Hjk & Hs).
    pose proof (take_prefix_eq j k t t' Hjk Ht) as Hj.
    exists j. repeat split; try done; try lia.
    + by rewrite <- Hj.
    + apply (IH (after prev (take j t)) _ (drop j t)); try done.
      * rewrite length_drop. lia.
      * by apply take_suffix_eq.
      * rewrite <- Hj. destruct j as [|j]; [done|].
        f_equal. apply after_nonempty.
        destruct t; [cbn in Hlen; lia | done].
      * rewrite !drop_drop. by replace (j + (k - j))%nat with k by lia.
Qed.

(** Every matched code unit is accepted by some quantifier of the pattern. *)
Lemma sem_classes p : forall prev t k,
  sem p prev t k -> forallb (in_classes p) (take k t) = true.
Proof.
  induction p as [|[|c lo hi] p IH]; intros prev t k Hs.
  - cbn in Hs. by subst k.
  - destruct Hs as [_ Hs]. apply IH in Hs. exact Hs.
  - destruct Hs as (j & Hlo & Hhi & Hlen & Hall & Hjk & Hs).
    apply IH in Hs. rewrite (take_take_drop j k t Hjk), forallb_app.
    apply andb_true_intro. split.
    + rewrite forallb_forall in *. intros x Hx. unfold in_classes. cbn.
      by rewrite (Hall x Hx).
    + rewrite forallb_forall in *. intros x Hx. specialize (Hs x Hx).
      unfold in_classes in *. cbn. rewrite Hs. apply orb_true_r.
Qed.

(** A pattern that ends in a word boundary matches up to a boundary. *)
Lemma sem_ends p : forall prev t k,
  sem (p ++ [WordB]) prev t k ->
  boundary (after prev (take k t)) (drop k t) = true.
Proof.
  induction p as [|[|c lo hi] p IH]; intros prev t k Hs.
  - destruct Hs as [Hb ->]. by rewrite take_0, drop_0.
  - destruct Hs as [_ Hs]. by apply IH.
  - destruct Hs as (j & Hlo & Hhi & Hlen & Hall & Hjk & Hs).
    apply IH in Hs. rewrite drop_drop, <- after_app in Hs.
    rewrite <- (take_take_drop j k t Hjk) in Hs.
    by replace (j + (k - j))%nat with k in Hs by lia.
Qed.

Lemma sem_bounded p prev t k :
  bounded_pattern p -> sem p prev t k ->
  boundary prev t = true
  /\ boundary (after prev (take k t)) (drop k t) = true
  /\ (1 <= k <= length t)%nat
  /\ forallb (in_classes p) (take k t) = true.
Proof.
  intros (c & lo & hi & inner & ->) Hs.
  pose proof (sem_le _ _ _ _ Hs) as Hk.
  pose proof (sem_classes _ _ _ _ Hs) as Hc.
  split; [apply Hs|]. split.
  - apply (sem_ends (WordB :: Rep c (S lo) hi :: inner)). exact Hs.
  - split; [|exact Hc]. destruct Hs as [_ (j & Hlo & _ & _ & _ & Hjk & _)]. lia.
Qed.

(** A bounded pattern matches no empty text. *)
Lemma match_at_positive p prev t n :
  bounded_pattern p -> match_at p prev t = Some n -> (1 <= n <= length t)%nat.
Proof.
  intros Hp H. apply exec_sound in H as (k & -> & Hs).
  apply (sem_bounded p prev t k Hp) in Hs as (_ & _ & Hk & _). lia.
Qed.

End MatchLocality.

Lemma card_re_bounded : bounded_pattern card_re.
Proof.
  exists is_digit, 3%nat, (Some 4%nat),
    [Opt sep_space_dash; Times 4 is_digit; Opt sep_space_dash; Times 4 is_digit;
     Opt sep_space_dash; Times 4 is_digit].
  reflexivity.
Qed.

Lemma email_re_bounded : bounded_pattern email_re.
Proof.
  exists email_local, 0%nat, None,
    [Cls (one_of (js "@")); Plus email_domain; Cls (one_of (js ".")); AtLeast 2 email_tld].
  reflexivity.
Qed.

Lemma phone_re_bounded : bounded_pattern phone_re.
Proof.
  exists is_digit, 2%nat, (Some 3%nat),
    [Opt sep_dash_dot; Times 3 is_digit; Opt sep_dash_dot; Times 4 is_digit].
  reflexivity.
Qed.

(** *** Texts without a match, and what a replacement does to them *)

(** No match of [p] starts anywhere in [t], [prev] being the code unit
    before [t]. *)
Definition free_from (p : list atom) (prev : option N) (t : jsstring) : Prop :=
  forall pre rest, t = pre ++ rest -> match_at p (after prev pre) rest = None.

(** A replacement text in square brackets. *)
Definition bracketed (mid : jsstring) : jsstring := 91%N :: mid ++ [93%N].

Fixpoint suffixes (l : jsstring) : list jsstring :=
  l :: match l with
       | [] => []
       | _ :: l' => suffixes l'
       end.

(** No match of [p] starts at any position of [w] taken alone, after a
    word character or after none. *)
Definition no_match_inside (p : list atom) (w : jsstring) : bool :=
  forallb (fun v => match match_at p None v, match_at p (Some 97%N) v with
                    | None, None => true
                    | _, _ => false
                    end) (suffixes w).

Section FreeFacts.

Lemma free_from_nil p prev : bounded_pattern p -> free_from p prev [].
Proof.
  intros Hp pre rest H. symmetry in H. apply app_eq_nil in H as [-> ->]. cbn.
  destruct (match_at p prev []) as [n|] eqn:E; [|done].
  apply (match_at_positive p prev [] n Hp) in E. cbn in E. lia.
Qed.

Lemma free_from_cons p prev x t :
  match_at p prev (x :: t) = None -> free_from p (Some x) t -> free_from p prev (x :: t).
Proof.
  intros H0 Ht pre rest H. destruct pre as [|y pre]; cbn in *.
  - by subst rest.
  - injection H as -> ->. by apply Ht.
Qed.

Lemma free_from_head p prev t : free_from p prev t -> match_at p prev t = None.
Proof. intros H. by apply (H [] t). Qed.

Lemma free_from_tail p prev x t : free_from p prev (x :: t) -> free_from p (Some x) t.
Proof. intros H pre rest ->. by apply (H (x :: pre) rest). Qed.

(** A text free of matches is left alone by the replacement. *)
Lemma replace_free p by_ : forall t prev,
  free_from p prev t -> replace_go p by_ 0 prev t = t.
Proof.
  induction t as [|x t IH]; intros prev H; cbn; [done|].
  rewrite (free_from_head _ _ _ H). f_equal. apply IH. by apply free_from_tail in H.
Qed.

Lemma search_free p : forall t prev, free_from p prev t -> search_go p prev t = None.
Proof.
  induction t as [|x t IH]; intros prev H; cbn.
  - by rewrite (free_from_head _ _ _ H).
  - rewrite (free_from_head _ _ _ H). apply IH. by apply free_from_tail in H.
Qed.

Lemma suffixes_In (pre w : jsstring) : In w (suffixes (pre ++ w)).
Proof.
  induction pre as [|x pre IH]; cbn.
  - destruct w; cbn; by left.
  - by right.
Qed.

End FreeFacts.

Section ReplacePreserves.
Variables (p q : list atom) (mid : jsstring).
Hypothesis Hp : bounded_pattern p.
Hypothesis Hq : bounded_pattern q.
Hypothesis Hopen : in_classes p 91 = false.
Hypothesis Hclose : in_classes p 93 = false.
Hypothesis Hinside : no_match_inside p (bracketed mid) = true.

(** What is known of the text being rewritten: enough to exclude a match
    of [p] wherever [q] finds none. *)
Variable Src : option N -> jsstring -> Prop.
Hypothesis Src_step : forall prev x t, Src prev (x :: t) -> Src (Some x) t.
Hypothesis Src_use : forall prev t,
  Src prev t -> (forall k, match_at q prev t <> Some (S k)) -> match_at p prev t = None.

(** No match of [p] starts inside the replacement text, whatever follows. *)
Lemma blocked prev (pre w rest : jsstring) :
  bracketed mid = pre ++ w -> w <> [] -> match_at p prev (w ++ rest) = None.
Proof using Hp Hclose Hinside.
  intros Hby Hw.
  destruct (match_at p prev (w ++ rest)) as [n|] eqn:E; [exfalso|done].
  apply exec_sound in E as (k & -> & Hs). cbn [Nat.add].
  destruct (sem_bounded p prev (w ++ rest) k Hp Hs) as (_ & _ & Hk & Hcls).
  (* [w] ends with the closing bracket *)
  assert (exists w0, w = w0 ++ [93%N]) as (w0 & ->).
  { assert (Hlast : last (pre ++ w) = Some 93%N).
    { rewrite <- Hby. unfold bracketed. by rewrite app_comm_cons, last_snoc. }
    destruct (exists_last Hw) as (w0 & z & ->).
    rewrite app_assoc, last_snoc in Hlast. injection Hlast as ->. by exists w0. }
  assert (Hlt : (k <= length w0)%nat).
  { destruct (decide (k <= length w0)%nat) as [|Hgt]; [done|exfalso].
    rewrite forallb_forall in Hcls.
    assert (In 93%N (take k ((w0 ++ [93%N]) ++ rest))) as Hin.
    { rewrite <- app_assoc. rewrite take_app_ge by lia.
      apply in_or_app. right.
      destruct (k - length w0)%nat as [|m] eqn:Em; [lia|]. cbn. by left. }
    apply Hcls in Hin. by rewrite Hclose in Hin. }
  set (prev' := if word_before prev then Some 97%N else None).
  assert (Hs' : sem p prev' (w0 ++ [93%N]) k).
  { apply (sem_local p prev prev' ((w0 ++ [93%N]) ++ rest)); try done.
    - rewrite length_app. cbn. lia.
    - rewrite <- app_assoc, !take_app_le by lia. done.
    - subst prev'. by destruct (word_before prev).
    - rewrite <- app_assoc, !drop_app_le by lia.
      by destruct (drop k w0). }
  apply (exec_complete p 0) in Hs'.
  unfold no_match_inside in Hinside. rewrite forallb_forall in Hinside.
  specialize (Hinside (w0 ++ [93%N])). rewrite Hby in Hinside.
  specialize (Hinside (suffixes_In pre _)).
  fold (match_at p prev' (w0 ++ [93%N])) in Hs'.
  destruct (match_at p None (w0 ++ [93%N])) eqn:E1; [done|].
  destruct (match_at p (Some 97%N) (w0 ++ [93%N])) eqn:E2; [done|].
  subst prev'. destruct (word_before prev); congruence.
Qed.

(** The text up to the next match of [q] is copied as it is. *)
Lemma unmatched_prefix by_ : forall t prev,
  replace_go q by_ 0 prev t = t
  \/ exists u y rest k,
       t = u ++ y :: rest
       /\ match_at q (after prev u) (y :: rest) = Some (S k)
       /\ replace_go q by_ 0 prev t = u ++ by_ ++ replace_go q by_ k (Some y) rest.
Proof using Type.
  induction t as [|x t IH]; intros prev; cbn; [by left|].
  destruct (match_at q prev (x :: t)) as [[|k]|] eqn:E.
  - destruct (IH (Some x)) as [-> | (u & y & rest & k & -> & Hm & ->)]; [by left|].
    right. by exists (x :: u), y, rest, k.
  - right. by exists [], x, t, k.
  - destruct (IH (Some x)) as [-> | (u & y & rest & k & -> & Hm & ->)]; [by left|].
    right. by exists (x :: u), y, rest, k.
Qed.

(** A match of [p] at a copied code unit of the output was a match of
    [p] in the text. *)
Lemma head_transfer x t' prev_t prev_o n :
  prev_o = prev_t \/ (prev_o = Some 93%N /\ boundary prev_t (x :: t') = true) ->
  match_at p prev_o (x :: replace_go q (bracketed mid) 0 (Some x) t') = Some n ->
  match_at p prev_t (x :: t') <> None.
Proof using Hp Hq Hopen.
  intros Hctx H. apply exec_sound in H as (k & _ & Hs).
  destruct (sem_bounded p prev_o _ k Hp Hs) as (Hb0 & Hbe & Hk & Hcls).
  assert (Hwb : word_before prev_o = word_before prev_t).
  { destruct Hctx as [-> | [-> Hbt]]; [done|].
    unfold boundary in *. cbn in Hb0, Hbt |- *.
    destruct (word_before prev_t); [|done]. rewrite Hb0 in Hbt. done. }
  apply (exec_complete p 0 prev_t (x :: t') k).
  destruct (unmatched_prefix (bracketed mid) t' (Some x))
    as [HR | (u & y & rest & j & -> & Hm & HR)]; rewrite HR in *.
  { apply (sem_local p prev_o prev_t (x :: t')); try done. lia. }
  set (v := x :: u) in *.
  change (x :: u ++ bracketed mid ++ replace_go q (bracketed mid) j (Some y) rest)
    with (v ++ bracketed mid ++ replace_go q (bracketed mid) j (Some y) rest) in *.
  change (x :: u ++ y :: rest) with (v ++ y :: rest) in *.
  assert (Hkv : (k <= length v)%nat).
  { destruct (decide (k <= length v)%nat) as [|Hgt]; [done|exfalso].
    rewrite forallb_forall in Hcls.
    assert (In 91%N (take k (v ++ bracketed mid
                                ++ replace_go q (bracketed mid) j (Some y) rest))) as Hin.
    { rewrite take_app_ge by lia. apply in_or_app. right.
      destruct (k - length v)%nat as [|m] eqn:Em; [lia|]. cbn. by left. }
    apply Hcls in Hin. by rewrite Hopen in Hin. }
  apply (sem_local p prev_o prev_t
           (v ++ bracketed mid ++ replace_go q (bracketed mid) j (Some y) rest));
    try done.
  - rewrite length_app. lia.
  - by rewrite !take_app_le by lia.
  - destruct (decide (k = length v)) as [->|Hne].
    + rewrite !drop_app_length. rewrite take_app_length, drop_app_length in Hbe.
      apply exec_sound in Hm as (j' & _ & Hsq).
      destruct (sem_bounded q _ _ j' Hq Hsq) as (Hq0 & _).
      assert (after prev_o v = after (Some x) u) as Hz by reflexivity.
      rewrite Hz in Hbe. unfold boundary in *. cbn in Hbe, Hq0 |- *.
      destruct (word_before (after (Some x) u)); [|done].
      by destruct (is_word y).
    + rewrite !drop_app_le by lia.
      destruct (drop k v) eqn:Ed; [|done].
      apply (f_equal length) in Ed. rewrite length_drop in Ed.
      change (length []) with 0%nat in Ed. lia.
Qed.

(** The state of the rewriting: not inside a match ([skip = 0]) with the
    output either in step with the text or just after a replacement
    text; or [skip] code units away from the end of a match. *)
Definition scan_inv (skip : nat) (prev_t prev_o : option N) (t : jsstring) : Prop :=
  match skip with
  | O => prev_o = prev_t \/ (prev_o = Some 93%N /\ boundary prev_t t = true)
  | S k =>
      prev_o = Some 93%N /\ (S k <= length t)%nat
      /\ boundary (after prev_t (take (S k) t)) (drop (S k) t) = true
  end.

Lemma free_from_bracketed prev rest :
  free_from p (Some 93%N) rest -> free_from p prev (bracketed mid ++ rest).
Proof using Hp Hclose Hinside.
  intros Hrest.
  assert (G : forall pre w prev0, bracketed mid = pre ++ w ->
            free_from p (after prev0 w) rest -> free_from p prev0 (w ++ rest)).
  { intros pre w. revert pre. induction w as [|c w IH]; intros pre prev0 Hby Hfree.
    - exact Hfree.
    - cbn. apply free_from_cons.
      + by apply (blocked prev0 pre (c :: w) rest).
      + apply (IH (pre ++ [c])); [by rewrite <- app_assoc | exact Hfree]. }
  apply (G [] (bracketed mid) prev); [done|].
  unfold bracketed. rewrite app_comm_cons, after_app. exact Hrest.
Qed.

Lemma replace_go_free : forall t skip prev_t prev_o,
  scan_inv skip prev_t prev_o t -> Src prev_t t ->
  free_from p prev_o (replace_go q (bracketed mid) skip prev_t t).
Proof using All.
  induction t as [|x t IH]; intros skip prev_t prev_o Hinv Hsrc.
  { destruct skip; by apply free_from_nil. }
  assert (Hnext : forall k prev,
    (S k <= length (x :: t))%nat ->
    boundary (after prev (take (S k) (x :: t))) (drop (S k) (x :: t)) = true ->
    scan_inv k (Some x) (Some 93%N) t).
  { intros k prev Hlen Hb. destruct k as [|k]; cbn in *.
    - right. by rewrite drop_0 in Hb.
    - split; [done|]. split; [lia | exact Hb]. }
  destruct skip as [|k]; cbn [replace_go].
  - destruct (match_at q prev_t (x :: t)) as [[|k]|] eqn:E.
    + apply (match_at_positive q _ _ _ Hq) in E. lia.
    + apply free_from_bracketed. apply IH; [|by apply Src_step in Hsrc].
      apply exec_sound in E as (k' & Hk' & Hs). cbn in Hk'. subst k'.
      destruct (sem_bounded q _ _ _ Hq Hs) as (_ & Hbe & Hlen & _).
      apply (Hnext k prev_t); [lia | exact Hbe].
    + apply free_from_cons.
      * destruct (match_at p prev_o (x :: replace_go q (bracketed mid) 0 (Some x) t))
          as [n|] eqn:En; [exfalso|done].
        apply (head_transfer x t prev_t prev_o n Hinv) in En. apply En.
        apply Src_use; [exact Hsrc|]. intros k. by rewrite E.
      * apply IH; [by left | by apply Src_step in Hsrc].
  - destruct Hinv as (-> & Hlen & Hb).
    apply IH; [|by apply Src_step in Hsrc]. by apply (Hnext k prev_t).
Qed.

End ReplacePreserves.

(** Replacing the matches of a pattern by a text in square brackets
    leaves no match of that pattern. *)
Lemma replace_all_clears p mid t :
  bounded_pattern p ->
  in_classes p 91 = false -> in_classes p 93 = false ->
  no_match_inside p (bracketed mid) = true ->
  free_from p None (replace_all p (bracketed mid) t).
Proof.
  intros Hp Hopen Hclose Hinside.
  apply (replace_go_free p p mid Hp Hp Hopen Hclose Hinside (fun _ _ => True));
    [done| |by left|done].
  intros prev u _ Hno.
  destruct (match_at p prev u) as [[|k]|] eqn:E; [|by destruct (Hno k)|done].
  apply (match_at_positive p _ _ _ Hp) in E. lia.
Qed.

(** Replacing the matches of another pattern creates no match of [p]. *)
Lemma replace_all_keeps_clear p q mid t :
  bounded_pattern p -> bounded_pattern q ->
  in_classes p 91 = false -> in_classes p 93 = false ->
  no_match_inside p (bracketed mid) = true ->
  free_from p None t ->
  free_from p None (replace_all q (bracketed mid) t).
Proof.
  intros Hp Hq Hopen Hclose Hinside Ht.
  apply (replace_go_free p q mid Hp Hq Hopen Hclose Hinside (free_from p));
    [|  |by left|done].
  - intros prev x u. apply free_from_tail.
  - intros prev u Hu _. by apply free_from_head.
Qed.

Section MaskProps.
Import LoggingService.

Lemma replacement_texts :
  js "[CARD_NUMBER]" = bracketed (js "CARD_NUMBER")
  /\ js "[EMAIL]" = bracketed (js "EMAIL")
  /\ js "[PHONE]" = bracketed (js "PHONE").
Proof. evaluate. Qed.

Lemma mask_unfold s :
  mask s = replace_all phone_re (bracketed (js "PHONE"))
             (replace_all email_re (bracketed (js "EMAIL"))
                (replace_all card_re (bracketed (js "CARD_NUMBER")) s)).
Proof.
  destruct replacement_texts as (Hc & He & Hph). unfold mask.
  by rewrite Hc, He, Hph.
Qed.

(** After the three replacements no card-like, email-like or phone-like
    text is left. *)
Lemma mask_clear s :
  free_from card_re None (mask s)
  /\ free_from email_re None (mask s)
  /\ free_from phone_re None (mask s).
Proof.
  rewrite mask_unfold. repeat split.
  - apply replace_all_keeps_clear;
      [apply card_re_bounded | apply phone_re_bounded | by vm_compute ..|].
    apply replace_all_keeps_clear;
      [apply card_re_bounded | apply email_re_bounded | by vm_compute ..|].
    apply replace_all_clears; [apply card_re_bounded | by vm_compute ..].
  - apply replace_all_keeps_clear;
      [apply email_re_bounded | apply phone_re_bounded | by vm_compute ..|].
    apply replace_all_clears; [apply email_re_bounded | by vm_compute ..].
  - apply replace_all_clears; [apply phone_re_bounded | by vm_compute ..].
Qed.

Lemma mask_mask s : mask (mask s) = mask s.
Proof.
  destruct (mask_clear s) as (Hc & He & Hph).
  unfold mask at 1. unfold replace_all.
  by rewrite (replace_free card_re _ _ _ Hc), (replace_free email_re _ _ _ He),
    (replace_free phone_re _ _ _ Hph).
Qed.

End MaskProps.

(** *** What the cut at 500 can leave *)

Section CutProps.

(** In the first [n] code units of a text free of matches, a match can
    only end at the cut, and only if something was cut off. *)
Lemma match_ends_at_cut p (t : jsstring) (n : nat) (pre rest : jsstring) (k : nat) :
  bounded_pattern p -> free_from p None t ->
  take n t = pre ++ rest ->
  match_at p (after None pre) rest = Some k ->
  (length pre + k)%nat = n /\ (n < length t)%nat.
Proof.
  intros Hp Hfree Hcut Hm.
  apply exec_sound in Hm as (k' & Hk' & Hs). cbn in Hk'. subst k'.
  destruct (sem_bounded p _ _ _ Hp Hs) as (_ & _ & Hk & _).
  assert (Ht : t = pre ++ (rest ++ drop n t)).
  { by rewrite app_assoc, <- Hcut, take_drop. }
  assert (Hlen : length (take n t) = (length pre + length rest)%nat).
  { by rewrite Hcut, length_app. }
  destruct (decide (k = length rest /\ (n < length t)%nat)) as [[-> Hn]|Hno].
  { split; [|exact Hn]. rewrite length_take in Hlen. lia. }
  exfalso.
  assert (Hs' : sem p (after None pre) (rest ++ drop n t) k).
  { apply (sem_local p (after None pre) (after None pre) rest); try done.
    - rewrite length_app. lia.
    - by rewrite take_app_le by lia.
    - destruct (decide (k = length rest)) as [->|Hne].
      + assert (Hge : (length t <= n)%nat) by lia.
        by rewrite (drop_ge t n Hge), app_nil_r.
      + rewrite drop_app_le by lia.
        destruct (drop k rest) as [|x u] eqn:Ed; [|done].
        apply (f_equal length) in Ed. rewrite length_drop in Ed. cbn in Ed. lia. }
  apply (exec_complete p 0) in Hs'. apply Hs'. by apply (Hfree pre).
Qed.

End CutProps.

(** C7, amended.  For every string [s], [sanitizeMessage s] is the first
    500 code units of the masked text, and the masked text holds no
    card-like, email-like or phone-like text: one pass masks every such
    substring.  In the result itself a match of one of the three patterns
    can only be one that ends exactly at the cut, in a masked text longer
    than 500 code units.  When the masked text fits in 500 code units, so
    that nothing is cut off, the result holds no match and a second pass
    returns the result of the first. *)
Theorem sanitizeMessage_bounded_and_stable_when_uncut (s : jsstring) :
  (length (LoggingService.sanitizeMessage (JStr s)) <= 500)%nat
  /\ LoggingService.sanitizeMessage (JStr s) = take 500 (LoggingService.mask s)
  /\ (search card_re (LoggingService.mask s) = None
      /\ search email_re (LoggingService.mask s) = None
      /\ search phone_re (LoggingService.mask s) = None)
  /\ (forall p pre rest k,
        p = card_re \/ p = email_re \/ p = phone_re ->
        LoggingService.sanitizeMessage (JStr s) = pre ++ rest ->
        match_at p (after None pre) rest = Some k ->
        (length pre + k)%nat = 500%nat
        /\ (500 < length (LoggingService.mask s))%nat)
  /\ ((length (LoggingService.mask s) <= 500)%nat ->
      LoggingService.sanitizeMessage (JStr (LoggingService.sanitizeMessage (JStr s)))
      = LoggingService.sanitizeMessage (JStr s)
      /\ search card_re (LoggingService.sanitizeMessage (JStr s)) = None
      /\ search email_re (LoggingService.sanitizeMessage (JStr s)) = None
      /\ search phone_re (LoggingService.sanitizeMessage (JStr s)) = None).
Proof.
  destruct (mask_clear s) as (Hc & He & Hph).
  unfold LoggingService.sanitizeMessage, substring0.
  split; [rewrite length_take; lia|]. split; [reflexivity|]. split.
  { unfold search.
    by rewrite (search_free _ _ _ Hc), (search_free _ _ _ He), (search_free _ _ _ Hph). }
  split.
  - intros p pre rest k [-> | [-> | ->]] Hcut Hm.
    + by apply (match_ends_at_cut card_re (LoggingService.mask s) 500 pre rest k
                  card_re_bounded).
    + by apply (match_ends_at_cut email_re (LoggingService.mask s) 500 pre rest k
                  email_re_bounded).
    + by apply (match_ends_at_cut phone_re (LoggingService.mask s) 500 pre rest k
                  phone_re_bounded).
  - intros Hfit. rewrite (take_ge (LoggingService.mask s)) by lia.
    rewrite mask_mask, (take_ge (LoggingService.mask s)) by lia.
    unfold search.
    by rewrite (search_free _ _ _ Hc), (search_free _ _ _ He), (search_free _ _ _ Hph).
Qed.

(** The amended statement at a text with a card number, an address and a
    telephone number. *)
Lemma sanitizeMessage_stable_witness :
  LoggingService.sanitizeMessage
    (JStr (js "pago 1234 5678 9012 3456, ana@mail.com, 555-123-4567"))
  = js "pago [CARD_NUMBER], [EMAIL], [PHONE]"
  /\ LoggingService.sanitizeMessage
       (JStr (LoggingService.sanitizeMessage
                (JStr (js "pago 1234 5678 9012 3456, ana@mail.com, 555-123-4567"))))
     = LoggingService.sanitizeMessage
         (JStr (js "pago 1234 5678 9012 3456, ana@mail.com, 555-123-4567")).
Proof.
  split; [by vm_compute|].
  apply (proj2 (proj2 (proj2 (proj2 (sanitizeMessage_bounded_and_stable_when_uncut
           (js "pago 1234 5678 9012 3456, ana@mail.com, 555-123-4567")))))).
  vm_compute. lia.
Defined.

(** * Further properties of the services *)

(** ** Metadata redaction, in general (loggingService.gs, [sanitizeMetadata]) *)

Definition REDACTED : jsval := JStr (js "[REDACTED]").

(** The lower-cased key contains one of the four words that can match. *)
Definition names_a_secret (k : jsstring) : bool :=
  includes (toLowerCase k) (js "password") || includes (toLowerCase k) (js "token")
  || includes (toLowerCase k) (js "secret") || includes (toLowerCase k) (js "credential").

Section AssocFacts.

Lemma assoc_In (k : jsstring) fs : is_Some (assoc k fs) <-> In k (List.map fst fs).
Proof.
  induction fs as [|[k' v'] fs IH]; cbn.
  - split; [by intros [? ?] | done].
  - case_bool_decide as E.
    + split; [intros _; by left | intros _; by eexists].
    + rewrite IH. split; [by right | by intros [? | ?]].
Qed.

Lemma assoc_set_keys (k : jsstring) (v : jsval) fs :
  is_Some (assoc k fs) -> List.map fst (assoc_set k v fs) = List.map fst fs.
Proof.
  induction fs as [|[k' v'] fs IH]; cbn.
  - by intros [? ?].
  - case_bool_decide as E; cbn; [done|]. intros H. f_equal. by apply IH.
Qed.

Lemma assoc_assoc_set (k k' : jsstring) (v : jsval) fs :
  assoc k (assoc_set k' v fs) = if bool_decide (k' = k) then Some v else assoc k fs.
Proof.
  induction fs as [|[k0 v0] fs IH]; cbn.
  - done.
  - destruct (bool_decide (k0 = k')) eqn:E0; cbn.
    + apply bool_decide_eq_true in E0 as ->. by case_bool_decide.
    + apply bool_decide_eq_false in E0.
      destruct (bool_decide (k0 = k)) eqn:E1.
      * apply bool_decide_eq_true in E1 as ->. by rewrite bool_decide_eq_false_2 by done.
      * exact IH.
Qed.

(** Writing the value a key already has changes nothing. *)
Lemma assoc_set_same (k : jsstring) (v : jsval) fs :
  assoc k fs = Some v -> assoc_set k v fs = fs.
Proof.
  induction fs as [|[k' v'] fs IH]; cbn; [done|].
  case_bool_decide as E; [by intros [= ->] | intros H; f_equal; by apply IH].
Qed.

End AssocFacts.

Section RedactionInGeneral.

(** One step of the [forEach] over the keys. *)
Definition redact_step (acc : list (jsstring * jsval)) (key : jsstring)
  : list (jsstring * jsval) :=
  if existsb (fun field => includes (toLowerCase key) field) LoggingService.sensitiveFields
  then assoc_set key REDACTED acc
  else acc.

Lemma sensitive_names_a_secret (k : jsstring) :
  existsb (fun field => includes (toLowerCase k) field) LoggingService.sensitiveFields
  = names_a_secret k.
Proof.
  unfold LoggingService.sensitiveFields, names_a_secret. cbn [existsb].
  rewrite apiKey_entry_matches_nothing, orb_false_r. cbn [orb].
  by rewrite !orb_assoc.
Qed.

Lemma redact_fold (ks : list jsstring) : forall acc,
  (forall k, k ∈ ks -> is_Some (assoc k acc)) ->
  List.map fst (fold_left redact_step ks acc) = List.map fst acc
  /\ forall k,
       assoc k (fold_left redact_step ks acc)
       = if bool_decide (k ∈ ks) && names_a_secret k then Some REDACTED
         else assoc k acc.
Proof.
  induction ks as [|k0 ks IH]; intros acc Hks; cbn [fold_left].
  - split; [done|]. intros k.
    by rewrite bool_decide_eq_false_2 by (by intros ?%elem_of_nil).
  - assert (Hk0 : is_Some (assoc k0 acc)) by (apply Hks; by left).
    assert (Hkeys : List.map fst (redact_step acc k0) = List.map fst acc).
    { unfold redact_step. destruct (existsb _ _); [by apply assoc_set_keys | done]. }
    destruct (IH (redact_step acc k0)) as [IH1 IH2].
    { intros k Hk. apply assoc_In. rewrite Hkeys. apply assoc_In, Hks. by right. }
    split; [by rewrite IH1|].
    intros k. rewrite IH2. unfold redact_step at 1.
    rewrite sensitive_names_a_secret.
    destruct (decide (k0 = k)) as [->|Hne].
    + rewrite (bool_decide_eq_true_2 (k ∈ k :: ks)) by (by left).
      destruct (names_a_secret k) eqn:Es; rewrite ?andb_true_r, ?andb_false_r; [|done].
      rewrite assoc_assoc_set, (bool_decide_eq_true_2 (k = k)) by done.
      by destruct (bool_decide (k ∈ ks)).
    + assert (bool_decide (k ∈ k0 :: ks) = bool_decide (k ∈ ks)) as ->.
      { apply bool_decide_ext. rewrite elem_of_cons.
        split; [intros [E|E]; [by subst | done] | by right]. }
      destruct (bool_decide (k ∈ ks) && names_a_secret k); [done|].
      destruct (names_a_secret k0); [|done].
      by rewrite assoc_assoc_set, (bool_decide_eq_false_2 (k0 = k)).
Qed.

Lemma redact_fold_fixed (ks : list jsstring) : forall acc,
  (forall k, k ∈ ks -> names_a_secret k = true -> assoc k acc = Some REDACTED) ->
  fold_left redact_step ks acc = acc.
Proof.
  induction ks as [|k0 ks IH]; intros acc H; cbn [fold_left]; [done|].
  assert (redact_step acc k0 = acc) as ->.
  { unfold redact_step. rewrite sensitive_names_a_secret.
    destruct (names_a_secret k0) eqn:E; [|done].
    apply assoc_set_same, H; [by left | done]. }
  apply IH. intros k Hk. apply H. by right.
Qed.

Lemma sanitizeMetadata_fold (fs : list (jsstring * jsval)) :
  LoggingService.sanitizeMetadata (JObj fs)
  = JObj (fold_left redact_step (List.map fst fs) fs).
Proof. reflexivity. Qed.

Lemma sanitizeMetadata_prop (fs : list (jsstring * jsval)) (k : jsstring) :
  prop (LoggingService.sanitizeMetadata (JObj fs)) k
  = if has_field (JObj fs) k && names_a_secret k then REDACTED else prop (JObj fs) k.
Proof.
  rewrite sanitizeMetadata_fold.
  destruct (redact_fold (List.map fst fs) fs) as [_ Hval].
  { intros k' Hk. by apply assoc_In, list_elem_of_In. }
  cbn [prop has_field]. rewrite Hval.
  assert (bool_decide (k ∈ List.map fst fs) = bool_decide (is_Some (assoc k fs))) as ->.
  { apply bool_decide_ext. rewrite list_elem_of_In. symmetry. apply assoc_In. }
  by destruct (bool_decide (is_Some (assoc k fs)) && names_a_secret k).
Qed.

End RedactionInGeneral.

(** X1.  For every metadata object, [sanitizeMetadata] keeps the keys and
    their order; the value of a key whose lower-cased name contains
    password, token, secret or credential becomes '[REDACTED]'; the value
    of a key in Latin-1 whose lower-cased name contains none of them is
    kept as it is, nested objects included; and sanitizing the result
    again changes nothing. *)
Theorem sanitizeMetadata_redacts_by_key_name (fs : list (jsstring * jsval)) :
  List.map fst (spread (LoggingService.sanitizeMetadata (JObj fs))) = List.map fst fs
  /\ (forall k,
        has_field (JObj fs) k = true -> names_a_secret k = true ->
        prop (LoggingService.sanitizeMetadata (JObj fs)) k = REDACTED)
  /\ (forall k,
        latin1 k = true -> names_a_secret k = false ->
        prop (LoggingService.sanitizeMetadata (JObj fs)) k = prop (JObj fs) k)
  /\ (forall k,
        has_field (JObj fs) k = false ->
        prop (LoggingService.sanitizeMetadata (JObj fs)) k = prop (JObj fs) k)
  /\ LoggingService.sanitizeMetadata (LoggingService.sanitizeMetadata (JObj fs))
     = LoggingService.sanitizeMetadata (JObj fs).
Proof.
  split; [|split; [|split; [|split]]].
  - rewrite sanitizeMetadata_fold. cbn [spread].
    apply redact_fold. intros k Hk. by apply assoc_In, list_elem_of_In.
  - intros k Hf Hs. by rewrite sanitizeMetadata_prop, Hf, Hs.
  - intros k _ Hs. by rewrite sanitizeMetadata_prop, Hs, andb_false_r.
  - intros k Hf. by rewrite sanitizeMetadata_prop, Hf.
  - rewrite !sanitizeMetadata_fold.
    destruct (redact_fold (List.map fst fs) fs) as [Hkeys Hval].
    { intros k Hk. by apply assoc_In, list_elem_of_In. }
    f_equal. rewrite Hkeys. apply redact_fold_fixed.
    intros k Hk Hs. rewrite Hval, Hs, bool_decide_eq_true_2 by done. done.
Qed.

(** ** Logging never fails its caller (loggingService.gs) *)

(** The spreadsheet cannot be reached: no id is configured, or opening
    it fails. *)
Definition sink_closed (w : World) : Prop :=
  present (properties w !! js "SPREADSHEET_ID") = false \/ spreadsheet_ok w = false.

Section LoggingIsSafe.
Context {host : Host}.

Lemma getSheet_closed (name : jsstring) w :
  sink_closed w -> exists e, SheetsService.getSheet name w = (Throw e, w).
Proof.
  intros Hc. unfold SheetsService.getSheet, SheetsService.getSpreadsheet, getProperty.
  munfold.
  destruct (present (properties w !! js "SPREADSHEET_ID")) eqn:Eid; cbn;
    [|by eexists].
  destruct Hc as [Hc|Hc]; [congruence|]. rewrite Hc. by eexists.
Qed.

Lemma appendData_closed (name : jsstring) (row : list jsval) w :
  sink_closed w -> exists e, SheetsService.appendData name row w = (Throw e, w).
Proof.
  intros Hc. destruct (getSheet_closed name w Hc) as [e E].
  unfold SheetsService.appendData. munfold. rewrite E. by eexists.
Qed.

(** One guarded [appendData]: whatever it does, the caller sees a return. *)
Lemma appendData_guarded (row : list jsval) w :
  exists w1,
    match SheetsService.appendData CONFIG.LOGS_SHEET row w with
    | (Ret a, w') => (Ret a, w')
    | (Throw _, w') => (Ret tt, w')
    end = (Ret tt, w1)
    /\ same_outside_sheets w w1
    /\ (sink_closed w -> w1 = w).
Proof.
  destruct (SheetsService.appendData CONFIG.LOGS_SHEET row w) as [[[]|e] w1] eqn:E;
    exists w1; (split; [done|]); (split; [by apply appendData_frame in E|]);
    intros Hc; destruct (appendData_closed CONFIG.LOGS_SHEET row w Hc) as [e' E'];
    congruence.
Qed.

Lemma unchanged_is_safe w :
  exists w1 : World,
    (Ret tt, w) = (Ret tt, w1) /\ same_outside_sheets w w1 /\ (sink_closed w -> w1 = w).
Proof. exists w. split; [done|]. split; [apply same_outside_sheets_refl | done]. Qed.

End LoggingIsSafe.

(** X2.  [logInteraction], [logError] and [logEscalation] return normally
    on every world and for every argument: a failure to write the row is
    swallowed.  They leave the script properties, the clock and the HTTP
    trace as they were, and when the spreadsheet cannot be reached they
    change nothing at all. *)
Theorem logging_never_fails_the_caller {host : Host}
  (interactionType operation status : jsstring) (sessionId data context reason : jsval)
  (error : exn) (w : World) :
  (exists w1,
     LoggingService.logInteraction interactionType sessionId data w = (Ret tt, w1)
     /\ same_outside_sheets w w1 /\ (sink_closed w -> w1 = w))
  /\ (exists w1,
        LoggingService.logError operation error context w = (Ret tt, w1)
        /\ same_outside_sheets w w1 /\ (sink_closed w -> w1 = w))
  /\ (exists w1,
        LoggingService.logEscalation sessionId reason status w = (Ret tt, w1)
        /\ same_outside_sheets w w1 /\ (sink_closed w -> w1 = w)).
Proof.
  split; [|split].
  - unfold LoggingService.logInteraction. munfold.
    destruct (nullish data); [apply unchanged_is_safe | apply appendData_guarded].
  - unfold LoggingService.logError. munfold.
    destruct (nullish _); [apply unchanged_is_safe | apply appendData_guarded].
  - unfold LoggingService.logEscalation. munfold. apply appendData_guarded.
Qed.

(** X3.  With the log sheet in place, [logInteraction] on a data object
    whose [userMessage] is a text appends one row: its message column
    holds the sanitized text (masked, at most 500 code units), while the
    metadata column is built from the data with only secret-named keys
    redacted, so that the [userMessage] inside it is the text as it was
    sent. *)
Theorem logInteraction_masks_the_column_only {host : Host}
  (interactionType : jsstring) (sessionId : jsval) (fs : list (jsstring * jsval))
  (m : jsstring) (w : World) :
  logs_ready w ->
  prop (JObj fs) (js "userMessage") = JStr m ->
  m <> [] ->
  exists row,
    LoggingService.logInteraction interactionType sessionId (JObj fs) w
    = (Ret tt, with_sheets (insert CONFIG.LOGS_SHEET (log_rows w ++ [row])) w)
    /\ length row = 9%nat
    /\ cell row 3 = JStr (LoggingService.sanitizeMessage (JStr m))
    /\ (length (LoggingService.sanitizeMessage (JStr m)) <= 500)%nat
    /\ cell row 8 = JStr (JSON_stringify (LoggingService.sanitizeMetadata (JObj fs)))
    /\ prop (LoggingService.sanitizeMetadata (JObj fs)) (js "userMessage") = JStr m.
Proof.
  intros Hready Hm Hne.
  exists (interactionRow interactionType sessionId (JObj fs) w).
  split; [by apply logInteraction_ready|]. split; [reflexivity|].
  split.
  { unfold interactionRow, cell. cbn [lookup list_lookup default from_option Datatypes.id].
    rewrite Hm. destruct m; [done|]. reflexivity. }
  split.
  { unfold LoggingService.sanitizeMessage, substring0. rewrite length_take. lia. }
  split; [reflexivity|].
  rewrite sanitizeMetadata_prop.
  assert (names_a_secret (js "userMessage") = false) as -> by (by vm_compute).
  by rewrite andb_false_r.
Qed.

(** A message with a card number, logged on the initialised sample system. *)
Lemma logInteraction_masks_the_column_only_witness :
  exists row,
    @LoggingService.logInteraction Demo.host (js "chat_message") (JStr (js "s1"))
      (JObj [(js "userMessage", JStr (js "mi tarjeta 1234 5678 9012 3456"))]) Demo.ready
    = (Ret tt,
       with_sheets (insert CONFIG.LOGS_SHEET (log_rows Demo.ready ++ [row])) Demo.ready)
    /\ cell row 3 = JStr (js "mi tarjeta [CARD_NUMBER]")
    /\ prop (LoggingService.sanitizeMetadata
               (JObj [(js "userMessage", JStr (js "mi tarjeta 1234 5678 9012 3456"))]))
         (js "userMessage")
       = JStr (js "mi tarjeta 1234 5678 9012 3456").
Proof.
  destruct (@logInteraction_masks_the_column_only Demo.host (js "chat_message")
              (JStr (js "s1"))
              [(js "userMessage", JStr (js "mi tarjeta 1234 5678 9012 3456"))]
              (js "mi tarjeta 1234 5678 9012 3456") Demo.ready)
    as (row & E & _ & H3 & _ & _ & H8).
  - repeat split; [vm_compute; reflexivity .. | vm_compute; by eexists].
  - vm_compute. reflexivity.
  - vm_compute. discriminate.
  - exists row. split; [exact E|]. split; [|exact H8].
    rewrite H3. vm_compute. reflexivity.
Defined.

(** ** Reading the log (loggingService.gs, [getLogs]) *)

(** The row passes every filter that is set. *)
Definition selects {host : Host} (filters : jsval) (row : list jsval) : bool :=
  let on (k : jsstring) (test : jsval -> bool) :=
    negb (truthy (prop filters k)) || test (prop filters k) in
  on (js "startDate") (fun bound => negb (LoggingService.date_lt (cell row 0) bound))
  && on (js "endDate") (fun bound => negb (LoggingService.date_lt bound (cell row 0)))
  && on (js "interactionType") (strict_eq (cell row 2))
  && on (js "sessionId") (strict_eq (cell row 1))
  && on (js "status") (strict_eq (cell row 7)).

Section ReadingTheLog.
Context {host : Host}.

Lemma filter_filter_and {A} (f g : A -> bool) (l : list A) :
  List.filter g (List.filter f l) = List.filter (fun x => f x && g x) l.
Proof.
  induction l as [|x l IH]; cbn; [done|].
  destruct (f x); cbn; [destruct (g x); by rewrite IH | exact IH].
Qed.

Lemma filter_true {A} (f : A -> bool) (l : list A) :
  (forall x, f x = true) -> List.filter f l = l.
Proof.
  intros H. induction l as [|x l IH]; cbn; [done|]. by rewrite H, IH.
Qed.

Lemma filter_is_sublist {A} (f : A -> bool) (l : list A) : sublist (List.filter f l) l.
Proof.
  induction l as [|x l IH]; cbn; [constructor|].
  destruct (f x); by constructor.
Qed.

Lemma slice0_is_sublist {A} (limit : jsval) (l : list A) :
  sublist (LoggingService.slice0 limit l) l.
Proof.
  unfold LoggingService.slice0. destruct (ToNumber limit); [apply sublist_nil_l|].
  destruct (0 <=? z)%Z; apply sublist_take.
Qed.

Lemma slice0_length {A} (limit : jsval) (l : list A) (n : Z) :
  ToNumber limit = Int n -> (0 <= n)%Z ->
  length (LoggingService.slice0 limit l) = Nat.min (Z.to_nat n) (length l).
Proof.
  intros Hn H0. unfold LoggingService.slice0. rewrite Hn.
  rewrite (proj2 (Z.leb_le 0 n) H0). apply length_take.
Qed.

Lemma getAllData_returns (name : jsstring) w :
  exists data w1, SheetsService.getAllData name w = (Ret data, w1).
Proof.
  unfold SheetsService.getAllData. munfold.
  destruct (SheetsService.getSheet name w) as [[sheet|e] w1]; [|by eexists _, _].
  destruct (length _ <=? 1)%nat; by eexists _, _.
Qed.

(** The four filters in a row are one filter by [selects]. *)
Lemma getLogs_selects (filters : jsval) (data : list (list jsval)) w w1 :
  nullish filters = false -> filters <> JUndefined ->
  SheetsService.getAllData CONFIG.LOGS_SHEET w = (Ret data, w1) ->
  LoggingService.getLogs filters w
  = (Ret (if truthy (prop filters (js "limit"))
          then LoggingService.slice0 (prop filters (js "limit"))
                 (List.filter (selects filters) data)
          else List.filter (selects filters) data), w1).
Proof.
  intros Hn Hu Hd. unfold LoggingService.getLogs.
  assert (match filters with JUndefined => JObj [] | _ => filters end = filters) as ->
    by (by destruct filters).
  munfold. rewrite Hd, Hn. cbv zeta.
  match goal with
  | |- (Ret (if _ then _ else ?chain), _) = _ =>
      assert (chain = List.filter (selects filters) data) as E
  end.
  { unfold selects.
    destruct (truthy (prop filters (js "startDate"))),
      (truthy (prop filters (js "endDate"))),
      (truthy (prop filters (js "interactionType"))),
      (truthy (prop filters (js "sessionId"))),
      (truthy (prop filters (js "status")));
      cbn [orb andb negb]; rewrite ?filter_filter_and;
      try (symmetry; apply filter_true; intros; reflexivity);
      apply filter_ext; intros row;
      repeat match goal with
             | |- context [LoggingService.date_lt ?a ?b] =>
                 destruct (LoggingService.date_lt a b)
             | |- context [strict_eq ?a ?b] => destruct (strict_eq a b)
             end; reflexivity. }
  by rewrite E.
Qed.

End ReadingTheLog.

(** X4.  [getLogs] never throws.  What it returns is a sublist of the
    data rows of the log sheet, in their order: with no filter object all
    of them, with [null] none (the failed read of [filters.startDate] is
    swallowed), and otherwise the rows that pass every filter that is
    set, cut to the first [limit] rows when a limit is set.  A row whose
    timestamp cannot be read as a date is never excluded by the date
    bounds. *)
Theorem getLogs_returns_the_selected_rows {host : Host} (filters : jsval) (w : World) :
  exists data rows w1,
    SheetsService.getAllData CONFIG.LOGS_SHEET w = (Ret data, w1)
    /\ LoggingService.getLogs filters w = (Ret rows, w1)
    /\ sublist rows data
    /\ (filters = JUndefined -> rows = data)
    /\ (filters = JNull -> rows = [])
    /\ (nullish filters = false ->
        Forall (fun row => selects filters row = true) rows
        /\ (truthy (prop filters (js "limit")) = false ->
            rows = List.filter (selects filters) data)
        /\ (forall n, truthy (prop filters (js "limit")) = true ->
              ToNumber (prop filters (js "limit")) = Int n -> (0 <= n)%Z ->
              rows = take (Z.to_nat n) (List.filter (selects filters) data))
        /\ (forall row bound,
              Date_getTime (cell row 0) = None ->
              LoggingService.date_lt (cell row 0) bound = false
              /\ LoggingService.date_lt bound (cell row 0) = false)).
Proof.
  destruct (getAllData_returns CONFIG.LOGS_SHEET w) as (data & w1 & Hd).
  exists data.
  destruct (nullish filters) eqn:Hn.
  - destruct filters; try done.
    + exists data, w1. split; [done|]. split.
      { unfold LoggingService.getLogs. munfold. by rewrite Hd. }
      by repeat split.
    + exists [], w1. split; [done|]. split.
      { unfold LoggingService.getLogs. munfold. by rewrite Hd. }
      split; [apply sublist_nil_l|]. by repeat split.
  - assert (Hu : filters <> JUndefined) by (by intros ->).
    pose proof (getLogs_selects filters data w w1 Hn Hu Hd) as Hg.
    eexists _, w1. split; [done|]. split; [exact Hg|].
    assert (Hall : Forall (fun row => selects filters row = true)
                     (List.filter (selects filters) data)).
    { apply Forall_forall. intros row Hin.
      apply list_elem_of_In, filter_In in Hin. tauto. }
    split.
    { destruct (truthy (prop filters (js "limit"))).
      - etrans; [apply slice0_is_sublist | apply filter_is_sublist].
      - apply filter_is_sublist. }
    split; [by intros -> |]. split; [by intros -> |]. intros _.
    split.
    { destruct (truthy (prop filters (js "limit"))); [|exact Hall].
      rewrite Forall_forall in Hall |- *. intros row Hin. apply Hall.
      eapply elem_of_sublist; [exact Hin | apply slice0_is_sublist]. }
    split; [by intros ->|]. split.
    { intros n -> Hlim H0. unfold LoggingService.slice0.
      by rewrite Hlim, (proj2 (Z.leb_le 0 n) H0). }
    intros row bound Hrow. unfold LoggingService.date_lt. rewrite Hrow.
    split; [done|]. by destruct (Date_getTime bound).
Qed.

(** ** The analytics summary: failure and bookkeeping ([getAnalytics]) *)

(** The sum of a table of counters. *)
Definition msum {A} (f : A -> nat) (m : gmap jsstring A) : nat :=
  map_fold (fun _ x acc => (f x + acc)%nat) 0%nat m.

(** The accumulators agree with each other after [n] rows. *)
Definition consistent (t : Tally) (n : nat) : Prop :=
  msum Datatypes.id (t_busyHours t) = n
  /\ msum total (t_dailyStats t) = n
  /\ msum successful (t_dailyStats t) = successfulInteractions t
  /\ msum escalations (t_dailyStats t) = t_escalations t
  /\ map_Forall (fun _ d => (successful d <= total d)%nat /\ (escalations d <= total d)%nat)
       (t_dailyStats t).

Section AnalyticsBookkeeping.
Context {host : Host}.

Lemma msum_insert {A} (f : A -> nat) (k : jsstring) (x : A) (m : gmap jsstring A) :
  (msum f (<[k := x]> m) + from_option f 0 (m !! k) = f x + msum f m)%nat.
Proof.
  unfold msum. destruct (m !! k) as [y|] eqn:E; cbn.
  - rewrite <- (insert_delete_eq m k x).
    rewrite map_fold_insert_L; [| intros; lia | apply lookup_delete_eq ].
    rewrite (map_fold_delete_L _ _ k y m); [cbv beta; lia | intros; lia | done].
  - rewrite map_fold_insert_L; [cbv beta; lia | intros; lia | done].
Qed.

Lemma msum_bump (k : jsstring) (m : gmap jsstring nat) :
  msum Datatypes.id (bump k m) = S (msum Datatypes.id m).
Proof.
  unfold bump. pose proof (msum_insert Datatypes.id k (S (default 0%nat (m !! k))) m) as H.
  set (a := msum Datatypes.id (<[k := S (default 0%nat (m !! k))]> m)) in *.
  set (b := msum Datatypes.id m) in *. clearbody a b.
  destruct (m !! k); cbn in H; unfold Datatypes.id in H; lia.
Qed.

Lemma tally_row_consistent (acc t : Tally) (log : list jsval) (n : nat) :
  consistent acc n -> LoggingService.tally_row acc log = Ret t -> consistent t (S n).
Proof.
  intros (Hb & Ht & Hs & He & Hd). unfold LoggingService.tally_row.
  destruct (Date_getTime (cell log 0)) as [time|]; [|done]. intros [= <-].
  set (date := LoggingService.before_T (toISOString time)).
  set (d0 := default (mkDayStat 0 0 0) (t_dailyStats acc !! date)).
  assert (Hd0 : (successful d0 <= total d0)%nat /\ (escalations d0 <= total d0)%nat).
  { subst d0. destruct (t_dailyStats acc !! date) as [d|] eqn:E; cbn; [|lia].
    exact (Hd date d E). }
  assert (Hfrom : forall f : DayStat -> nat, f (mkDayStat 0 0 0) = 0%nat ->
            from_option f 0%nat (t_dailyStats acc !! date) = f d0).
  { intros f Hf. subst d0. by destruct (t_dailyStats acc !! date). }
  unfold consistent. cbn [t_busyHours t_dailyStats successfulInteractions t_escalations].
  split; [rewrite msum_bump; lia|].
  split.
  { match goal with |- msum total (<[date := ?d1]> _) = _ =>
      pose proof (msum_insert total date d1 (t_dailyStats acc)) as H end.
    rewrite (Hfrom total eq_refl) in H. cbn in H. lia. }
  split.
  { match goal with |- msum successful (<[date := ?d1]> _) = _ =>
      pose proof (msum_insert successful date d1 (t_dailyStats acc)) as H end.
    rewrite (Hfrom successful eq_refl) in H. cbn in H.
    destruct (is_str (cell log 7) (js "success")); lia. }
  split.
  { match goal with |- msum escalations (<[date := ?d1]> _) = _ =>
      pose proof (msum_insert escalations date d1 (t_dailyStats acc)) as H end.
    rewrite (Hfrom escalations eq_refl) in H. cbn in H.
    destruct (is_str (cell log 2) (js "escalation")); lia. }
  apply map_Forall_insert_2; [|exact Hd]. cbn.
  destruct (is_str (cell log 7) (js "success")),
    (is_str (cell log 2) (js "escalation")); lia.
Qed.

Lemma tally_rows_consistent (logs : list (list jsval)) : forall (acc t : Tally) (n : nat),
  consistent acc n -> LoggingService.tally_rows acc logs = Ret t ->
  consistent t (n + length logs).
Proof.
  induction logs as [|log logs IH]; intros acc t n Hc; cbn.
  - intros [= <-]. by rewrite Nat.add_0_r.
  - destruct (LoggingService.tally_row acc log) as [acc'|e] eqn:E; [|done].
    intros H. replace (n + S (length logs))%nat with (S n + length logs)%nat by lia.
    apply (IH acc'); [|done]. by apply (tally_row_consistent acc acc' log).
Qed.

Lemma getLogs_never_throws (filters : jsval) : never_throws (LoggingService.getLogs filters).
Proof.
  unfold LoggingService.getLogs. apply never_throws_try_catch.
  intros e. apply never_throws_ret.
Qed.

End AnalyticsBookkeeping.

(** X5.  [getAnalytics] never throws, and it fails as a whole: when every
    selected row has a timestamp that reads as a date the result is a
    summary over all of them, and when one row does not, the result is
    the error record (with [totalInteractions: 0]), whatever the other
    rows hold. *)
Theorem getAnalytics_fails_as_a_whole {host : Host} (dateRange : jsval) (w : World) :
  exists logs result w1,
    LoggingService.getLogs dateRange w = (Ret logs, w1)
    /\ LoggingService.getAnalytics dateRange w = (Ret result, w1)
    /\ (timestamps_readable logs = true ->
        exists a, result = Summary a /\ totalInteractions a = length logs)
    /\ (timestamps_readable logs = false -> exists msg, result = Failed msg).
Proof.
  destruct (getLogs_never_throws dateRange w) as (logs & w1 & Hl).
  exists logs, (LoggingService.summarize logs), w1. split; [done|].
  split; [unfold LoggingService.getAnalytics; munfold; by rewrite Hl|].
  unfold LoggingService.summarize. split; intros Hr.
  - destruct (tally_rows_returns logs (mkTally ∅ ∅ ∅ ∅ 0%float 0 0) Hr) as [t ->].
    by eexists.
  - destruct (tally_rows_throws logs (mkTally ∅ ∅ ∅ ∅ 0%float 0 0) Hr) as [e ->].
    by eexists.
Qed.

(** X6.  In every summary the tables add up: the counts of [busyHours]
    sum to the number of rows, and so do the [total]s of [dailyStats];
    the [successful] and [escalations] of the days sum to the numbers of
    rows with status 'success' and of type 'escalation'; and no day has
    more successes or escalations than rows. *)
Theorem analytics_tables_add_up {host : Host} (logs : list (list jsval)) (a : Analytics) :
  LoggingService.summarize logs = Summary a ->
  totalInteractions a = length logs
  /\ msum Datatypes.id (busyHours a) = length logs
  /\ msum total (dailyStats a) = length logs
  /\ msum successful (dailyStats a) = success_count logs
  /\ msum escalations (dailyStats a) = escalation_count logs
  /\ map_Forall (fun _ d => (successful d <= total d)%nat /\ (escalations d <= total d)%nat)
       (dailyStats a).
Proof.
  unfold LoggingService.summarize.
  destruct (LoggingService.tally_rows (mkTally ∅ ∅ ∅ ∅ 0%float 0 0) logs)
    as [t|e] eqn:Et; [|done].
  intros [= <-]. cbn [totalInteractions busyHours dailyStats].
  assert (H0 : consistent (mkTally ∅ ∅ ∅ ∅ 0%float 0 0) 0).
  { unfold consistent, msum. cbn. rewrite !map_fold_empty.
    repeat split; done. }
  pose proof (tally_rows_consistent logs _ t 0 H0 Et) as (Hb & Ht & Hs & He & Hd).
  pose proof (tally_rows_counts logs _ t Et) as (Hs' & He' & _).
  cbn in Hs', He', Hb, Ht.
  split; [done|]. split; [done|]. split; [done|].
  split; [congruence|]. split; [congruence | exact Hd].
Qed.

(** The three rows of the example. *)
Lemma analytics_tables_add_up_witness :
  exists a,
    @LoggingService.summarize Demo.host
      (example_logs (JNum 1705314600000) (JNum 1705314660000) (JNum 1705314720000))
    = Summary a
    /\ msum Datatypes.id (busyHours a) = 3%nat
    /\ msum total (dailyStats a) = 3%nat.
Proof.
  destruct (@summarize_rates Demo.host
              (example_logs (JNum 1705314600000) (JNum 1705314660000)
                 (JNum 1705314720000)) eq_refl) as (a & E & _).
  exists a. split; [exact E|].
  destruct (@analytics_tables_add_up Demo.host _ a E) as (_ & Hb & Ht & _).
  by split.
Defined.

(** ** Sheets: creation and the data rows (sheetsService.gs) *)

(** The spreadsheet can be reached. *)
Definition sink_open (w : World) : Prop :=
  present (properties w !! js "SPREADSHEET_ID") = true /\ spreadsheet_ok w = true.

(** What [setupSheetStructure] writes into a new sheet of that name. *)
Definition template (name : jsstring) : list (list jsval) :=
  if bool_decide (name = CONFIG.MENU_SHEET)
  then SheetsService.menuHeaders :: SheetsService.sampleData
  else if bool_decide (name = CONFIG.LOGS_SHEET) then [SheetsService.logsHeaders]
  else if bool_decide (name = CONFIG.SETTINGS_SHEET) then SheetsService.settingsData
  else [].

(** The world once the sheet exists. *)
Definition ensure (name : jsstring) (w : World) : World :=
  match sheets w !! name with
  | Some _ => w
  | None => with_sheets (insert name (template name)) w
  end.

Section SheetsProps.

Lemma sheet_names_differ :
  CONFIG.MENU_SHEET <> CONFIG.LOGS_SHEET /\ CONFIG.MENU_SHEET <> CONFIG.SETTINGS_SHEET
  /\ CONFIG.LOGS_SHEET <> CONFIG.SETTINGS_SHEET.
Proof. repeat split; intros H; vm_compute in H; discriminate. Qed.

Lemma getSheet_open (name : jsstring) w :
  sink_open w -> SheetsService.getSheet name w = (Ret name, ensure name w).
Proof.
  intros [Hid Hok].
  unfold SheetsService.getSheet, SheetsService.getSpreadsheet, getProperty, ensure.
  munfold. rewrite Hid. cbn [negb]. rewrite Hok.
  destruct (sheets w !! name) eqn:E; [done|].
  unfold SheetsService.setSheet, SheetsService.setupSheetStructure,
    SheetsService.setupMenuSheet, SheetsService.setupLogsSheet,
    SheetsService.setupSettingsSheet, SheetsService.setSheet, template.
  munfold. unfold with_sheets. cbn.
  repeat case_bool_decide; cbn; rewrite ?insert_insert_eq; reflexivity.
Qed.

Lemma ensure_open (name : jsstring) w : sink_open w -> sink_open (ensure name w).
Proof. intros H. unfold ensure. by destruct (sheets w !! name). Qed.

Lemma ensure_lookup (name other : jsstring) w :
  sheets (ensure name w) !! other
  = if bool_decide (other = name)
    then Some (default (template name) (sheets w !! name))
    else sheets w !! other.
Proof.
  unfold ensure. case_bool_decide as E.
  - subst other. destruct (sheets w !! name) eqn:E1; cbn; [done|].
    by rewrite lookup_insert_eq.
  - destruct (sheets w !! name); cbn; [done|]. by rewrite lookup_insert_ne.
Qed.

Lemma ensure_frame (name : jsstring) w : same_outside_sheets w (ensure name w).
Proof. unfold ensure. by destruct (sheets w !! name). Qed.

Lemma ensure_again (name : jsstring) w : ensure name (ensure name w) = ensure name w.
Proof.
  unfold ensure at 1. by rewrite ensure_lookup, bool_decide_eq_true_2.
Qed.

Lemma initializeSheets_open w :
  sink_open w ->
  SheetsService.initializeSheets w
  = (Ret tt, ensure CONFIG.SETTINGS_SHEET (ensure CONFIG.LOGS_SHEET
                                             (ensure CONFIG.MENU_SHEET w))).
Proof.
  intros Ho. unfold SheetsService.initializeSheets. munfold.
  rewrite (getSheet_open _ w Ho).
  rewrite (getSheet_open _ _ (ensure_open _ w Ho)).
  by rewrite (getSheet_open _ _ (ensure_open _ _ (ensure_open _ w Ho))).
Qed.

End SheetsProps.

(** X7.  With a reachable spreadsheet, [initializeSheets] returns and
    leaves every sheet that already exists exactly as it is; afterwards
    the three sheets of the application exist, a missing one being
    created with its header (and, for the menu and the settings, the
    sample rows); no other sheet appears; and running it again changes
    nothing.  When the spreadsheet cannot be reached it throws and
    changes nothing. *)
Theorem initializeSheets_creates_what_is_missing (w : World) :
  (sink_open w ->
   exists w1,
     SheetsService.initializeSheets w = (Ret tt, w1)
     /\ same_outside_sheets w w1
     /\ (forall name rows, sheets w !! name = Some rows -> sheets w1 !! name = Some rows)
     /\ (forall name,
           name = CONFIG.MENU_SHEET \/ name = CONFIG.LOGS_SHEET
           \/ name = CONFIG.SETTINGS_SHEET ->
           sheets w1 !! name = Some (default (template name) (sheets w !! name)))
     /\ (forall name,
           name <> CONFIG.MENU_SHEET -> name <> CONFIG.LOGS_SHEET ->
           name <> CONFIG.SETTINGS_SHEET ->
           sheets w1 !! name = sheets w !! name)
     /\ SheetsService.initializeSheets w1 = (Ret tt, w1))
  /\ (sink_closed w -> exists e, SheetsService.initializeSheets w = (Throw e, w)).
Proof.
  destruct sheet_names_differ as (Hml & Hms & Hls).
  split.
  - intros Ho. eexists. split; [by apply initializeSheets_open|].
    assert (Hlook : forall name,
      sheets (ensure CONFIG.SETTINGS_SHEET
                (ensure CONFIG.LOGS_SHEET (ensure CONFIG.MENU_SHEET w))) !! name
      = if bool_decide (name = CONFIG.MENU_SHEET \/ name = CONFIG.LOGS_SHEET
                        \/ name = CONFIG.SETTINGS_SHEET)
        then Some (default (template name) (sheets w !! name))
        else sheets w !! name).
    { intros name. rewrite !ensure_lookup.
      destruct (decide (name = CONFIG.SETTINGS_SHEET)) as [->|H1].
      { rewrite !bool_decide_eq_true_2 by tauto.
        by rewrite !(bool_decide_eq_false_2 (CONFIG.SETTINGS_SHEET = _)) by congruence. }
      rewrite (bool_decide_eq_false_2 (name = CONFIG.SETTINGS_SHEET)) by done.
      destruct (decide (name = CONFIG.LOGS_SHEET)) as [->|H2].
      { rewrite !bool_decide_eq_true_2 by tauto.
        by rewrite !(bool_decide_eq_false_2 (CONFIG.LOGS_SHEET = _)) by congruence. }
      rewrite (bool_decide_eq_false_2 (name = CONFIG.LOGS_SHEET)) by done.
      destruct (decide (name = CONFIG.MENU_SHEET)) as [->|H3].
      { by rewrite !bool_decide_eq_true_2 by tauto. }
      by rewrite !bool_decide_eq_false_2 by tauto. }
    split.
    { eapply same_outside_sheets_trans; [|apply ensure_frame].
      eapply same_outside_sheets_trans; [|apply ensure_frame]. apply ensure_frame. }
    split.
    { intros name rows Hr. rewrite Hlook, Hr. by case_bool_decide. }
    split.
    { intros name Hn. by rewrite Hlook, bool_decide_eq_true_2. }
    split.
    { intros name H1 H2 H3. rewrite Hlook, bool_decide_eq_false_2; [done | tauto]. }
    rewrite initializeSheets_open
      by (by apply ensure_open, ensure_open, ensure_open).
    f_equal.
    assert (Hid : forall name w0, is_Some (sheets w0 !! name) -> ensure name w0 = w0).
    { intros name w0 [rows Hr]. unfold ensure. by rewrite Hr. }
    rewrite (Hid CONFIG.MENU_SHEET), (Hid CONFIG.LOGS_SHEET), (Hid CONFIG.SETTINGS_SHEET);
      try done; rewrite Hlook, bool_decide_eq_true_2 by tauto; by eexists.
  - intros Hc. unfold SheetsService.initializeSheets. munfold.
    destruct (getSheet_closed CONFIG.MENU_SHEET w Hc) as [e ->]. by eexists.
Qed.

Section DataRows.



End DataRows.







(** ** The AI gateway (aiService.gs) *)

(** A computation that leaves the world as it is, whether it returns or
    throws. *)
Definition steady {A} (m : M A) : Prop := forall w, exists r, m w = (r, w).

Section Steady.
Context {host : Host}.

Lemma steady_ret {A} (a : A) : steady (ret a).
Proof. intros w. by eexists. Qed.

Lemma steady_throw {A} (e : exn) : steady (@throw A e).
Proof. intros w. by eexists. Qed.

Lemma steady_lift {A} (o : outcome A) : steady (lift o).
Proof. intros w. by eexists. Qed.

Lemma steady_get_world : steady get_world.
Proof. intros w. by eexists. Qed.

Lemma steady_getProperty (k : jsstring) : steady (getProperty k).
Proof. intros w. by eexists. Qed.

Lemma steady_bind {A B} (m : M A) (k : A -> M B) :
  steady m -> (forall a, steady (k a)) -> steady (bind m k).
Proof.
  intros Hm Hk w. munfold. destruct (Hm w) as [[a|e] ->]; [apply Hk | by eexists].
Qed.

Lemma steady_try_catch {A} (body : M A) (handler : exn -> M A) :
  steady body -> (forall e, steady (handler e)) -> steady (try_catch body handler).
Proof.
  intros Hb Hh w. munfold. destruct (Hb w) as [[a|e] ->]; [by eexists | apply Hh].
Qed.

Lemma steady_member (v : jsval) (k : jsstring) : steady (member v k).
Proof. unfold member. destruct (nullish v); [apply steady_throw | apply steady_ret]. Qed.

Lemma steady_first_item (v : jsval) : steady (first_item v).
Proof. destruct v; first [apply steady_throw | apply steady_ret]. Qed.

Lemma steady_trimmed (v : jsval) : steady (AIService.trimmed v).
Proof. destruct v; first [apply steady_throw | apply steady_ret]. Qed.

(** A steady body under a handler that returns a value: the [try]
    returns, in the same world. *)
Lemma steady_handled {A} (body : M A) (handler : exn -> A) w :
  steady body -> exists r, try_catch body (fun e => ret (handler e)) w = (Ret r, w).
Proof.
  intros Hb. munfold. destruct (Hb w) as [[a|e] ->]; by eexists.
Qed.

End Steady.

Create HintDb steady.
#[export] Hint Resolve steady_ret steady_throw steady_lift steady_get_world
  steady_getProperty steady_member steady_first_item steady_trimmed : steady.

Ltac steady :=
  repeat first
    [ progress auto with steady
    | apply steady_bind; [|intros ?]
    | apply steady_try_catch; [|intros ?]
    | match goal with
      | |- steady (if ?b then _ else _) => destruct b
      | |- steady (match ?x with _ => _ end) => destruct x
      end ].

Section GatewayProps.
Context {host : Host}.

Lemma failure_is_no_success (error : jsstring) (provider : jsval) :
  truthy (prop (AIService.failure error provider) (js "success")) = false.
Proof. reflexivity. Qed.

Lemma provider_names_differ (provider : jsval) :
  is_str provider CONFIG.CLAUDE = true -> is_str provider CONFIG.GEMINI = false.
Proof.
  destruct provider; try done. cbn. intros H. apply bool_decide_eq_true in H as ->.
  by vm_compute.
Qed.

Lemma generateResponse_never_throws (provider context : jsval) :
  never_throws (AIService.generateResponse provider context).
Proof.
  unfold AIService.generateResponse. apply never_throws_try_catch.
  intros e. apply never_throws_ret.
Qed.

Lemma callGemini_without_key (context : jsval) w :
  present (properties w !! js "GEMINI_API_KEY") = false ->
  AIService.callGemini context w
  = (Ret (AIService.failure (js "Gemini API error: Gemini API key not configured")
            (JStr (js "gemini"))), w).
Proof.
  intros Hk. unfold AIService.callGemini, getProperty. munfold. rewrite Hk.
  cbn [negb]. vm_compute. reflexivity.
Qed.

Lemma callClaude_without_key (context : jsval) w :
  present (properties w !! js "CLAUDE_API_KEY") = false ->
  AIService.callClaude context w
  = (Ret (AIService.failure (js "Claude API error: Claude API key not configured")
            (JStr (js "claude"))), w).
Proof.
  intros Hk. unfold AIService.callClaude, getProperty. munfold. rewrite Hk.
  cbn [negb]. vm_compute. reflexivity.
Qed.

End GatewayProps.

(** X9.  [generateResponse] never throws.  For a provider other than
    'gemini' and 'claude' it returns the failure 'Unsupported AI
    provider: ...', and for a provider whose API key is not configured
    the failure '... API key not configured'; in these cases no HTTP
    request is made and the world is left as it is. *)
Theorem generateResponse_refuses_without_a_request {host : Host}
  (provider context : jsval) (w : World) :
  (exists r w1, AIService.generateResponse provider context w = (Ret r, w1))
  /\ (is_str provider CONFIG.GEMINI = false -> is_str provider CONFIG.CLAUDE = false ->
      AIService.generateResponse provider context w
      = (Ret (AIService.failure (js "Unsupported AI provider: " ++ ToString provider)
                provider), w))
  /\ (is_str provider CONFIG.GEMINI = true ->
      present (properties w !! js "GEMINI_API_KEY") = false ->
      AIService.generateResponse provider context w
      = (Ret (AIService.failure (js "Gemini API error: Gemini API key not configured")
                (JStr (js "gemini"))), w))
  /\ (is_str provider CONFIG.CLAUDE = true ->
      present (properties w !! js "CLAUDE_API_KEY") = false ->
      AIService.generateResponse provider context w
      = (Ret (AIService.failure (js "Claude API error: Claude API key not configured")
                (JStr (js "claude"))), w)).
Proof.
  split; [apply generateResponse_never_throws|].
  unfold AIService.generateResponse. split; [|split].
  - intros -> ->. reflexivity.
  - intros -> Hk. munfold. by rewrite (callGemini_without_key context w Hk).
  - intros Hc Hk. rewrite (provider_names_differ provider Hc), Hc. munfold.
    by rewrite (callClaude_without_key context w Hk).
Qed.

Section GatewayCalls.
Context {host : Host}.

Lemma try_catch_bind_ret {A B} (m : M A) (k : A -> M B) (h : exn -> M B) w a w1 :
  m w = (Ret a, w1) -> try_catch (bind m k) h w = try_catch (k a) h w1.
Proof. intros E. munfold. by rewrite E. Qed.

Lemma try_catch_bind_throw {A B} (m : M A) (k : A -> M B) (h : exn -> M B) w e w1 :
  m w = (Throw e, w1) -> try_catch (bind m k) h w = h e w1.
Proof. intros E. munfold. by rewrite E. Qed.

(** What is said of a reply of the gateway: it reports success only when
    the request was answered with status 200 and a body that parses. *)
Definition earned (req : Request) (r : jsval) : Prop :=
  truthy (prop r (js "success")) = true ->
  exists resp data,
    UrlFetchApp_fetch req = Ret resp /\ getResponseCode resp = 200%Z
    /\ parsedBody resp = Ret data.

Lemma callGemini_request (context : jsval) (apiKey : jsstring) w :
  properties w !! js "GEMINI_API_KEY" = Some apiKey -> apiKey <> [] ->
  nullish context = false ->
  exists body r,
    let req :=
      mkRequest
        (js "https://generativelanguage.googleapis.com/v1beta/models/gemini-pro:generateContent?key="
         ++ apiKey)
        (js "POST") [(js "Content-Type", js "application/json")] (Some body) in
    AIService.callGemini context w = (Ret r, with_fetched (fun l => l ++ [req]) w)
    /\ earned req r.
Proof.
  intros Hk Hne Hc. unfold AIService.callGemini.
  rewrite (try_catch_bind_ret _ _ _ w (Some apiKey) w) by (unfold getProperty; by rewrite Hk).
  assert (present (Some apiKey) = true) as -> by (by destruct apiKey).
  cbn [negb default from_option Datatypes.id].
  rewrite (try_catch_bind_ret (member context _) _ _ w (prop context (js "context")) w)
    by (unfold member; by rewrite Hc).
  cbv zeta.
  match goal with
  | |- context [try_catch (bind (fetch ?rq) ?k) ?h w] =>
      set (req := rq); set (tail := k); set (handler := h)
  end.
  eexists _. 
  set (w1 := with_fetched (fun l => l ++ [req]) w).
  destruct (UrlFetchApp_fetch req) as [resp|e] eqn:Ef.
  - rewrite (try_catch_bind_ret (fetch req) tail handler w resp w1)
      by (unfold fetch; by rewrite Ef).
    assert (Hs : steady (tail resp)) by (subst tail; cbv beta; steady).
    destruct (parsedBody resp) as [data|e] eqn:Ep;
      [destruct (getResponseCode resp =? 200)%Z eqn:Ec|].
    + destruct (steady_handled (tail resp)
                  (fun error =>
                     AIService.failure (js "Gemini API error: " ++ message error)
                       (JStr (js "gemini"))) w1 Hs) as [r Hr].
      exists r. split; [exact Hr|]. intros _. exists resp, data.
      by apply Z.eqb_eq in Ec.
    + eexists. split.
      { subst tail handler. munfold. rewrite Ep, Ec. reflexivity. }
      intros H. by rewrite failure_is_no_success in H.
    + eexists. split.
      { subst tail handler. munfold. rewrite Ep. reflexivity. }
      intros H. by rewrite failure_is_no_success in H.
  - rewrite (try_catch_bind_throw (fetch req) tail handler w e w1)
      by (unfold fetch; by rewrite Ef).
    eexists. split; [reflexivity|].
    intros H. by rewrite failure_is_no_success in H.
Qed.

Lemma callClaude_request (context : jsval) (apiKey : jsstring) w :
  properties w !! js "CLAUDE_API_KEY" = Some apiKey -> apiKey <> [] ->
  nullish context = false ->
  exists body r,
    let req :=
      mkRequest (js "https://api.anthropic.com/v1/messages") (js "POST")
        [(js "Content-Type", js "application/json");
         (js "x-api-key", apiKey);
         (js "anthropic-version", js "2023-06-01")] (Some body) in
    AIService.callClaude context w = (Ret r, with_fetched (fun l => l ++ [req]) w)
    /\ earned req r.
Proof.
  intros Hk Hne Hc. unfold AIService.callClaude.
  rewrite (try_catch_bind_ret _ _ _ w (Some apiKey) w) by (unfold getProperty; by rewrite Hk).
  assert (present (Some apiKey) = true) as -> by (by destruct apiKey).
  cbn [negb default from_option Datatypes.id].
  rewrite (try_catch_bind_ret (member context _) _ _ w (prop context (js "context")) w)
    by (unfold member; by rewrite Hc).
  cbv zeta.
  match goal with
  | |- context [try_catch (bind (fetch ?rq) ?k) ?h w] =>
      set (req := rq); set (tail := k); set (handler := h)
  end.
  eexists _.
  set (w1 := with_fetched (fun l => l ++ [req]) w).
  destruct (UrlFetchApp_fetch req) as [resp|e] eqn:Ef.
  - rewrite (try_catch_bind_ret (fetch req) tail handler w resp w1)
      by (unfold fetch; by rewrite Ef).
    assert (Hs : steady (tail resp)) by (subst tail; cbv beta; steady).
    destruct (parsedBody resp) as [data|e] eqn:Ep;
      [destruct (getResponseCode resp =? 200)%Z eqn:Ec|].
    + destruct (steady_handled (tail resp)
                  (fun error =>
                     AIService.failure (js "Claude API error: " ++ message error)
                       (JStr (js "claude"))) w1 Hs) as [r Hr].
      exists r. split; [exact Hr|]. intros _. exists resp, data.
      by apply Z.eqb_eq in Ec.
    + eexists. split.
      { subst tail handler. munfold. rewrite Ep, Ec. reflexivity. }
      intros H. by rewrite failure_is_no_success in H.
    + eexists. split.
      { subst tail handler. munfold. rewrite Ep. reflexivity. }
      intros H. by rewrite failure_is_no_success in H.
  - rewrite (try_catch_bind_throw (fetch req) tail handler w e w1)
      by (unfold fetch; by rewrite Ef).
    eexists. split; [reflexivity|].
    intros H. by rewrite failure_is_no_success in H.
Qed.

End GatewayCalls.

(** X10.  With its API key configured and a context object, a call of
    the gateway makes exactly one HTTP request, a POST: [callGemini] to
    the model's URL with the key in the query string, [callClaude] to the
    fixed messages URL with the key in the header 'x-api-key' only.  The
    reply reports success only when that request was answered with
    status 200 and a body that parses; nothing but the HTTP trace
    changes. *)
Theorem gateway_call_is_one_request {host : Host}
  (context : jsval) (geminiKey claudeKey : jsstring) (w : World) :
  nullish context = false ->
  (properties w !! js "GEMINI_API_KEY" = Some geminiKey -> geminiKey <> [] ->
   exists body r,
     let req :=
       mkRequest
         (js "https://generativelanguage.googleapis.com/v1beta/models/gemini-pro:generateContent?key="
          ++ geminiKey)
         (js "POST") [(js "Content-Type", js "application/json")] (Some body) in
     AIService.callGemini context w = (Ret r, with_fetched (fun l => l ++ [req]) w)
     /\ earned req r)
  /\ (properties w !! js "CLAUDE_API_KEY" = Some claudeKey -> claudeKey <> [] ->
      exists body r,
        let req :=
          mkRequest (js "https://api.anthropic.com/v1/messages") (js "POST")
            [(js "Content-Type", js "application/json");
             (js "x-api-key", claudeKey);
             (js "anthropic-version", js "2023-06-01")] (Some body) in
        AIService.callClaude context w = (Ret r, with_fetched (fun l => l ++ [req]) w)
        /\ earned req r).
Proof.
  intros Hc. split; intros Hk Hne.
  - by apply callGemini_request.
  - by apply callClaude_request.
Qed.

(** A script that holds both API keys. *)
Definition keyed : World :=
  with_properties
    (fun props => <[ js "GEMINI_API_KEY" := js "g-key" ]>
                    (<[ js "CLAUDE_API_KEY" := js "c-key" ]> props))
    Demo.fresh.

Lemma gateway_call_is_one_request_witness :
  exists body r,
    @AIService.callClaude Demo.shop (obj [(js "userQuery", JStr (js "hola"))]) keyed
    = (Ret r,
       with_fetched
         (fun l => l ++ [mkRequest (js "https://api.anthropic.com/v1/messages") (js "POST")
                           [(js "Content-Type", js "application/json");
                            (js "x-api-key", js "c-key");
                            (js "anthropic-version", js "2023-06-01")] (Some body)])
         keyed).
Proof.
  destruct (@gateway_call_is_one_request Demo.shop
              (obj [(js "userQuery", JStr (js "hola"))]) (js "g-key") (js "c-key") keyed
              eq_refl) as [_ Hclaude].
  destruct Hclaude as (body & r & E & _).
  - vm_compute. reflexivity.
  - vm_compute. discriminate.
  - by exists body, r.
Defined.

(** ** The token refresh (MercadoLibre gateway, [refreshAccessToken]) *)

(** The row that [logError] writes. *)
Definition errorRow {host : Host} (operation : jsstring) (error : exn) (context : jsval)
  (w : World) : list jsval :=
  [JStr (toISOString (now w));
   js_or (prop context (js "sessionId")) (JStr (js "system"));
   JStr (js "error");
   JStr operation;
   JStr (message error);
   JStr [];
   JNum 0;
   JStr (js "error");
   JStr (JSON_stringify
           (obj [(js "stack", JStr (stack error));
                 (js "context", LoggingService.sanitizeMetadata context);
                 (js "operation", JStr operation)]))].

Section RefreshProps.
Context {host : Host}.

Lemma logError_ready (operation : jsstring) (error : exn) (context : jsval) w :
  logs_ready w -> nullish context = false -> context <> JUndefined ->
  LoggingService.logError operation error context w
  = (Ret tt,
     with_sheets
       (insert CONFIG.LOGS_SHEET (log_rows w ++ [errorRow operation error context w])) w).
Proof.
  intros Hr Hn Hu. unfold LoggingService.logError.
  assert (match context with JUndefined => JObj [] | _ => context end = context) as ->
    by (by destruct context).
  munfold. rewrite Hn. rewrite (appendData_ready _ w Hr). reflexivity.
Qed.

Lemma logError_ready_default (operation : jsstring) (error : exn) w :
  logs_ready w ->
  LoggingService.logError operation error JUndefined w
  = (Ret tt,
     with_sheets
       (insert CONFIG.LOGS_SHEET (log_rows w ++ [errorRow operation error (JObj []) w])) w).
Proof.
  intros Hr. unfold LoggingService.logError. munfold. cbn [nullish].
  rewrite (appendData_ready _ w Hr). reflexivity.
Qed.

(** The world after a failed refresh: the requests made so far, and one
    error row if the log can be written. *)
Definition refresh_failed (w w1 : World) : Prop :=
  properties w1 = properties w
  /\ (logs_ready w ->
      exists row,
        log_rows w1 = log_rows w ++ [row]
        /\ cell row 2 = JStr (js "error")
        /\ cell row 3 = JStr (js "refreshAccessToken")).

Lemma refresh_handler_failed (e : exn) w w0 :
  properties w0 = properties w -> spreadsheet_ok w0 = spreadsheet_ok w ->
  sheets w0 = sheets w ->
  exists w1,
    (LoggingService.logError (js "refreshAccessToken") e JUndefined ;; ret JNull) w0
    = (Ret JNull, w1)
    /\ refresh_failed w w1.
Proof.
  intros Hp Hok Hs.
  destruct (logError_frame (js "refreshAccessToken") e JUndefined w0)
    as (w1 & E & Hp1 & _).
  exists w1. split; [munfold; by rewrite E|]. split; [congruence|].
  intros (Hid & Hopen & Hlog).
  assert (Hr' : logs_ready w0).
  { repeat split; [by rewrite Hp | by rewrite Hok | by rewrite Hs]. }
  rewrite (logError_ready_default _ e _ Hr') in E. injection E as <-.
  eexists. split; [rewrite log_rows_append; unfold log_rows; by rewrite Hs|]. by split.
Qed.

(** The properties a granted refresh writes. *)
Definition granted_properties (data : jsval) (exp : jsstring)
  : list (jsstring * jsstring) :=
  [(js "ML_ACCESS_TOKEN", ToString (prop data (js "access_token")));
   (js "ML_ACCESS_TOKEN_FECHA_EXPIRA", exp)]
  ++ (if truthy (prop data (js "refresh_token"))
      then [(js "ML_REFRESH_TOKEN", ToString (prop data (js "refresh_token")))]
      else []).

(** The refresh either fails, or was granted by a response with status
    200 whose body holds a truthy [access_token]. *)
Lemma refresh_outcome w :
  exists v w1,
    MercadoLibreService.refreshAccessToken w = (Ret v, w1)
    /\ ((v = JNull /\ refresh_failed w w1)
        \/ exists req resp data exp,
             url req = oauthEndpoint
             /\ UrlFetchApp_fetch req = Ret resp
             /\ getResponseCode resp = 200%Z
             /\ parsedBody resp = Ret data
             /\ v = prop data (js "access_token") /\ truthy v = true
             /\ MercadoLibreService.expiry_after (with_fetched (fun l => l ++ [req]) w)
                  (prop data (js "expires_in")) = Ret exp
             /\ w1 = with_properties
                       (fun m => fold_left (fun acc kv => <[kv.1 := kv.2]> acc)
                                   (granted_properties data exp) m)
                       (with_fetched (fun l => l ++ [req]) w)).
Proof.
  unfold MercadoLibreService.refreshAccessToken, getProperty, fetch, member,
    setProperties.
  munfold.
  assert (Hlog : forall e w0,
    properties w0 = properties w -> spreadsheet_ok w0 = spreadsheet_ok w ->
    sheets w0 = sheets w ->
    exists v w1,
      (let (o, w') := LoggingService.logError (js "refreshAccessToken") e JUndefined w0 in
       match o with Ret _ => (Ret JNull, w') | Throw e0 => (Throw e0, w') end)
      = (Ret v, w1)
      /\ ((v = JNull /\ refresh_failed w w1)
          \/ exists req resp data exp,
               url req = oauthEndpoint
               /\ UrlFetchApp_fetch req = Ret resp
               /\ getResponseCode resp = 200%Z
               /\ parsedBody resp = Ret data
               /\ v = prop data (js "access_token") /\ truthy v = true
               /\ MercadoLibreService.expiry_after
                    (with_fetched (fun l => l ++ [req]) w)
                    (prop data (js "expires_in")) = Ret exp
               /\ w1 = with_properties
                         (fun m => fold_left (fun acc kv => <[kv.1 := kv.2]> acc)
                                     (granted_properties data exp) m)
                         (with_fetched (fun l => l ++ [req]) w))).
  { intros e w0 Hp Hok Hs.
    destruct (refresh_handler_failed e w w0 Hp Hok Hs) as (w1 & E & Hf).
    munfold_in E. exists JNull, w1. split; [exact E|]. by left. }
  destruct (negb _ || negb _ || negb _); [by apply Hlog|].
  match goal with |- context [UrlFetchApp_fetch ?q] =>
    set (req := q); destruct (UrlFetchApp_fetch req) as [resp|e] eqn:Ef end;
    cbn [with_fetched fetched]; [|by apply Hlog].
  destruct (parsedBody resp) as [d|e] eqn:Ep; [|by apply Hlog].
  destruct (getResponseCode resp =? 200)%Z eqn:Ec.
  - destruct (nullish d); [by apply Hlog|].
    destruct (truthy (prop d (js "access_token"))) eqn:Et; [|by apply Hlog].
    match goal with |- context [MercadoLibreService.expiry_after ?w0 ?x] =>
      destruct (MercadoLibreService.expiry_after w0 x) as [exp|e] eqn:Ex end;
      [|by apply Hlog].
    eexists _, _. split; [reflexivity|]. right.
    exists req, resp, d, exp. apply Z.eqb_eq in Ec.
    split; [reflexivity|]. split; [exact Ef|]. split; [exact Ec|]. split; [exact Ep|].
    split; [reflexivity|]. split; [exact Et|]. split; [exact Ex|].
    unfold granted_properties. by destruct (truthy (prop d (js "refresh_token"))).
  - destruct (nullish d); by apply Hlog.
Qed.

End RefreshProps.

Section RefreshStores.
Context {host : Host}.

Lemma token_keys_differ :
  js "ML_ACCESS_TOKEN" <> js "ML_ACCESS_TOKEN_FECHA_EXPIRA"
  /\ js "ML_ACCESS_TOKEN" <> js "ML_REFRESH_TOKEN"
  /\ js "ML_ACCESS_TOKEN_FECHA_EXPIRA" <> js "ML_REFRESH_TOKEN".
Proof. repeat split; intros H; vm_compute in H; discriminate. Qed.

Lemma granted_lookup (data : jsval) (exp : jsstring) (m : gmap jsstring jsstring) :
  let m' := fold_left (fun acc kv => <[kv.1 := kv.2]> acc) (granted_properties data exp) m in
  m' !! js "ML_ACCESS_TOKEN" = Some (ToString (prop data (js "access_token")))
  /\ m' !! js "ML_ACCESS_TOKEN_FECHA_EXPIRA" = Some exp
  /\ forall k, k <> js "ML_ACCESS_TOKEN" -> k <> js "ML_ACCESS_TOKEN_FECHA_EXPIRA" ->
               k <> js "ML_REFRESH_TOKEN" -> m' !! k = m !! k.
Proof.
  destruct token_keys_differ as (H1 & H2 & H3).
  unfold granted_properties.
  destruct (truthy (prop data (js "refresh_token"))); cbn [app fold_left fst snd].
  - split; [|split].
    + by rewrite lookup_insert_ne, lookup_insert_ne, lookup_insert_eq by done.
    + by rewrite lookup_insert_ne, lookup_insert_eq by done.
    + intros k K1 K2 K3. by rewrite !lookup_insert_ne by done.
  - split; [|split].
    + by rewrite lookup_insert_ne, lookup_insert_eq by done.
    + by rewrite lookup_insert_eq.
    + intros k K1 K2 K3. by rewrite !lookup_insert_ne by done.
Qed.

End RefreshStores.

(** ** The token and the authenticated operations *)






Section TokenOperations.
Context {host : Host}.








End TokenOperations.





(** X11.  [refreshAccessToken] never throws and yields either null or a
    truthy token.  When it yields null (a credential is missing, the
    request fails, the body does not parse, the status is not 200 or the
    body has no access token) the script properties, the stored token
    included, are exactly as before, and one error row for
    'refreshAccessToken' is appended when the log can be written.  When
    it yields a token, that token and an expiry are stored, no log row is
    written, and no property other than the token, its expiry and the
    refresh token is touched. *)
Theorem failed_refresh_stores_nothing {host : Host} (w : World) :
  exists v w1,
    MercadoLibreService.refreshAccessToken w = (Ret v, w1)
    /\ (v = JNull \/ truthy v = true)
    /\ (v = JNull ->
        properties w1 = properties w
        /\ (logs_ready w ->
            exists row,
              log_rows w1 = log_rows w ++ [row]
              /\ cell row 2 = JStr (js "error")
              /\ cell row 3 = JStr (js "refreshAccessToken")))
    /\ (truthy v = true ->
        properties w1 !! js "ML_ACCESS_TOKEN" = Some (ToString v)
        /\ is_Some (properties w1 !! js "ML_ACCESS_TOKEN_FECHA_EXPIRA")
        /\ sheets w1 = sheets w
        /\ forall k, k <> js "ML_ACCESS_TOKEN" -> k <> js "ML_ACCESS_TOKEN_FECHA_EXPIRA" ->
                     k <> js "ML_REFRESH_TOKEN" -> properties w1 !! k = properties w !! k).
Proof.
  destruct (refresh_outcome w) as (v & w1 & E & [[-> Hf] | G]).
  - exists JNull, w1. split; [exact E|]. split; [by left|]. split; [done|]. done.
  - destruct G as (req & resp & data & exp & _ & _ & _ & _ & -> & Ht & _ & ->).
    eexists _, _. split; [exact E|]. split; [by right|].
    split; [intros Hn; by rewrite Hn in Ht|]. intros _.
    destruct (granted_lookup data exp (properties w)) as (H1 & H2 & H3).
    cbn [properties with_properties with_fetched sheets].
    split; [exact H1|]. split; [by eexists|]. split; [done | exact H3].
Qed.

(** X12.  When the token endpoint grants a text token with a lifetime of
    [n] seconds, the refresh returns it and stores it together with the
    expiry [t] that [setSeconds(getSeconds() + n)] gives on the current
    date (on a clock whose offset does not change in between, now + n
    seconds).  The next [getValidAccessToken] at the same instant
    returns the stored token without another request when now is more
    than five minutes before [t]; otherwise the stored token is not
    considered usable and the next call refreshes again, so that a token
    granted for 300 seconds or less on an even clock is never used. *)
Theorem granted_token_is_used_next {host : Host}
  (w : World) (resp : HttpResponse) (data : jsval) (token : jsstring) (n t : Z) :
  present (properties w !! js "ML_CLIENT_ID") = true ->
  present (properties w !! js "ML_CLIENT_SECRET") = true ->
  present (properties w !! js "ML_REFRESH_TOKEN") = true ->
  (forall req, url req = oauthEndpoint -> UrlFetchApp_fetch req = Ret resp) ->
  getResponseCode resp = 200%Z ->
  parsedBody resp = Ret data ->
  prop data (js "access_token") = JStr token -> token <> [] ->
  prop data (js "expires_in") = JNum n ->
  Date_setSeconds (now w) (getSeconds (localTime (now w)) + n) = Some t ->
  Date_getTime (JStr (toISOString t)) = Some t ->
  toISOString t <> [] ->
  exists w1,
    MercadoLibreService.refreshAccessToken w = (Ret (JStr token), w1)
    /\ properties w1 !! js "ML_ACCESS_TOKEN" = Some token
    /\ properties w1 !! js "ML_ACCESS_TOKEN_FECHA_EXPIRA" = Some (toISOString t)
    /\ ((now w < t - 300000)%Z ->
        MercadoLibreService.getValidAccessToken w1 = (Ret (JStr token), w1))
    /\ ((t - 300000 <= now w)%Z ->
        MercadoLibreService.getValidAccessToken w1
        = MercadoLibreService.refreshAccessToken w1)
    /\ (t = (now w + n * 1000)%Z ->
        ((300 < n)%Z ->
         MercadoLibreService.getValidAccessToken w1 = (Ret (JStr token), w1))
        /\ ((n <= 300)%Z ->
            MercadoLibreService.getValidAccessToken w1
            = MercadoLibreService.refreshAccessToken w1)).
Proof.
  intros Hc1 Hc2 Hc3 Hhost Hcode Hbody Htok Hne Hexp Hset Hround Hiso.
  destruct (refresh_outcome w) as (v & w1 & E & Hout).
  assert (Hw1 : v = JStr token
                /\ w1 = with_properties
                          (fun m => fold_left (fun acc kv => <[kv.1 := kv.2]> acc)
                                      (granted_properties data (toISOString t)) m)
                          (with_fetched
                             (fun l => l ++ [mkRequest oauthEndpoint (js "POST")
                                [(js "Accept", js "application/json");
                                 (js "Content-Type",
                                  js "application/x-www-form-urlencoded")]
                                (Some (js "grant_type=" ++ encodeURIComponent (js "refresh_token")
                                       ++ js "&client_id="
                                       ++ encodeURIComponent
                                            (default [] (properties w !! js "ML_CLIENT_ID"))
                                       ++ js "&client_secret="
                                       ++ encodeURIComponent
                                            (default [] (properties w !! js "ML_CLIENT_SECRET"))
                                       ++ js "&refresh_token="
                                       ++ encodeURIComponent
                                            (default [] (properties w !! js "ML_REFRESH_TOKEN"))))])
                             w)).
  { clear Hout. revert E.
    unfold MercadoLibreService.refreshAccessToken, getProperty, fetch, member,
      setProperties.
    munfold. rewrite Hc1, Hc2, Hc3. cbn [negb orb].
    match goal with |- context [UrlFetchApp_fetch ?q] => rewrite (Hhost q eq_refl) end.
    cbn [with_fetched fetched]. rewrite Hbody, Hcode.
    cbn [Z.eqb Pos.eqb].
    assert (nullish data = false) as -> by (destruct data; done).
    rewrite Htok. assert (truthy (JStr token) = true) as -> by (by destruct token).
    unfold MercadoLibreService.expiry_after.
    change (now (with_fetched _ w)) with (now w). rewrite Hexp.
    cbn [ToNumber num_add]. rewrite Hset.
    intros [= <- <-]. split; [reflexivity|].
    unfold granted_properties. rewrite Htok.
    by destruct (truthy (prop data (js "refresh_token"))). }
  destruct Hw1 as [-> Hw1]. exists w1. split; [exact E|].
  destruct (granted_lookup data (toISOString t) (properties w)) as (H1 & H2 & _).
  rewrite Htok in H1. cbn [ToString] in H1.
  assert (Hp1 : properties w1 !! js "ML_ACCESS_TOKEN" = Some token) by (by subst w1).
  assert (Hp2 : properties w1 !! js "ML_ACCESS_TOKEN_FECHA_EXPIRA"
                = Some (toISOString t)) by (by subst w1).
  assert (Hnow : now w1 = now w) by (by subst w1).
  assert (Huse : (now w < t - 300000)%Z ->
                 MercadoLibreService.getValidAccessToken w1 = (Ret (JStr token), w1)).
  { intros Hn.
    destruct (getValidAccessToken_fresh w1) as (token' & Ht' & _ & Hv).
    { exists token, (toISOString t), t. repeat split; try done. rewrite Hnow. lia. }
    rewrite Hp1 in Ht'. by injection Ht' as <-. }
  assert (Hagain : (t - 300000 <= now w)%Z ->
                   MercadoLibreService.getValidAccessToken w1
                   = MercadoLibreService.refreshAccessToken w1).
  { intros Hn. apply getValidAccessToken_stale.
    intros (token' & exp & expiry & _ & _ & He & _ & Hd & Hlt).
    rewrite Hp2 in He. injection He as <-. rewrite Hround in Hd. injection Hd as <-.
    rewrite Hnow in Hlt. lia. }
  split; [exact Hp1|]. split; [exact Hp2|]. split; [exact Huse|].
  split; [exact Hagain|].
  intros ->. split; intros Hn; [apply Huse | apply Hagain]; lia.
Qed.

(** A host whose token endpoint grants a six-hour token. *)
Definition granting : Host :=
  {| toISOString := @toISOString Demo.host;
     localTime := @localTime Demo.host;
     Date_getTime := @Date_getTime Demo.host;
     Date_setSeconds := @Date_setSeconds Demo.host;
     JSON_stringify := ToString;
     JSON_parse := fun _ => Ret (JObj []);
     encodeURIComponent := fun s => s;
     toLocaleDateString := ToString;
     UrlFetchApp_fetch := fun _ =>
       Ret (mkResponse 200
              (Ret (JObj [(js "access_token", JStr (js "new-token"));
                          (js "expires_in", JNum 21600)]))) |}.

(** A script that holds the three credentials and no token. *)
Definition credentialed : World :=
  with_properties
    (fun props =>
       <[ js "ML_CLIENT_ID" := js "id" ]>
         (<[ js "ML_CLIENT_SECRET" := js "secret" ]>
            (<[ js "ML_REFRESH_TOKEN" := js "refresh" ]> props)))
    Demo.fresh.

Lemma granted_token_is_used_next_witness :
  exists w1,
    @MercadoLibreService.refreshAccessToken granting credentialed
    = (Ret (JStr (js "new-token")), w1)
    /\ @MercadoLibreService.getValidAccessToken granting w1
       = (Ret (JStr (js "new-token")), w1).
Proof.
  destruct (@granted_token_is_used_next granting credentialed
              (mkResponse 200
                 (Ret (JObj [(js "access_token", JStr (js "new-token"));
                             (js "expires_in", JNum 21600)])))
              (JObj [(js "access_token", JStr (js "new-token"));
                     (js "expires_in", JNum 21600)])
              (js "new-token") 21600 (1705314600000 + 21600 * 1000))
    as (w1 & E & _ & _ & Hnext & _).
  - vm_compute. reflexivity.
  - vm_compute. reflexivity.
  - vm_compute. reflexivity.
  - intros req _. reflexivity.
  - reflexivity.
  - reflexivity.
  - vm_compute. reflexivity.
  - vm_compute. discriminate.
  - vm_compute. reflexivity.
  - vm_compute. reflexivity.
  - vm_compute. reflexivity.
  - vm_compute. discriminate.
  - exists w1. split; [exact E|]. apply Hnext. vm_compute. reflexivity.
Defined.

(** X13.  [getProductInfo] asks the public item endpoint whatever the
    state of the token: it makes exactly one GET request, which carries
    no Authorization header, never throws, changes no script property
    and writes no log row.  It reports success exactly when the
    request was answered with status 200 and a body that parses, which
    it returns as [data]; otherwise it returns [success: false] with the
    error text. *)
Theorem getProductInfo_is_public {host : Host} (itemId : jsval) (w : World) :
  let req :=
    mkRequest (js "https://api.mercadolibre.com/items/" ++ ToString itemId) (js "GET")
      [(js "Content-Type", js "application/json")] None in
  exists r,
    MercadoLibreService.getProductInfo itemId w
    = (Ret r, with_fetched (fun l => l ++ [req]) w)
    /\ ((exists resp data,
           UrlFetchApp_fetch req = Ret resp /\ getResponseCode resp = 200%Z
           /\ parsedBody resp = Ret data
           /\ r = obj [(js "success", JBool true); (js "data", data);
                       (js "timestamp", JStr (toISOString (now w)))])
        \/ ((forall resp data,
               UrlFetchApp_fetch req = Ret resp -> parsedBody resp = Ret data ->
               getResponseCode resp <> 200%Z)
            /\ exists text, r = obj [(js "success", JBool false); (js "error", JStr text)])).
Proof.
  intros req. unfold MercadoLibreService.getProductInfo, fetch. munfold. fold req.
  destruct (UrlFetchApp_fetch req) as [resp|e] eqn:Ef.
  - unfold MercadoLibreService.answer, member. munfold.
    destruct (parsedBody resp) as [data|e] eqn:Ep.
    + destruct (getResponseCode resp =? 200)%Z eqn:Ec.
      * eexists. split; [reflexivity|]. left. exists resp, data.
        apply Z.eqb_eq in Ec. by repeat split.
      * apply Z.eqb_neq in Ec.
        destruct (nullish data); (eexists; split; [reflexivity|]); right;
          (split; [intros ? ? [= <-] ?; congruence | by eexists]).
    + eexists. split; [reflexivity|]. right.
      split; [intros ? ? [= <-] ?; congruence | by eexists].
  - eexists. split; [reflexivity|]. right. split; [by intros ? ? [=] | by eexists].
Qed.

(** ** Business hours in general (menuService.gs, configService.gs) *)

(** A run of one to ten decimal digits. *)
Definition plain_digits (l : jsstring) : bool :=
  negb (length l =? 0)%nat && (length l <=? 10)%nat && forallb is_digit l.

(** The text [v] is hours, a colon, and minutes, both written in
    decimal digits: it reads as [h] hours and [m] minutes. *)
Definition clock_text (v : jsval) (h m : Z) : Prop :=
  exists hs ms,
    v = JStr (hs ++ 58%N :: ms)
    /\ plain_digits hs = true /\ plain_digits ms = true
    /\ digits_value 0 hs = Int h /\ digits_value 0 ms = Int m.

(** The value is no text, or a text without a colon. *)
Definition lacks_colon (v : jsval) : bool :=
  match v with
  | JStr s => negb (existsb (fun c => (c =? 58)%N) s)
  | _ => true
  end.

Section ClockTexts.

Lemma split_on_absent (sep : N) (l : jsstring) :
  existsb (fun c => (c =? sep)%N) l = false -> split_on sep l = [l].
Proof.
  induction l as [|c l IH]; cbn; [done|].
  intros H. apply orb_false_elim in H as [Hc H]. rewrite Hc, (IH H). reflexivity.
Qed.

Lemma split_on_first (sep : N) (l r : jsstring) :
  existsb (fun c => (c =? sep)%N) l = false ->
  split_on sep (l ++ sep :: r) = l :: split_on sep r.
Proof.
  induction l as [|c l IH]; cbn.
  - intros _. by rewrite N.eqb_refl.
  - intros H. apply orb_false_elim in H as [Hc H]. rewrite Hc, (IH H). reflexivity.
Qed.

Lemma digit_cases (c : N) :
  is_digit c = true ->
  In c [48; 49; 50; 51; 52; 53; 54; 55; 56; 57]%N.
Proof.
  unfold is_digit. intros H. apply andb_prop in H as [H1 H2].
  apply N.leb_le in H1, H2. cbn. lia.
Qed.

Lemma digit_is_plain (c : N) :
  is_digit c = true ->
  is_space c = false /\ (c =? 45)%N = false /\ (c =? 43)%N = false
  /\ (c =? 58)%N = false.
Proof.
  intros H. apply digit_cases in H. cbn in H.
  repeat (destruct H as [<-|H]; [by vm_compute|]). done.
Qed.

Lemma digits_without (l : jsstring) :
  forallb is_digit l = true -> existsb (fun c => (c =? 58)%N) l = false.
Proof.
  induction l as [|c l IH]; cbn; [done|].
  intros H. apply andb_prop in H as [Hc H].
  destruct (digit_is_plain c Hc) as (_ & _ & _ & ->). by apply IH.
Qed.

Lemma skip_space_digit (l : jsstring) :
  match l with c :: _ => is_digit c = true | [] => True end -> skip_space l = l.
Proof.
  destruct l as [|c l]; [done|]. intros Hc. cbn.
  by destruct (digit_is_plain c Hc) as (-> & _).
Qed.

Lemma StringToNumber_digits (l : jsstring) :
  plain_digits l = true -> StringToNumber l = digits_value 0 l.
Proof.
  unfold plain_digits. intros H. apply andb_prop in H as [H Hd].
  apply andb_prop in H as [Hne _].
  assert (Hall : forall c, In c l -> is_digit c = true) by (by apply forallb_forall).
  unfold StringToNumber.
  rewrite (skip_space_digit l).
  2:{ destruct l as [|c l]; [done|]. apply Hall. by left. }
  rewrite (skip_space_digit (rev l)).
  2:{ destruct (rev l) as [|c r] eqn:Er; [done|]. apply Hall, in_rev.
      rewrite Er. by left. }
  rewrite rev_involutive.
  destruct l as [|c l]; [done|].
  assert (Hc : is_digit c = true) by (apply Hall; by left).
  by destruct (digit_is_plain c Hc) as (_ & -> & -> & _).
Qed.

Lemma parseTime_clock (v : jsval) (h m : Z) :
  clock_text v h m -> MenuService.parseTime v = Ret (Int (h * 60 + m)).
Proof.
  intros (hs & ms & -> & Hh & Hm & Eh & Em).
  assert (Hhd : forallb is_digit hs = true).
  { unfold plain_digits in Hh. by apply andb_prop in Hh as [_ ?]. }
  assert (Hmd : forallb is_digit ms = true).
  { unfold plain_digits in Hm. by apply andb_prop in Hm as [_ ?]. }
  unfold MenuService.parseTime.
  rewrite (split_on_first 58 hs ms (digits_without hs Hhd)).
  rewrite (split_on_absent 58 ms (digits_without ms Hmd)).
  cbn [List.map lookup list_lookup default from_option Datatypes.id].
  by rewrite (StringToNumber_digits hs Hh), (StringToNumber_digits ms Hm), Eh, Em.
Qed.

Lemma parseTime_without_colon (v : jsval) :
  lacks_colon v = true ->
  MenuService.parseTime v = Ret NaN \/ exists e, MenuService.parseTime v = Throw e.
Proof.
  destruct v as [| |b|z|s|l|fs]; cbn [lacks_colon]; intros H; try (right; by eexists).
  left. unfold MenuService.parseTime.
  apply negb_true_iff in H. rewrite (split_on_absent 58 s H).
  cbn [List.map lookup list_lookup default from_option Datatypes.id].
  by destruct (StringToNumber s).
Qed.

End ClockTexts.

(** X14.  For a day that the schedule marks open and whose start and end
    are texts of hours, a colon and minutes in decimal digits, the
    business-hours test is [start <= now <= end] in minutes since
    midnight; so a day whose end lies before its start (an overnight
    range) is never in hours.  A day whose start or end is a text
    without a colon, or no text at all, is never in hours, and neither is
    a day the schedule does not list or marks closed. *)
Theorem business_hours_in_general (bh : BusinessHours) (t : LocalTime) :
  (forall d sh sm eh em,
     schedule bh !! getDay t = Some d -> open d = true ->
     clock_text (start d) sh sm ->
     clock_text (end_ d) eh em ->
     MenuService.isWithinBusinessHours t bh
     = ((sh * 60 + sm <=? getHours t * 60 + getMinutes t)
        && (getHours t * 60 + getMinutes t <=? eh * 60 + em))%Z
     /\ ((eh * 60 + em < sh * 60 + sm)%Z ->
         MenuService.isWithinBusinessHours t bh = false))
  /\ (forall d,
        schedule bh !! getDay t = Some d ->
        lacks_colon (start d) = true \/ lacks_colon (end_ d) = true ->
        MenuService.isWithinBusinessHours t bh = false)
  /\ (forall d,
        schedule bh !! getDay t = Some d -> open d = false ->
        MenuService.isWithinBusinessHours t bh = false)
  /\ (schedule bh !! getDay t = None -> MenuService.isWithinBusinessHours t bh = false)
  /\ MenuService.parseTime (JStr (js "0900")) = Ret NaN
  /\ MenuService.parseTime (JStr (js "9h30")) = Ret NaN
  /\ MenuService.parseTime (JStr (js "22:00")) = Ret (Int 1320).
Proof.
  unfold MenuService.isWithinBusinessHours.
  split; [|split; [|split; [|split]]].
  - intros d sh sm eh em -> -> Hs He.
    rewrite (parseTime_clock _ _ _ Hs), (parseTime_clock _ _ _ He).
    cbn [negb num_le]. split; [reflexivity|].
    intros Hlt.
    destruct (sh * 60 + sm <=? getHours t * 60 + getMinutes t)%Z eqn:E1; [|done].
    destruct (getHours t * 60 + getMinutes t <=? eh * 60 + em)%Z eqn:E2; [|done].
    apply Z.leb_le in E1, E2. lia.
  - intros d -> [H|H]; apply parseTime_without_colon in H as [H|[e H]]; rewrite H;
      destruct (open d); cbn [negb]; try done.
    + by destruct (MenuService.parseTime (end_ d)).
    + destruct (MenuService.parseTime (start d)) as [[|z]|]; try done.
      cbn [num_le]. by rewrite andb_false_r.
    + by destruct (MenuService.parseTime (start d)).
  - by intros d -> ->.
  - by intros ->.
  - repeat split; vm_compute; reflexivity.
Qed.

(** The names by which [business_days] lists the days, Sunday first. *)
Definition dayNames : list jsstring :=
  [js "Sun"; js "Mon"; js "Tue"; js "Wed"; js "Thu"; js "Fri"; js "Sat"].

Section BusinessDays.
Context {host : Host}.

Lemma daysMap_spec (s : jsstring) (i : nat) :
  ConfigService.daysMap s = Some i <-> dayNames !! i = Some s.
Proof.
  split.
  - unfold ConfigService.daysMap.
    repeat (case_bool_decide as E; [subst s; intros [= <-]; reflexivity | clear E]).
    done.
  - do 7 (destruct i as [|i]; [intros [= <-]; vm_compute; reflexivity|]). done.
Qed.

Lemma getConfig_never_throws : never_throws ConfigService.getConfig.
Proof.
  unfold ConfigService.getConfig. apply never_throws_try_catch.
  intros e. apply never_throws_ret.
Qed.

End BusinessDays.

(** X15.  [getBusinessHours] never throws.  When the configured
    [business_days] (or, if it is empty or missing, 'Mon,Tue,Wed,Thu,Fri')
    is a text, the schedule has seven days, all with the configured start
    and end, and day [i] (Sunday = 0) is open exactly when one of the
    comma-separated entries, white space trimmed, is the three-letter
    English name of that day, in that spelling; other entries are
    ignored.  When [business_days] was read as a number or a boolean the
    default hours (Monday to Friday, 09:00 to 18:00) are returned. *)
Theorem business_days_are_read_by_name {host : Host} (w : World) :
  exists config bh w1,
    ConfigService.getConfig w = (Ret config, w1)
    /\ ConfigService.getBusinessHours w = (Ret bh, w1)
    /\ (forall s,
          js_or (prop config (js "business_days")) (JStr (js "Mon,Tue,Wed,Thu,Fri"))
          = JStr s ->
          length (schedule bh) = 7%nat
          /\ forall i d, schedule bh !! i = Some d ->
               (open d = true <->
                exists entry, In entry (split_on 44 s) /\ dayNames !! i = Some (trim entry))
               /\ start d = js_or (prop config (js "business_hours_start"))
                              (JStr (js "09:00"))
               /\ end_ d = js_or (prop config (js "business_hours_end"))
                             (JStr (js "18:00")))
    /\ ((forall s,
           js_or (prop config (js "business_days")) (JStr (js "Mon,Tue,Wed,Thu,Fri"))
           <> JStr s) ->
        bh = ConfigService.getDefaultBusinessHours).
Proof.
  destruct (getConfig_never_throws w) as (config & w1 & Hc).
  exists config. unfold ConfigService.getBusinessHours.
  rewrite (try_catch_bind_ret _ _ _ w config w1 Hc). cbv zeta.
  destruct (js_or (prop config (js "business_days")) (JStr (js "Mon,Tue,Wed,Thu,Fri")))
    as [| | | |days| |] eqn:Ed;
    try (eexists _, w1; split; [done|]; split; [reflexivity|];
         split; [by intros s [=] | done]).
  eexists _, w1. split; [done|]. split; [reflexivity|]. split; [|by intros H; destruct (H days)].
  intros s [= <-]. cbn [schedule]. split; [reflexivity|].
  intros i d Hi.
  assert (Hd : (i < 7)%nat
               /\ d = mkDay (existsb (fun x => bool_decide (x = Some i))
                               (List.map (fun day => ConfigService.daysMap (trim day))
                                  (split_on 44 days)))
                        (js_or (prop config (js "business_hours_start")) (JStr (js "09:00")))
                        (js_or (prop config (js "business_hours_end")) (JStr (js "18:00")))).
  { cbn [seq List.map] in Hi.
    do 7 (destruct i as [|i]; [injection Hi as <-; split; [lia | reflexivity]|]).
    done. }
  destruct Hd as [_ ->]. cbn [open start end_]. split; [|done].
  rewrite existsb_exists. split.
  - intros (x & Hin & Hx). apply bool_decide_eq_true in Hx as ->.
    apply in_map_iff in Hin as (entry & He & Hin). exists entry.
    split; [done|]. by apply daysMap_spec.
  - intros (entry & Hin & He). exists (Some i). split; [|by apply bool_decide_eq_true].
    apply in_map_iff. exists entry. split; [by apply daysMap_spec | done].
Qed.

(** ** The configuration cache (configService.gs, [getConfig]) *)

(** No configuration is cached, or the cached one has expired. *)
Definition cache_stale (w : World) : Prop :=
  match configCache w with
  | Some (_, expiry) => expiry = 0%Z \/ (expiry <= now w)%Z
  | None => True
  end.

Section ConfigCache.

Lemma getConfig_cached w (config : jsval) (expiry : Z) :
  configCache w = Some (config, expiry) -> expiry <> 0%Z -> (now w < expiry)%Z ->
  ConfigService.getConfig w = (Ret config, w).
Proof.
  intros Hc H0 Hlt. unfold ConfigService.getConfig. munfold. rewrite Hc.
  apply Z.eqb_neq in H0. apply Z.ltb_lt in Hlt. by rewrite H0, Hlt.
Qed.

Lemma cache_stale_spec w :
  cache_stale w ->
  match configCache w with
  | Some (cache, expiry) =>
      if negb (expiry =? 0)%Z && (now w <? expiry)%Z then Some cache else None
  | None => None
  end = None.
Proof.
  unfold cache_stale. destruct (configCache w) as [[c e]|]; [|done].
  intros [-> | Hle]; [done|].
  apply Z.ltb_ge in Hle. rewrite Hle. by rewrite andb_false_r.
Qed.

End ConfigCache.

(** X16.  [getConfig] answers from its cache while the cache is valid: it
    then reads no sheet and changes nothing, whatever the Settings sheet
    holds by then.  With a stale cache and a reachable spreadsheet it
    reads the sheet and caches the result for five minutes, so that every
    later call before that time returns the same object; with a stale
    cache and an unreachable spreadsheet it returns the built-in defaults
    and caches nothing. *)
Theorem config_is_cached_for_five_minutes (w : World) :
  (forall config expiry,
     configCache w = Some (config, expiry) -> expiry <> 0%Z -> (now w < expiry)%Z ->
     ConfigService.getConfig w = (Ret config, w))
  /\ (cache_stale w -> sink_open w ->
      exists config w1,
        ConfigService.getConfig w = (Ret config, w1)
        /\ configCache w1 = Some (config, now w + 300000)%Z
        /\ same_outside_sheets w w1
        /\ forall w2,
             configCache w2 = configCache w1 -> (now w + 300000)%Z <> 0%Z ->
             (now w2 < now w + 300000)%Z ->
             ConfigService.getConfig w2 = (Ret config, w2))
  /\ (cache_stale w -> sink_closed w ->
      ConfigService.getConfig w = (Ret ConfigService.getDefaultConfig, w)).
Proof.
  split; [intros config expiry; apply getConfig_cached|]. split.
  - intros Hs Ho. unfold ConfigService.getConfig at 1. munfold.
    rewrite (cache_stale_spec w Hs).
    rewrite (getSheet_open CONFIG.SETTINGS_SHEET w Ho).
    destruct (ensure_frame CONFIG.SETTINGS_SHEET w) as (A & B & C & D).
    set (w0 := ensure CONFIG.SETTINGS_SHEET w) in *.
    unfold SheetsService.getValues. cbn [now with_configCache configCache].
    eexists _, _. split; [reflexivity|].
    assert (Hexp : (now w0 + ConfigService.cacheTimeout = now w + 300000)%Z)
      by (rewrite B; reflexivity).
    split; [cbn [configCache]; by rewrite Hexp|].
    split; [by repeat split|].
    intros w2 Hc H0 Hlt. apply (getConfig_cached w2 _ (now w + 300000)%Z); [|done..].
    rewrite Hc. cbn [configCache]. by rewrite Hexp.
  - intros Hs Hc. unfold ConfigService.getConfig. munfold.
    rewrite (cache_stale_spec w Hs).
    destruct (getSheet_closed CONFIG.SETTINGS_SHEET w Hc) as [e ->]. reflexivity.
Qed.

(** ** Order numbers in a message (chat service, [extractOrderId]) *)

Section OrderIds.
Context {host : Host}.

Lemma digit_is_word (c : N) : is_digit c = true -> is_word c = true.
Proof. unfold is_word. intros ->. by rewrite orb_true_r. Qed.

Lemma digits_word_at (l rest : jsstring) :
  l <> [] -> forallb is_digit l = true -> word_at (l ++ rest) = true.
Proof.
  destruct l as [|x l]; [done|]. cbn. intros _ H. apply andb_prop in H as [H _].
  by apply digit_is_word.
Qed.

Lemma digits_word_before (l : jsstring) : forall prev,
  l <> [] -> forallb is_digit l = true -> word_before (after prev l) = true.
Proof.
  induction l as [|x l IH]; intros prev Hne H; [done|]. cbn in H |- *.
  apply andb_prop in H as [Hx Hl]. destruct l as [|y l].
  - cbn. by apply digit_is_word.
  - by apply IH.
Qed.

End OrderIds.

(** X17.  [extractOrderId] returns a run of at least twelve digits of the
    message that has no letter, digit or underscore directly before or
    after it; and whenever the message holds such a run, an order number
    is extracted.  So a number of eleven digits is not an order number,
    and neither are twelve digits glued to a letter. *)
Theorem extractOrderId_takes_isolated_digit_runs {host : Host} {ai : AIGateway}
  (m : jsstring) (w : World) :
  ChatService.extractOrderId (JStr m) w = (Ret (search orderIdPattern m), w)
  /\ (forall id, search orderIdPattern m = Some id ->
        forallb is_digit id = true /\ (12 <= length id)%nat
        /\ exists pre rest,
             m = pre ++ id ++ rest
             /\ word_before (after None pre) = false /\ word_at rest = false)
  /\ (forall pre id rest,
        m = pre ++ id ++ rest ->
        forallb is_digit id = true -> (12 <= length id)%nat ->
        word_before (after None pre) = false -> word_at rest = false ->
        exists id', search orderIdPattern m = Some id')
  /\ search orderIdPattern (js "pedido 12345678901") = None
  /\ search orderIdPattern (js "pedido MLA123456789012") = None.
Proof.
  split; [reflexivity|]. split; [|split].
  - intros id H. apply search_go_sound in H as (pre & t & n & -> & Hm & ->).
    apply exec_sound in Hm as (k & -> & Hs). cbn [Nat.add].
    destruct Hs as (Hb & j & Hj & _ & Hlen & Hdig & Hjk & Hb' & Hk).
    cbn in Hk. assert (k = j) as -> by lia. clear Hk Hjk.
    assert (Hne : take j t <> []).
    { intros E. apply (f_equal length) in E. rewrite length_take in E. cbn in E. lia. }
    split; [exact Hdig|]. split; [rewrite length_take; lia|].
    exists pre, (drop j t). split; [by rewrite take_drop|].
    unfold boundary in Hb, Hb'.
    rewrite (digits_word_before _ _ Hne Hdig) in Hb'.
    rewrite <- (take_drop j t) in Hb. rewrite (digits_word_at _ _ Hne Hdig) in Hb.
    split.
    + by destruct (word_before (after None pre)).
    + by destruct (word_at (drop j t)).
  - intros pre id rest -> Hdig Hlen Hpre Hrest.
    destruct (search orderIdPattern (pre ++ id ++ rest)) as [id'|] eqn:E;
      [by exists id'|exfalso].
    revert E. apply search_go_complete.
    apply (exec_complete orderIdPattern 0 _ _ (length id)).
    assert (Hne : id <> []) by (intros ->; cbn in Hlen; lia).
    split.
    { unfold boundary. by rewrite Hpre, (digits_word_at _ _ Hne Hdig). }
    exists (length id). split; [exact Hlen|]. split; [exact I|].
    split; [rewrite length_app; lia|].
    rewrite take_app_length, drop_app_length.
    split; [exact Hdig|]. split; [lia|]. split; [|cbn; lia].
    unfold boundary. by rewrite (digits_word_before _ _ Hne Hdig), Hrest.
  - split; vm_compute; reflexivity.
Qed.

(** ** What the menu and chat services leave alone *)

(** A computation that changes at most the spreadsheet and the
    configuration cache. *)
Definition frames {A} (m : M A) : Prop :=
  forall w r w1, m w = (r, w1) -> same_outside_sheets w w1.

Section Frames.
Context {host : Host}.

Lemma frames_ret {A} (a : A) : frames (ret a).
Proof. intros w r w1 [= _ <-]. apply same_outside_sheets_refl. Qed.

Lemma frames_throw {A} (e : exn) : frames (@throw A e).
Proof. intros w r w1 [= _ <-]. apply same_outside_sheets_refl. Qed.

Lemma frames_lift {A} (o : outcome A) : frames (lift o).
Proof. intros w r w1 [= _ <-]. apply same_outside_sheets_refl. Qed.

Lemma frames_get_world : frames get_world.
Proof. intros w r w1 [= _ <-]. apply same_outside_sheets_refl. Qed.

Lemma frames_getProperty (k : jsstring) : frames (getProperty k).
Proof. intros w r w1 [= _ <-]. apply same_outside_sheets_refl. Qed.

Lemma frames_bind {A B} (m : M A) (k : A -> M B) :
  frames m -> (forall a, frames (k a)) -> frames (bind m k).
Proof.
  intros Hm Hk w r w2. munfold.
  destruct (m w) as [[a|e] w1] eqn:E; apply Hm in E.
  - intros H. apply Hk in H. by apply (same_outside_sheets_trans w w1 w2).
  - by intros [= _ <-].
Qed.

Lemma frames_try_catch {A} (body : M A) (handler : exn -> M A) :
  frames body -> (forall e, frames (handler e)) -> frames (try_catch body handler).
Proof.
  intros Hb Hh w r w2. munfold.
  destruct (body w) as [[a|e] w1] eqn:E; apply Hb in E.
  - by intros [= _ <-].
  - intros H. apply Hh in H. by apply (same_outside_sheets_trans w w1 w2).
Qed.

Lemma frames_member (v : jsval) (k : jsstring) : frames (member v k).
Proof. unfold member. destruct (nullish v); [apply frames_throw | apply frames_ret]. Qed.

Lemma frames_toString_method (v : jsval) : frames (toString_method v).
Proof.
  unfold toString_method. destruct (nullish v); [apply frames_throw | apply frames_ret].
Qed.

Lemma frames_getSheet (name : jsstring) : frames (SheetsService.getSheet name).
Proof. intros w r w1. apply getSheet_frame. Qed.

Lemma frames_getValues (sheet : jsstring) : frames (SheetsService.getValues sheet).
Proof. intros w r w1 [= _ <-]. apply same_outside_sheets_refl. Qed.

Lemma frames_logInteraction (t : jsstring) (s d : jsval) :
  frames (LoggingService.logInteraction t s d).
Proof.
  intros w r w1 E. destruct (logInteraction_frame t s d w) as (w' & E' & H). congruence.
Qed.

Lemma frames_logError (op : jsstring) (e : exn) (c : jsval) :
  frames (LoggingService.logError op e c).
Proof.
  intros w r w1 E. destruct (logError_frame op e c w) as (w' & E' & H). congruence.
Qed.

Lemma frames_appendData (name : jsstring) (row : list jsval) :
  frames (SheetsService.appendData name row).
Proof. intros w r w1. apply appendData_frame. Qed.

Lemma frames_logEscalation (s r0 : jsval) (status : jsstring) :
  frames (LoggingService.logEscalation s r0 status).
Proof.
  unfold LoggingService.logEscalation.
  apply frames_try_catch; [|intros; apply frames_ret].
  apply frames_bind; [apply frames_get_world | intros w0]. apply frames_appendData.
Qed.

Lemma frames_cache (c : option (jsval * Z)) :
  frames (fun w => (Ret tt, with_configCache c w)).
Proof. intros w r w1 [= _ <-]. by repeat split. Qed.

End Frames.

Create HintDb frames.
#[export] Hint Resolve frames_ret frames_throw frames_lift frames_get_world
  frames_getProperty frames_member frames_toString_method frames_getSheet
  frames_getValues frames_logInteraction frames_logError frames_logEscalation
  frames_appendData frames_cache : frames.

Ltac frames :=
  repeat first
    [ progress auto with frames
    | apply frames_bind; [|intros ?]
    | apply frames_try_catch; [|intros ?]
    | match goal with
      | |- frames (if ?b then _ else _) => destruct b
      | |- frames (match ?x with _ => _ end) => destruct x
      end ].

Section ServiceFrames.
Context {host : Host} {ai : AIGateway}.

Lemma frames_getConfig : frames ConfigService.getConfig.
Proof.
  unfold ConfigService.getConfig.
  apply frames_try_catch; [|intros; apply frames_ret].
  apply frames_bind; [apply frames_get_world | intros w0].
  destruct (match configCache w0 with Some _ => _ | None => _ end);
    [apply frames_ret|].
  apply frames_bind; [apply frames_getSheet | intros sheet].
  apply frames_bind; [apply frames_getValues | intros data].
  apply frames_bind; [|intros; apply frames_ret].
  intros w r w1 [= _ <-]. by repeat split.
Qed.

Lemma frames_getBusinessHours : frames ConfigService.getBusinessHours.
Proof.
  unfold ConfigService.getBusinessHours.
  apply frames_try_catch; [|intros; apply frames_ret].
  apply frames_bind; [apply frames_getConfig | intros config].
  cbv zeta. destruct (js_or _ _); auto with frames.
Qed.

Lemma frames_getGreetings : frames ConfigService.getGreetings.
Proof.
  unfold ConfigService.getGreetings.
  apply frames_bind; [apply frames_getConfig | intros; apply frames_ret].
Qed.

Lemma frames_getFooterMessage : frames ConfigService.getFooterMessage.
Proof.
  unfold ConfigService.getFooterMessage.
  apply frames_bind; [apply frames_getConfig | intros; apply frames_ret].
Qed.

Lemma frames_getMenuConfig : frames MenuService.getMenuConfig.
Proof. unfold MenuService.getMenuConfig. frames. Qed.

Lemma frames_getMenu : frames MenuService.getMenu.
Proof.
  unfold MenuService.getMenu, MenuService.getGreeting, MenuService.getFooter.
  apply frames_try_catch; [|intros; frames].
  apply frames_bind; [apply frames_getMenuConfig | intros menuConfig].
  apply frames_bind; [apply frames_get_world | intros w0]. cbv zeta.
  apply frames_bind; [apply frames_getBusinessHours | intros bh].
  apply frames_bind;
    [apply frames_bind; [apply frames_getGreetings | intros; apply frames_ret]
    | intros greeting].
  apply frames_bind; [apply frames_getFooterMessage | intros footer].
  apply frames_bind; [apply frames_logInteraction | intros; apply frames_ret].
Qed.

End ServiceFrames.

(** ** The menu is always served (menuService.gs, [getMenu]) *)

Section MenuAlways.
Context {host : Host} {ai : AIGateway}.

Lemma bind_ret {A B} (m : M A) (k : A -> M B) w a w1 :
  m w = (Ret a, w1) -> bind m k w = k a w1.
Proof. intros E. munfold. by rewrite E. Qed.

Lemma getMenuConfig_never_throws : never_throws MenuService.getMenuConfig.
Proof.
  unfold MenuService.getMenuConfig. apply never_throws_try_catch.
  intros e. apply never_throws_ret.
Qed.

Lemma getBusinessHours_never_throws : never_throws ConfigService.getBusinessHours.
Proof.
  unfold ConfigService.getBusinessHours. apply never_throws_try_catch.
  intros e. apply never_throws_ret.
Qed.

Lemma getGreeting_never_throws (b : bool) : never_throws (MenuService.getGreeting b).
Proof.
  unfold MenuService.getGreeting, ConfigService.getGreetings.
  apply never_throws_bind; [|intros; apply never_throws_ret].
  apply never_throws_bind; [apply getConfig_never_throws | intros; apply never_throws_ret].
Qed.

Lemma getFooter_never_throws : never_throws MenuService.getFooter.
Proof.
  unfold MenuService.getFooter, ConfigService.getFooterMessage.
  apply never_throws_bind; [apply getConfig_never_throws | intros; apply never_throws_ret].
Qed.

Lemma logInteraction_never_throws (t : jsstring) (s d : jsval) :
  never_throws (LoggingService.logInteraction t s d).
Proof.
  intros w. destruct (logInteraction_frame t s d w) as (w1 & E & _). by exists tt, w1.
Qed.

(** The body of [getMenu] returns: its handler is never entered. *)
Lemma getMenu_succeeds w :
  exists menuConfig bh greeting footer w1,
    MenuService.getMenu w
    = (Ret (obj [(js "success", JBool true);
                 (js "timestamp", JStr (toISOString (now w)));
                 (js "businessHours",
                  JBool (MenuService.isWithinBusinessHours (localTime (now w)) bh));
                 (js "greeting", greeting);
                 (js "options",
                  JArr (List.map MenuService.option_obj
                          (List.filter MenuService.active menuConfig)));
                 (js "footer", footer)]), w1)
    /\ same_outside_sheets w w1
    /\ exists w0, MenuService.getMenuConfig w = (Ret menuConfig, w0).
Proof.
  destruct (getMenuConfig_never_throws w) as (menuConfig & w0 & E0).
  pose proof (frames_getMenuConfig _ _ _ E0) as (_ & Hnow & _).
  destruct (getBusinessHours_never_throws w0) as (bh & w2 & E2).
  destruct (getGreeting_never_throws
              (MenuService.isWithinBusinessHours (localTime (now w0)) bh) w2)
    as (greeting & w3 & E3).
  destruct (getFooter_never_throws w3) as (footer & w4 & E4).
  match type of E0 with _ = (Ret ?mc, _) => set (menu :=
    obj [(js "success", JBool true);
         (js "timestamp", JStr (toISOString (now w0)));
         (js "businessHours",
          JBool (MenuService.isWithinBusinessHours (localTime (now w0)) bh));
         (js "greeting", greeting);
         (js "options",
          JArr (List.map MenuService.option_obj (List.filter MenuService.active mc)));
         (js "footer", footer)]) end.
  destruct (logInteraction_never_throws (js "menu_display") JNull menu w4)
    as ([] & w5 & E5).
  exists menuConfig, bh, greeting, footer, w5.
  assert (E : MenuService.getMenu w = (Ret menu, w5)).
  { unfold MenuService.getMenu.
    rewrite (try_catch_bind_ret _ _ _ w menuConfig w0 E0).
    rewrite (try_catch_bind_ret get_world _ _ w0 w0 w0 eq_refl). cbv zeta.
    rewrite (try_catch_bind_ret _ _ _ w0 bh w2 E2).
    rewrite (try_catch_bind_ret _ _ _ w2 greeting w3 E3).
    rewrite (try_catch_bind_ret _ _ _ w3 footer w4 E4).
    fold menu.
    rewrite (try_catch_bind_ret _ _ _ w4 tt w5 E5). reflexivity. }
  split; [subst menu; by rewrite <- Hnow|].
  split; [exact (frames_getMenu _ _ _ E) | by exists w0].
Qed.

Lemma getConfig_closed w :
  cache_stale w -> sink_closed w ->
  ConfigService.getConfig w = (Ret ConfigService.getDefaultConfig, w).
Proof.
  intros Hs Hc. unfold ConfigService.getConfig. munfold.
  rewrite (cache_stale_spec w Hs).
  destruct (getSheet_closed CONFIG.SETTINGS_SHEET w Hc) as [e ->]. reflexivity.
Qed.

Lemma logInteraction_closed (t : jsstring) (s d : jsval) w :
  sink_closed w -> LoggingService.logInteraction t s d w = (Ret tt, w).
Proof.
  intros Hc. unfold LoggingService.logInteraction. munfold.
  destruct (nullish d); [done|].
  match goal with |- context [SheetsService.appendData ?n ?r w] =>
    destruct (appendData_closed n r w Hc) as [e ->] end.
  reflexivity.
Qed.

End MenuAlways.

(** X18.  [getMenu] never throws and never reports a failure: its reply
    always has [success: true] and the timestamp of the request, and the
    options are the active rows of the loaded menu.  When the
    spreadsheet cannot be reached (and no configuration is cached) the
    reply is still a success, with no option at all, and nothing is
    changed or logged. *)
Theorem getMenu_never_reports_failure {host : Host} (w : World) :
  exists r w1,
    MenuService.getMenu w = (Ret r, w1)
    /\ same_outside_sheets w w1
    /\ prop r (js "success") = JBool true
    /\ prop r (js "timestamp") = JStr (toISOString (now w))
    /\ (exists menuConfig w0,
          MenuService.getMenuConfig w = (Ret menuConfig, w0)
          /\ prop r (js "options")
             = JArr (List.map MenuService.option_obj
                       (List.filter MenuService.active menuConfig)))
    /\ (sink_closed w -> cache_stale w -> prop r (js "options") = JArr [] /\ w1 = w).
Proof.
  destruct (getMenu_succeeds w) as (mc & bh & g & f & w1 & E & Hf & w0 & Hmc).
  eexists _, w1. split; [exact E|]. split; [exact Hf|].
  split; [reflexivity|]. split; [reflexivity|].
  split; [exists mc, w0; split; [exact Hmc | reflexivity]|].
  intros Hc Hs.
  assert (Hmc0 : MenuService.getMenuConfig w = (Ret [], w)).
  { unfold MenuService.getMenuConfig. munfold.
    destruct (getSheet_closed CONFIG.MENU_SHEET w Hc) as [e ->]. reflexivity. }
  rewrite Hmc0 in Hmc. injection Hmc as <- <-.
  split; [reflexivity|].
  revert E. unfold MenuService.getMenu.
  rewrite (try_catch_bind_ret _ _ _ w [] w Hmc0).
  rewrite (try_catch_bind_ret get_world _ _ w w w eq_refl). cbv zeta.
  assert (Hbh : exists bh0, ConfigService.getBusinessHours w = (Ret bh0, w)).
  { unfold ConfigService.getBusinessHours.
    rewrite (try_catch_bind_ret _ _ _ w _ w (getConfig_closed w Hs Hc)).
    cbv zeta. munfold. destruct (js_or _ _); by eexists. }
  destruct Hbh as [bh0 Hbh]. rewrite (try_catch_bind_ret _ _ _ w bh0 w Hbh).
  assert (Hg : forall b, exists g0, MenuService.getGreeting b w = (Ret g0, w)).
  { intros b. unfold MenuService.getGreeting, ConfigService.getGreetings.
    rewrite (bind_ret _ _ w _ w
               (bind_ret _ _ w _ w (getConfig_closed w Hs Hc))).
    by eexists. }
  destruct (Hg (MenuService.isWithinBusinessHours (localTime (now w)) bh0)) as [g0 Hg0].
  rewrite (try_catch_bind_ret _ _ _ w g0 w Hg0).
  assert (Hfo : exists f0, MenuService.getFooter w = (Ret f0, w)).
  { unfold MenuService.getFooter, ConfigService.getFooterMessage.
    rewrite (bind_ret _ _ w _ w (getConfig_closed w Hs Hc)). by eexists. }
  destruct Hfo as [f0 Hfo]. rewrite (try_catch_bind_ret _ _ _ w f0 w Hfo).
  rewrite (try_catch_bind_ret _ _ _ w tt w (logInteraction_closed _ _ _ w Hc)).
  by intros [= _ <-].
Qed.

(** ** Routing of chat messages (chat service, [processMessage]) *)

(** The lower-cased message contains one of the four menu words. *)
Definition menu_word (lowerMessage : jsstring) : bool :=
  includes lowerMessage (js "menú") || includes lowerMessage (js "menu")
  || includes lowerMessage (js "opciones") || includes lowerMessage (js "ayuda").

(** The reply of the [catch] block of [processMessage]. *)
Definition chatError {host : Host} (w : World) : jsval :=
  obj [(js "success", JBool false);
       (js "message",
        JStr (js "Lo siento, ocurrió un error procesando tu mensaje. ¿Podrías intentar nuevamente?"));
       (js "showMenu", JBool true);
       (js "timestamp", JStr (toISOString (now w)))].

(** What [updateSessionContext] stores for a session without context. *)
Definition sessionRecord {host : Host} (message response : jsval) (w : World) : jsstring :=
  JSON_stringify
    (obj [(js "lastMessage", message); (js "lastResponse", response);
          (js "timestamp", JStr (toISOString (now w)))]).

Section ChatRouting.
Context {host : Host} {ai : AIGateway}.

Lemma starts_with_app (a b s : jsstring) :
  starts_with (a ++ b) s = true -> starts_with a s = true.
Proof.
  revert s. induction a as [|x a IH]; intros s; [done|].
  destruct s as [|y s]; cbn; [done|].
  intros H. apply andb_prop in H as [-> H]. by apply IH.
Qed.

Lemma includes_app (s a b : jsstring) :
  includes s (a ++ b) = true -> includes s a = true.
Proof.
  induction s as [|y s IH]; cbn; intros H.
  - rewrite orb_false_r in H |- *. by apply starts_with_app in H.
  - apply orb_prop in H as [H|H].
    + by rewrite (starts_with_app _ _ _ H).
    + rewrite (IH H). by rewrite orb_true_r.
Qed.

(** 'ayuda directa' is one of the escalation words, but every message
    that contains it contains the menu word 'ayuda'. *)
Lemma ayuda_directa_is_a_menu_word (lowerMessage : jsstring) :
  includes lowerMessage (js "ayuda directa") = true -> menu_word lowerMessage = true.
Proof.
  intros H. unfold menu_word.
  assert (E : js "ayuda directa" = js "ayuda" ++ js " directa") by (vm_compute; reflexivity).
  rewrite E in H. apply includes_app in H. rewrite H. by rewrite !orb_true_r.
Qed.

Lemma strategy_menu (m : jsstring) (context : jsval) w :
  menu_word (toLowerCase m) = true ->
  ChatService.determineResponseStrategy (JStr m) context w = (Ret menu_request, w).
Proof.
  intros H. unfold ChatService.determineResponseStrategy. unfold menu_word in H.
  by rewrite H.
Qed.

Lemma strategy_throws (m : jsstring) (context : jsval) w :
  menu_word (toLowerCase m) = false ->
  ChatService.containsOrderKeywords (toLowerCase m)
  || ChatService.containsProductKeywords (toLowerCase m) = true ->
  exists e, ChatService.determineResponseStrategy (JStr m) context w = (Throw e, w).
Proof.
  intros Hm Hk. unfold ChatService.determineResponseStrategy. unfold menu_word in Hm.
  rewrite Hm. destruct (ChatService.containsOrderKeywords _); [by eexists|].
  cbn [orb] in Hk. rewrite Hk. by eexists.
Qed.

Lemma getSessionContext_steady (sessionId : jsval) :
  steady (ChatService.getSessionContext sessionId).
Proof. unfold ChatService.getSessionContext. steady. Qed.

Lemma getSessionContext_new (sessionId : jsval) w :
  present (properties w !! ChatService.sessionKey sessionId) = false ->
  ChatService.getSessionContext sessionId w = (Ret (JObj []), w).
Proof.
  intros H. unfold ChatService.getSessionContext, getProperty. munfold. by rewrite H.
Qed.

Lemma updateSessionContext_new (sessionId message response : jsval) w :
  present (properties w !! ChatService.sessionKey sessionId) = false ->
  ChatService.updateSessionContext sessionId
    (obj [(js "lastMessage", message); (js "lastResponse", response);
          (js "timestamp", JStr (toISOString (now w)))]) w
  = (Ret tt,
     with_properties
       (insert (ChatService.sessionKey sessionId) (sessionRecord message response w)) w).
Proof.
  intros H. unfold ChatService.updateSessionContext.
  rewrite (bind_ret _ _ w _ w (getSessionContext_new sessionId w H)).
  reflexivity.
Qed.

(** The handler of [processMessage]. *)
Lemma chat_handler (e : exn) (context : jsval) w :
  nullish context = false -> context <> JUndefined ->
  exists w1,
    (LoggingService.logError (js "processMessage") e context ;;
     let* w0 := get_world in ret (chatError w0)) w
    = (Ret (chatError w), w1)
    /\ same_outside_sheets w w1
    /\ (logs_ready w ->
        log_rows w1 = log_rows w ++ [errorRow (js "processMessage") e context w]).
Proof.
  intros Hn Hu.
  destruct (logError_frame (js "processMessage") e context w) as (w1 & E & Hf).
  exists w1. split.
  { munfold. rewrite E. unfold chatError. destruct Hf as (_ & -> & _). reflexivity. }
  split; [exact Hf|]. intros Hr.
  rewrite (logError_ready _ e context w Hr Hn Hu) in E. injection E as <-.
  by rewrite log_rows_append.
Qed.

End ChatRouting.

(** X19.  A message that contains one of the order words (pedido, orden,
    compra, envío, seguimiento, rastreo, entrega) or product words
    (producto, artículo, disponibilidad, precio, stock, característica)
    and no menu word is never answered by the order or product handler:
    [determineResponseStrategy] calls a method the chat service does not
    define, so [processMessage] returns its error reply.  Whatever the AI
    gateway is, no HTTP request is made, the session context is not
    updated, and one error row for 'processMessage' is appended when the
    log can be written. *)
Theorem order_and_product_words_get_the_error_reply {host : Host} {ai : AIGateway}
  (m : jsstring) (sessionId : jsval) (w : World) :
  menu_word (toLowerCase m) = false ->
  ChatService.containsOrderKeywords (toLowerCase m)
  || ChatService.containsProductKeywords (toLowerCase m) = true ->
  exists w1,
    ChatService.processMessage (JStr m) sessionId w = (Ret (chatError w), w1)
    /\ prop (chatError w) (js "success") = JBool false
    /\ properties w1 = properties w /\ fetched w1 = fetched w
    /\ (logs_ready w ->
        exists row,
          log_rows w1 = log_rows w ++ [row]
          /\ cell row 2 = JStr (js "error") /\ cell row 3 = JStr (js "processMessage")).
Proof.
  intros Hm Hk.
  destruct (chat_handler (TypeError []) (obj [(js "message", JStr m);
                                               (js "sessionId", sessionId)]) w)
    as (_ & _ & _ & _); [done | done |].
  assert (Hbody : exists e,
    (let* sessionContext := ChatService.getSessionContext sessionId in
     ChatService.determineResponseStrategy (JStr m) sessionContext) w = (Throw e, w)).
  { munfold. destruct (getSessionContext_steady sessionId w) as [[c|e] ->].
    - apply (strategy_throws m c w Hm Hk).
    - by eexists. }
  destruct Hbody as [e Hbody].
  destruct (chat_handler e (obj [(js "message", JStr m); (js "sessionId", sessionId)]) w)
    as (w1 & E & (Hp & _ & Hf & _) & Hlog); [done | done |].
  exists w1. split.
  { unfold ChatService.processMessage. revert Hbody E. munfold.
    destruct (ChatService.getSessionContext sessionId w) as [[c|e0] w0].
    - destruct (ChatService.determineResponseStrategy (JStr m) c w0) as [[s|e1] w2];
        [done|]. by intros [= -> ->].
    - by intros [= -> ->]. }
  split; [reflexivity|]. split; [exact Hp|]. split; [exact Hf|].
  intros Hr. eexists. split; [by apply Hlog|]. by split.
Qed.

(** 'estado de mi pedido' on the sample system, with a gateway that answers. *)
Lemma order_and_product_words_get_the_error_reply_witness :
  exists w1,
    @ChatService.processMessage Demo.host Demo.canned
      (JStr (js "Estado de mi PEDIDO")) (JStr (js "s1")) Demo.ready
    = (Ret (@chatError Demo.host Demo.ready), w1)
    /\ fetched w1 = fetched Demo.ready.
Proof.
  destruct (@order_and_product_words_get_the_error_reply Demo.host Demo.canned
              (js "Estado de mi PEDIDO") (JStr (js "s1")) Demo.ready)
    as (w1 & E & _ & _ & Hf & _).
  - vm_compute. reflexivity.
  - vm_compute. reflexivity.
  - exists w1. split; [exact E | exact Hf].
Defined.

(** X20.  A message that contains menu, menú, opciones or ayuda, in any
    letter case, is answered with the menu, whatever else it says: in
    particular a message asking for 'ayuda directa', one of the
    escalation words, gets the menu and not an agent.  For a session
    without stored context the reply is the one [getMenu] gives, no HTTP
    request is made, and the session key then holds the message and the
    reply. *)
Theorem menu_words_win {host : Host} {ai : AIGateway}
  (m : jsstring) (sessionId : jsval) (w : World) :
  (includes (toLowerCase m) (js "ayuda directa") = true ->
   menu_word (toLowerCase m) = true)
  /\ (menu_word (toLowerCase m) = true ->
      present (properties w !! ChatService.sessionKey sessionId) = false ->
      exists r w1 w2,
        MenuService.getMenu w = (Ret r, w1)
        /\ ChatService.processMessage (JStr m) sessionId w = (Ret r, w2)
        /\ prop r (js "success") = JBool true
        /\ properties w2
           = <[ChatService.sessionKey sessionId := sessionRecord (JStr m) r w]>
               (properties w)
        /\ fetched w2 = fetched w).
Proof.
  split; [apply ayuda_directa_is_a_menu_word|].
  intros Hm Hnew.
  destruct (getMenu_succeeds w) as (mc & bh & g & f & w1 & E & (Hp & Hn & Hf & _) & _).
  assert (Hnew1 : present (properties w1 !! ChatService.sessionKey sessionId) = false)
    by (by rewrite Hp).
  match type of E with _ = (Ret ?r0, _) => set (r := r0) in * end.
  set (w1' := with_properties
                (insert (ChatService.sessionKey sessionId) (sessionRecord (JStr m) r w1))
                w1).
  destruct (logInteraction_frame (js "chat_message") sessionId
              (obj [(js "userMessage", JStr m);
                    (js "responseType", JStr (strategy_type menu_request));
                    (js "botResponse", r)]) w1')
    as (w2 & El & (Hp2 & _ & Hf2 & _)).
  assert (Hrec : sessionRecord (JStr m) r w1 = sessionRecord (JStr m) r w)
    by (unfold sessionRecord; by rewrite Hn).
  exists r, w1, w2. split; [exact E|].
  split; [|split; [reflexivity|split]].
  - unfold ChatService.processMessage.
    rewrite (try_catch_bind_ret _ _ _ w _ w (getSessionContext_new sessionId w Hnew)).
    rewrite (try_catch_bind_ret _ _ _ w _ w (strategy_menu m (JObj []) w Hm)).
    cbv iota.
    rewrite (try_catch_bind_ret _ _ _ w r w1 E).
    rewrite (try_catch_bind_ret get_world _ _ w1 w1 w1 eq_refl).
    rewrite (try_catch_bind_ret _ _ _ w1 tt w1'
               (updateSessionContext_new sessionId (JStr m) r w1 Hnew1)).
    rewrite (try_catch_bind_ret _ _ _ w1' tt w2 El). reflexivity.
  - rewrite Hp2. subst w1'. cbn [properties with_properties]. by rewrite Hrec, Hp.
  - rewrite Hf2. subst w1'. cbn [fetched with_properties]. exact Hf.
Qed.

(** 'Necesito AYUDA directa' on the sample system. *)
Lemma menu_words_win_witness :
  exists r w1 w2,
    @MenuService.getMenu Demo.host Demo.ready = (Ret r, w1)
    /\ @ChatService.processMessage Demo.host Demo.canned
         (JStr (js "Necesito AYUDA directa")) (JStr (js "s1")) Demo.ready = (Ret r, w2).
Proof.
  destruct (@menu_words_win Demo.host Demo.canned (js "Necesito AYUDA directa")
              (JStr (js "s1")) Demo.ready) as [Hdead Hmenu].
  destruct Hmenu as (r & w1 & w2 & E1 & E2 & _).
  - apply Hdead. vm_compute. reflexivity.
  - vm_compute. reflexivity.
  - exists r, w1, w2. split; [exact E1 | exact E2].
Defined.

(** The context [handleGeneralAI] hands to the gateway. *)
Definition generalContext (message : jsval) : jsval :=
  obj [(js "userQuery", message);
       (js "context",
        JStr (js "Conversación general de atención al cliente. Mantén un tono amigable y profesional."));
       (js "maxTokens", JNum 400)].

(** The reply of [handleDefault]. *)
Definition defaultReply {host : Host} (w : World) : jsval :=
  obj [(js "success", JBool true);
       (js "type", JStr (js "default"));
       (js "message",
        JStr (js "Entiendo tu consulta. ¿Te gustaría ver el menú de opciones disponibles o prefieres que te conecte con un agente humano?"));
       (js "showMenu", JBool true);
       (js "timestamp", JStr (toISOString (now w)))].

(** The reply of [handleGeneralAI] to an answer of the gateway. *)
Definition aiChatReply {host : Host} (aiResponse : jsval) (w : World) : jsval :=
  obj [(js "success", JBool true);
       (js "type", JStr (js "ai_chat"));
       (js "message", prop aiResponse (js "content"));
       (js "showMenu", JBool true);
       (js "timestamp", JStr (toISOString (now w)))].

Section GeneralChat.
Context {host : Host} {ai : AIGateway}.

Lemma strategy_general (m : jsstring) (context : jsval) w :
  menu_word (toLowerCase m) = false ->
  ChatService.containsOrderKeywords (toLowerCase m) = false ->
  ChatService.containsProductKeywords (toLowerCase m) = false ->
  ChatService.containsEscalationKeywords (toLowerCase m) = false ->
  ChatService.determineResponseStrategy (JStr m) context w
  = (Ret (general_ai (obj [(js "userMessage", JStr m); (js "sessionContext", context)])),
     w).
Proof.
  intros Hm Ho Hp He. unfold ChatService.determineResponseStrategy.
  unfold menu_word in Hm. by rewrite Hm, Ho, Hp, He.
Qed.

(** The tail of [processMessage] after the reply is known, for a session
    without stored context. *)
Lemma chat_tail (m : jsstring) (sessionId reply : jsval) (strategy : Strategy) w
  (handler : exn -> M jsval) :
  present (properties w !! ChatService.sessionKey sessionId) = false ->
  exists w2,
    try_catch
      (let* w0 := get_world in
       ChatService.updateSessionContext sessionId
         (obj [(js "lastMessage", JStr m); (js "lastResponse", reply);
               (js "timestamp", JStr (toISOString (now w0)))]) ;;
       LoggingService.logInteraction (js "chat_message") sessionId
         (obj [(js "userMessage", JStr m);
               (js "responseType", JStr (strategy_type strategy));
               (js "botResponse", reply)]) ;;
       ret reply) handler w
    = (Ret reply, w2)
    /\ properties w2
       = <[ChatService.sessionKey sessionId := sessionRecord (JStr m) reply w]>
           (properties w)
    /\ fetched w2 = fetched w.
Proof.
  intros Hnew.
  set (w' := with_properties
               (insert (ChatService.sessionKey sessionId) (sessionRecord (JStr m) reply w))
               w).
  destruct (logInteraction_frame (js "chat_message") sessionId
              (obj [(js "userMessage", JStr m);
                    (js "responseType", JStr (strategy_type strategy));
                    (js "botResponse", reply)]) w')
    as (w2 & El & (Hp2 & _ & Hf2 & _)).
  exists w2. split; [|split; [by rewrite Hp2 | by rewrite Hf2]].
  rewrite (try_catch_bind_ret get_world _ _ w w w eq_refl).
  rewrite (try_catch_bind_ret _ _ _ w tt w'
             (updateSessionContext_new sessionId (JStr m) reply w Hnew)).
  rewrite (try_catch_bind_ret _ _ _ w' tt w2 El). reflexivity.
Qed.

Lemma handleGeneralAI_result (m : jsstring) (sessionId context : jsval) w w1
  (answer : outcome jsval) :
  ai_generateResponse (JStr CONFIG.GEMINI) (generalContext (JStr m)) w = (answer, w1) ->
  ChatService.handleGeneralAI (JStr m) sessionId context w
  = match answer with
    | Throw e => (Throw e, w1)
    | Ret r =>
        if nullish r then (Throw (TypeError (js "reading property of " ++ ToString r)), w1)
        else (Ret (if truthy (prop r (js "success")) then aiChatReply r w1
                   else defaultReply w1), w1)
    end.
Proof.
  intros Hg. unfold ChatService.handleGeneralAI. fold (generalContext (JStr m)).
  unfold member. munfold. rewrite Hg. destruct answer as [r|e]; [|done].
  destruct (nullish r); [done|]. by destruct (truthy (prop r (js "success"))).
Qed.

End GeneralChat.

(** X21.  A message of Latin-1 characters without menu, order, product
    or escalation word, in a session without stored context, goes to the
    AI gateway with the general context.  When the gateway answers with success, the reply is
    of type 'ai_chat' with the gateway's text; when it reports a failure,
    the user gets the default reply, which has [success: true] and does
    not mention the failure; in both cases the session key then holds the
    message and the reply.  When the gateway throws, the user gets the
    error reply of [processMessage]. *)
Theorem failed_ai_chat_gets_the_default_reply {host : Host} {ai : AIGateway}
  (m : jsstring) (sessionId : jsval) (w w1 : World) (answer : outcome jsval) :
  latin1 m = true ->
  menu_word (toLowerCase m) = false ->
  ChatService.containsOrderKeywords (toLowerCase m) = false ->
  ChatService.containsProductKeywords (toLowerCase m) = false ->
  ChatService.containsEscalationKeywords (toLowerCase m) = false ->
  present (properties w !! ChatService.sessionKey sessionId) = false ->
  ai_generateResponse (JStr CONFIG.GEMINI) (generalContext (JStr m)) w = (answer, w1) ->
  present (properties w1 !! ChatService.sessionKey sessionId) = false ->
  exists w2,
    match answer with
    | Throw e => ChatService.processMessage (JStr m) sessionId w = (Ret (chatError w1), w2)
    | Ret r =>
        nullish r = false ->
        let reply := if truthy (prop r (js "success")) then aiChatReply r w1
                     else defaultReply w1 in
        ChatService.processMessage (JStr m) sessionId w = (Ret reply, w2)
        /\ prop reply (js "success") = JBool true
        /\ properties w2
           = <[ChatService.sessionKey sessionId := sessionRecord (JStr m) reply w1]>
               (properties w1)
    end.
Proof.
  intros _ Hm Ho Hp He Hnew Hg Hnew1.
  pose proof (handleGeneralAI_result m sessionId
                (obj [(js "userMessage", JStr m); (js "sessionContext", JObj [])])
                w w1 answer Hg) as Hh.
  unfold ChatService.processMessage.
  rewrite (try_catch_bind_ret _ _ _ w _ w (getSessionContext_new sessionId w Hnew)).
  rewrite (try_catch_bind_ret _ _ _ w _ w (strategy_general m (JObj []) w Hm Ho Hp He)).
  cbv iota.
  destruct answer as [r|e].
  - destruct (nullish r) eqn:En; [by exists w|].
    set (reply := if truthy (prop r (js "success")) then aiChatReply r w1
                  else defaultReply w1) in *.
    rewrite (try_catch_bind_ret _ _ _ w reply w1 Hh).
    destruct (chat_tail m sessionId reply
                (general_ai (obj [(js "userMessage", JStr m);
                                  (js "sessionContext", JObj [])])) w1
                (fun error =>
                   LoggingService.logError (js "processMessage") error
                     (obj [(js "message", JStr m); (js "sessionId", sessionId)]) ;;
                   let* w0 := get_world in ret (chatError w0)) Hnew1)
      as (w2 & E & Hprops & _).
    exists w2. intros _. split; [exact E|]. split; [|exact Hprops].
    subst reply. by destruct (truthy (prop r (js "success"))).
  - destruct (chat_handler e (obj [(js "message", JStr m); (js "sessionId", sessionId)]) w1)
      as (w2 & E & _); [done | done |].
    exists w2. rewrite (try_catch_bind_throw _ _ _ w e w1 Hh). exact E.
Qed.

(** 'hola, buenos días' on the sample system, where no API key is set. *)
Lemma failed_ai_chat_gets_the_default_reply_witness :
  exists w1 w2,
    @ChatService.processMessage Demo.host (@deployed Demo.host)
      (JStr (js "hola, buenos días")) (JStr (js "s1")) Demo.ready
    = (Ret (@defaultReply Demo.host w1), w2).
Proof.
  destruct (@AIService.generateResponse Demo.host (JStr CONFIG.GEMINI)
              (generalContext (JStr (js "hola, buenos días"))) Demo.ready)
    as [answer w1] eqn:Hg.
  assert (Ha : answer
               = Ret (AIService.failure
                        (js "Gemini API error: Gemini API key not configured")
                        (JStr (js "gemini"))) /\ w1 = Demo.ready).
  { assert (H : @AIService.generateResponse Demo.host (JStr CONFIG.GEMINI)
                  (generalContext (JStr (js "hola, buenos días"))) Demo.ready
                = (Ret (AIService.failure
                          (js "Gemini API error: Gemini API key not configured")
                          (JStr (js "gemini"))), Demo.ready))
      by (vm_compute; reflexivity).
    rewrite H in Hg. by injection Hg as <- <-. }
  destruct Ha as [-> ->].
  destruct (@failed_ai_chat_gets_the_default_reply Demo.host (@deployed Demo.host)
              (js "hola, buenos días") (JStr (js "s1")) Demo.ready Demo.ready
              (Ret (AIService.failure
                      (js "Gemini API error: Gemini API key not configured")
                      (JStr (js "gemini")))))
    as (w2 & H).
  - vm_compute. reflexivity.
  - vm_compute. reflexivity.
  - vm_compute. reflexivity.
  - vm_compute. reflexivity.
  - vm_compute. reflexivity.
  - vm_compute. reflexivity.
  - exact Hg.
  - vm_compute. reflexivity.
  - exists Demo.ready, w2. destruct (H eq_refl) as (E & _). exact E.
Defined.

(** ** The first request ([main.gs], [initializeSystem]) *)

(** The world once the system is initialised: the three sheets exist and
    the flag is set. *)
Definition initialised (w : World) : World :=
  with_properties (insert (js "SYSTEM_INITIALIZED") (js "true"))
    (ensure CONFIG.SETTINGS_SHEET
       (ensure CONFIG.LOGS_SHEET (ensure CONFIG.MENU_SHEET w))).

Section FirstRequest.
Context {host : Host} {ai : AIGateway}.

Lemma logError_closed (operation : jsstring) (error : exn) (context : jsval) w :
  sink_closed w -> LoggingService.logError operation error context w = (Ret tt, w).
Proof.
  intros Hc. unfold LoggingService.logError. munfold.
  destruct (nullish _); [done|].
  match goal with |- context [SheetsService.appendData ?n ?r w] =>
    destruct (appendData_closed n r w Hc) as [e ->] end.
  reflexivity.
Qed.

Lemma isSystemInitialized_spec w :
  isSystemInitialized w
  = (Ret (bool_decide (properties w !! js "SYSTEM_INITIALIZED" = Some (js "true"))), w).
Proof. reflexivity. Qed.

Lemma initializeSystem_open w :
  sink_open w -> initializeSystem w = (Ret tt, initialised w).
Proof.
  intros Ho. unfold initializeSystem, ConfigService.initializeConfig, setProperty.
  munfold. rewrite (initializeSheets_open w Ho).
  set (w' := ensure CONFIG.SETTINGS_SHEET
               (ensure CONFIG.LOGS_SHEET (ensure CONFIG.MENU_SHEET w))).
  assert (Ho' : sink_open w') by (by apply ensure_open, ensure_open, ensure_open).
  rewrite (getSheet_open CONFIG.SETTINGS_SHEET w' Ho').
  subst w'. rewrite ensure_again. reflexivity.
Qed.

Lemma initializeSystem_closed w :
  sink_closed w -> exists e, initializeSystem w = (Throw e, w).
Proof.
  intros Hc. unfold initializeSystem, SheetsService.initializeSheets. munfold.
  destruct (getSheet_closed CONFIG.MENU_SHEET w Hc) as [e ->]. by eexists.
Qed.

End FirstRequest.

(** X22.  On a script that is not yet marked initialised: with a
    reachable spreadsheet, a request creates the missing sheets, sets the
    flag SYSTEM_INITIALIZED and is then answered exactly as the same
    request on the initialised script, where initialisation is skipped;
    with an unreachable spreadsheet every request, whatever its action,
    gets the error envelope, nothing is changed, and the script stays
    uninitialised, so that the next request tries again. *)
Theorem first_request_initialises {host : Host} {ai : AIGateway}
  (params : jsval) (w : World) :
  properties w !! js "SYSTEM_INITIALIZED" <> Some (js "true") ->
  (sink_open w ->
   handleChatbotRequest params w = handleChatbotRequest params (initialised w)
   /\ isSystemInitialized (initialised w) = (Ret true, initialised w))
  /\ (sink_closed w ->
      handleChatbotRequest params w = (Ret (errorEnvelope w), w)
      /\ isSystemInitialized w = (Ret false, w)).
Proof.
  intros Hflag.
  assert (H0 : isSystemInitialized w = (Ret false, w)).
  { rewrite isSystemInitialized_spec. by rewrite bool_decide_eq_false_2. }
  split.
  - intros Ho.
    assert (H1 : isSystemInitialized (initialised w) = (Ret true, initialised w)).
    { rewrite isSystemInitialized_spec. rewrite bool_decide_eq_true_2; [done|].
      unfold initialised. cbn [properties with_properties]. apply lookup_insert_eq. }
    split; [|exact H1].
    unfold handleChatbotRequest, dispatch.
    rewrite (try_catch_bind_ret _ _ _ w false w H0). cbn [negb].
    rewrite (try_catch_bind_ret _ _ _ w tt (initialised w) (initializeSystem_open w Ho)).
    rewrite (try_catch_bind_ret _ _ _ (initialised w) true (initialised w) H1).
    cbn [negb].
    by rewrite (try_catch_bind_ret (ret tt) _ _ (initialised w) tt (initialised w) eq_refl).
  - intros Hc. split; [|exact H0].
    destruct (initializeSystem_closed w Hc) as [e He].
    unfold handleChatbotRequest, dispatch.
    rewrite (try_catch_bind_ret _ _ _ w false w H0). cbn [negb].
    rewrite (try_catch_bind_throw _ _ _ w e w He).
    rewrite (bind_ret _ _ w tt w (logError_closed _ e _ w Hc)). reflexivity.
Qed.

(** The statement at a newly deployed script. *)
Lemma first_request_initialises_witness :
  @handleChatbotRequest Demo.host Demo.broken JUndefined Demo.fresh
  = @handleChatbotRequest Demo.host Demo.broken JUndefined (initialised Demo.fresh)
  /\ isSystemInitialized (initialised Demo.fresh) = (Ret true, initialised Demo.fresh).
Proof.
  refine (proj1 (@first_request_initialises Demo.host Demo.broken JUndefined Demo.fresh _) _).
  - vm_compute. discriminate.
  - split; vm_compute; reflexivity.
Defined.

(** ** Messages with nothing to mask ([loggingService.gs], [sanitizeMessage]) *)

Section PlainText.
Import LoggingService.

(** A pattern whose first quantifier takes a code unit of a class that
    does not occur in the text matches nowhere in it. *)
Lemma free_without_first_class (c : N -> bool) lo hi inner prev (t : jsstring) :
  (forall x, x ∈ t -> c x = false) ->
  free_from (WordB :: Rep c (S lo) hi :: inner) prev t.
Proof.
  intros Hno pre rest ->.
  destruct (match_at _ _ rest) as [n|] eqn:E; [exfalso|done].
  apply exec_sound in E as (k & _ & _ & j & Hlo & _ & Hlen & Hall & _).
  destruct rest as [|x rest]; [cbn in Hlen; lia|].
  destruct j as [|j]; [lia|]. cbn in Hall. apply andb_prop in Hall as [Hx _].
  rewrite Hno in Hx; [done|]. apply elem_of_app. right. by left.
Qed.

(** An email-like text holds the sign [@]. *)
Lemma free_without_at prev (t : jsstring) :
  64%N ∉ t -> free_from email_re prev t.
Proof.
  intros Hno pre rest ->.
  destruct (match_at _ _ rest) as [n|] eqn:E; [exfalso|done].
  apply exec_sound in E as (k & _ & _ & j & _ & _ & _ & _ & _ & Hs).
  destruct Hs as (j' & Hlo & _ & Hlen & Hall & _).
  destruct (drop j rest) as [|x u] eqn:Ed; [cbn in Hlen; lia|].
  destruct j' as [|j']; [cbn in Hlo; lia|]. cbn in Hall.
  apply andb_prop in Hall as [Hx _].
  assert (x = 64%N) as ->.
  { assert (Hjs : js "@" = [64%N]) by (vm_compute; reflexivity).
    rewrite Hjs in Hx. unfold one_of in Hx. cbn [existsb] in Hx.
    rewrite orb_false_r in Hx. by apply N.eqb_eq in Hx. }
  apply Hno. apply elem_of_app. right.
  rewrite <- (take_drop j rest), Ed. apply elem_of_app. right. by left.
Qed.

Lemma mask_plain (m : jsstring) :
  (forall c, c ∈ m -> is_digit c = false /\ c <> 64%N) -> mask m = m.
Proof.
  intros H. unfold mask, replace_all.
  rewrite (replace_free card_re);
    [|apply free_without_first_class; intros x Hx; by apply H].
  rewrite (replace_free email_re);
    [|apply free_without_at; intros Hin; by apply H in Hin as [_ []]].
  rewrite (replace_free phone_re);
    [done|apply free_without_first_class; intros x Hx; by apply H].
Qed.

End PlainText.

(** X23.  A message in which neither a digit nor the sign [@] occurs has
    nothing the three patterns could match: it is logged as typed, cut
    to its first 500 code units. *)
Theorem plain_text_is_logged_as_typed (m : jsstring) :
  (forall c, c ∈ m -> is_digit c = false /\ c <> 64%N) ->
  LoggingService.mask m = m
  /\ LoggingService.sanitizeMessage (JStr m) = take 500 m.
Proof.
  intros H. split; [by apply mask_plain|].
  unfold LoggingService.sanitizeMessage, substring0. by rewrite mask_plain.
Qed.

Lemma plain_text_is_logged_as_typed_witness :
  LoggingService.mask (js "hola, quiero ayuda") = js "hola, quiero ayuda"
  /\ LoggingService.sanitizeMessage (JStr (js "hola, quiero ayuda"))
     = take 500 (js "hola, quiero ayuda").
Proof.
  apply (plain_text_is_logged_as_typed (js "hola, quiero ayuda")).
  intros c Hc. apply list_elem_of_In in Hc. vm_compute in Hc.
  repeat (destruct Hc as [<-|Hc]; [by vm_compute|]). done.
Defined.

(** ** Selections and the displayed menu ([menuService.gs], [processSelection]) *)

(** The reply to a selection that names no option. *)
Definition invalidSelection : jsval :=
  obj [(js "success", JBool false);
       (js "message", JStr (js "Selección inválida. Por favor elige una opción del menú."));
       (js "showMenu", JBool true)].

(** The reply of the handler of [processSelection]. *)
Definition selectionError : jsval :=
  obj [(js "success", JBool false);
       (js "message", JStr (js "Error procesando tu selección. Intenta nuevamente."));
       (js "showMenu", JBool true)].

Section Selections.
Context {host : Host} {ai : AIGateway}.

Lemma find_none {A} (f : A -> bool) (l : list A) :
  (forall x, x ∈ l -> f x = false) -> List.find f l = None.
Proof.
  induction l as [|x l IH]; intros H; cbn; [done|].
  rewrite (H x) by by left. apply IH. intros y Hy. apply H. by right.
Qed.

Lemma findOption_undisplayed (menuConfig : list MenuService.MenuOption)
  (selection : jsval) w :
  nullish selection = false ->
  Forall (fun o => ToString (MenuService.number o) <> ToString selection)
    (List.filter MenuService.active menuConfig) ->
  MenuService.findOption menuConfig selection w = (Ret None, w).
Proof.
  intros Hn Hall. unfold MenuService.findOption, toString_method.
  destruct menuConfig as [|o0 rest] eqn:Em; [done|]. rewrite <- Em in *. clear Em.
  rewrite Hn. munfold. rewrite find_none; [done|].
  intros o Ho. destruct (MenuService.active o) eqn:Ea; [|apply andb_false_r].
  rewrite andb_true_r. apply bool_decide_eq_false_2.
  rewrite Forall_forall in Hall. apply Hall.
  apply list_elem_of_In, filter_In. split; [by apply list_elem_of_In | exact Ea].
Qed.

End Selections.

(** X24.  [processSelection] chooses among the options [getMenu]
    displays: with the menu read from the sheet, [getMenu] lists its
    active options, and a selection that prints as the number of none of
    them is answered as invalid, with nothing logged.  A missing
    selection is answered as invalid on an empty menu, and by the error
    reply of the handler on any other, since its text is asked for when
    the first option is compared. *)
Theorem selection_is_among_the_displayed_options {host : Host} {ai : AIGateway}
  (selection sessionId : jsval) (menuConfig : list MenuService.MenuOption)
  (w w0 : World) :
  MenuService.getMenuConfig w = (Ret menuConfig, w0) ->
  (exists bh greeting footer w1,
     MenuService.getMenu w
     = (Ret (obj [(js "success", JBool true);
                  (js "timestamp", JStr (toISOString (now w)));
                  (js "businessHours",
                   JBool (MenuService.isWithinBusinessHours (localTime (now w)) bh));
                  (js "greeting", greeting);
                  (js "options",
                   JArr (List.map MenuService.option_obj
                           (List.filter MenuService.active menuConfig)));
                  (js "footer", footer)]), w1))
  /\ (nullish selection = false ->
      Forall (fun o => ToString (MenuService.number o) <> ToString selection)
        (List.filter MenuService.active menuConfig) ->
      MenuService.processSelection selection sessionId w = (Ret invalidSelection, w0))
  /\ (nullish selection = true -> menuConfig = [] ->
      MenuService.processSelection selection sessionId w = (Ret invalidSelection, w0))
  /\ (nullish selection = true -> menuConfig <> [] ->
      exists w1,
        MenuService.processSelection selection sessionId w = (Ret selectionError, w1)
        /\ same_outside_sheets w w1).
Proof.
  intros E0. split; [|split; [|split]].
  - destruct (getMenu_succeeds w) as (mc & bh & greeting & footer & w1 & E & _ & w0' & E0').
    rewrite E0 in E0'. injection E0' as <- <-. by exists bh, greeting, footer, w1.
  - intros Hn Hall. unfold MenuService.processSelection.
    rewrite (try_catch_bind_ret _ _ _ w menuConfig w0 E0).
    by rewrite (try_catch_bind_ret _ _ _ w0 None w0
                  (findOption_undisplayed menuConfig selection w0 Hn Hall)).
  - intros _ ->. unfold MenuService.processSelection.
    rewrite (try_catch_bind_ret _ _ _ w [] w0 E0).
    by rewrite (try_catch_bind_ret (MenuService.findOption [] selection) _ _
                  w0 None w0 eq_refl).
  - intros Hn Hne. unfold MenuService.processSelection.
    rewrite (try_catch_bind_ret _ _ _ w menuConfig w0 E0).
    assert (Ef : MenuService.findOption menuConfig selection w0
                 = (Throw (TypeError (js "toString of undefined")), w0)).
    { unfold MenuService.findOption, toString_method.
      destruct menuConfig; [done|]. by rewrite Hn. }
    rewrite (try_catch_bind_throw _ _ _ w0 _ w0 Ef).
    match goal with |- context [LoggingService.logError ?a ?b ?c] =>
      destruct (logError_frame a b c w0) as (w1 & E1 & Hf) end.
    exists w1. rewrite (bind_ret _ _ w0 tt w1 E1). split; [done|].
    pose proof (frames_getMenuConfig _ _ _ E0) as H0.
    by apply (same_outside_sheets_trans w w0 w1).
Qed.

(** The statement at a newly deployed script and the selection 99. *)
Lemma selection_is_among_the_displayed_options_witness :
  @MenuService.processSelection Demo.host Demo.broken (JStr (js "99")) (JStr (js "s1"))
    Demo.fresh
  = (Ret invalidSelection, ensure CONFIG.MENU_SHEET Demo.fresh).
Proof.
  refine (proj1 (proj2 (@selection_is_among_the_displayed_options Demo.host Demo.broken
            (JStr (js "99")) (JStr (js "s1"))
            (MenuService.menuItems (template CONFIG.MENU_SHEET))
            Demo.fresh (ensure CONFIG.MENU_SHEET Demo.fresh) _)) eq_refl _).
  - vm_compute. reflexivity.
  - apply Forall_forall. intros o Ho. apply list_elem_of_In in Ho.
    vm_compute in Ho. repeat (destruct Ho as [<-|Ho]; [by vm_compute|]). done.
Defined.

(** ** Writing a setting and reading it back ([configService.gs], [set]) *)

(** The row is one [getConfig] files under the name [k]. *)
Definition names (k : jsstring) (row : list jsval) : bool :=
  truthy (cell row 0) && bool_decide (ToString (cell row 0) = k).

(** One iteration of the loop of [getConfig]. *)
Definition config_step (acc : list (jsstring * jsval)) (row : list jsval)
  : list (jsstring * jsval) :=
  if truthy (cell row 0)
  then assoc_set (ToString (cell row 0)) (ConfigService.parseConfigValue (cell row 1)) acc
  else acc.

(** The data rows of the settings sheet as [getSheet] leaves it. *)
Definition settings_rows (w : World) : list (list jsval) :=
  drop 1 (default (template CONFIG.SETTINGS_SHEET) (sheets w !! CONFIG.SETTINGS_SHEET)).

Section SettingRoundTrip.

Lemma first_index_found {A} (test : A -> bool) (l : list A) (j : nat) :
  ConfigService.first_index test l = Some j ->
  exists pre x post, l = pre ++ x :: post /\ length pre = j /\ test x = true.
Proof.
  revert j. induction l as [|x l IH]; intros j; cbn; [done|].
  destruct (test x) eqn:E.
  - intros [= <-]. by exists [], x, l.
  - destruct (ConfigService.first_index test l) as [i|]; [|done]. intros [= <-].
    destruct (IH i eq_refl) as (pre & y & post & -> & Hl & Hy).
    exists (x :: pre), y, post. cbn. by rewrite Hl.
Qed.

Lemma write_at_middle {A} (blank v x : A) (pre post : list A) :
  ConfigService.write_at blank (length pre) v (pre ++ x :: post) = pre ++ v :: post.
Proof. induction pre as [|y pre IH]; cbn; [done | by rewrite IH]. Qed.

Lemma config_last (k : jsstring) (rows : list (list jsval)) (row : list jsval) acc :
  names k row = true ->
  assoc k (fold_left config_step (rows ++ [row]) acc)
  = Some (ConfigService.parseConfigValue (cell row 1)).
Proof.
  intros Hn. apply andb_prop in Hn as [Ht Hk]. apply bool_decide_eq_true in Hk.
  rewrite fold_left_app. cbn. unfold config_step at 1. rewrite Ht.
  rewrite assoc_assoc_set. by rewrite bool_decide_eq_true_2.
Qed.

Lemma config_skip (k : jsstring) (rows : list (list jsval)) acc :
  Forall (fun row => names k row = false) rows ->
  assoc k (fold_left config_step rows acc) = assoc k acc.
Proof.
  revert acc. induction rows as [|row rows IH]; intros acc H; cbn; [done|].
  apply Forall_cons in H as [Hr H]. rewrite (IH _ H).
  unfold config_step. destruct (truthy (cell row 0)) eqn:Et; [|done].
  rewrite assoc_assoc_set. unfold names in Hr. rewrite Et in Hr. cbn in Hr.
  by rewrite Hr.
Qed.

(** With at most one row under the name, no row follows that row under
    the same name. *)
Lemma single_name (k : jsstring) (pre post : list (list jsval)) (row : list jsval) :
  (length (List.filter (names k) (pre ++ row :: post)) <= 1)%nat ->
  names k row = true ->
  Forall (fun r => names k r = false) post.
Proof.
  intros Hlen Hn. rewrite List.filter_app in Hlen. cbn in Hlen. rewrite Hn in Hlen.
  rewrite length_app in Hlen. cbn in Hlen.
  assert (List.filter (names k) post = []) as Hp by (apply length_zero_iff_nil; lia).
  apply Forall_forall. intros r Hr. destruct (names k r) eqn:E; [|done].
  assert (In r (List.filter (names k) post))
    by (apply filter_In; split; [by apply list_elem_of_In | done]).
  by rewrite Hp in *.
Qed.

(** What [getConfig] returns when nothing is cached. *)
Lemma getConfig_reads (hdr : list jsval) (rows : list (list jsval)) w :
  sink_open w -> configCache w = None ->
  default (template CONFIG.SETTINGS_SHEET) (sheets w !! CONFIG.SETTINGS_SHEET)
  = hdr :: rows ->
  exists w2,
    ConfigService.getConfig w = (Ret (JObj (fold_left config_step rows [])), w2).
Proof.
  intros Ho Hc Hs. unfold ConfigService.getConfig. munfold. rewrite Hc.
  rewrite (getSheet_open CONFIG.SETTINGS_SHEET w Ho).
  unfold SheetsService.getValues.
  rewrite ensure_lookup, bool_decide_eq_true_2 by done. cbn [default from_option id].
  rewrite Hs. cbn. by eexists.
Qed.

Lemma config_agree (k : jsstring) (rows : list (list jsval)) acc1 acc2 :
  assoc k acc1 = assoc k acc2 ->
  assoc k (fold_left config_step rows acc1) = assoc k (fold_left config_step rows acc2).
Proof.
  revert acc1 acc2. induction rows as [|row rows IH]; intros acc1 acc2 H; cbn; [done|].
  apply IH. unfold config_step. destruct (truthy (cell row 0)); [|done].
  rewrite !assoc_assoc_set. by rewrite H.
Qed.

Lemma with_sheets_ensure (name : jsstring) (rows : list (list jsval)) w :
  with_sheets (insert name rows) (ensure name w) = with_sheets (insert name rows) w.
Proof.
  unfold ensure. destruct (sheets w !! name); [done|].
  unfold with_sheets. cbn. by rewrite insert_insert_eq.
Qed.

(** The data rows [set] leaves in the sheet. *)
Definition rows_after_set (key value : jsval) (rows : list (list jsval))
  : list (list jsval) :=
  match ConfigService.first_index (fun row => strict_eq (cell row 0) key) rows with
  | Some j =>
      ConfigService.write_at [] j
        (ConfigService.write_at (JStr []) 1 value (default [] (rows !! j))) rows
  | None => rows ++ [[key; value; JStr []]]
  end.

Lemma set_open (key value : jsval) (hdr : list jsval) (rows : list (list jsval)) w :
  sink_open w ->
  default (template CONFIG.SETTINGS_SHEET) (sheets w !! CONFIG.SETTINGS_SHEET)
  = hdr :: rows ->
  ConfigService.set key value w
  = (Ret tt,
     with_configCache None
       (with_sheets
          (insert CONFIG.SETTINGS_SHEET (hdr :: rows_after_set key value rows)) w)).
Proof.
  intros Ho Hs. unfold ConfigService.set. munfold.
  rewrite (getSheet_open CONFIG.SETTINGS_SHEET w Ho).
  assert (Hl : sheets (ensure CONFIG.SETTINGS_SHEET w) !! CONFIG.SETTINGS_SHEET
               = Some (hdr :: rows)).
  { by rewrite ensure_lookup, bool_decide_eq_true_2, Hs by done. }
  unfold SheetsService.getValues. rewrite Hl. cbn [default from_option id drop].
  rewrite drop_0. unfold rows_after_set.
  destruct (ConfigService.first_index _ rows) as [j|].
  - unfold ConfigService.setValue. cbn [pred]. f_equal.
    rewrite <- (with_sheets_ensure CONFIG.SETTINGS_SHEET _ w).
    unfold with_sheets, with_configCache. cbn. by rewrite Hl.
  - unfold SheetsService.appendRow. f_equal.
    rewrite <- (with_sheets_ensure CONFIG.SETTINGS_SHEET _ w).
    unfold with_sheets, with_configCache. cbn. by rewrite Hl.
Qed.

Lemma set_closed (key value : jsval) w :
  sink_closed w -> ConfigService.set key value w = (Ret tt, w).
Proof.
  intros Hc. unfold ConfigService.set. munfold.
  by destruct (getSheet_closed CONFIG.SETTINGS_SHEET w Hc) as [e ->].
Qed.

(** The value filed under [k] once [set] has run, and the other names. *)
Lemma rows_after_set_read (k : jsstring) (value : jsval) (rows : list (list jsval)) :
  k <> [] ->
  (length (List.filter (names k) rows) <= 1)%nat ->
  assoc k (fold_left config_step (rows_after_set (JStr k) value rows) [])
  = Some (ConfigService.parseConfigValue value)
  /\ forall k', k' <> k ->
       assoc k' (fold_left config_step (rows_after_set (JStr k) value rows) [])
       = assoc k' (fold_left config_step rows []).
Proof.
  intros Hk Hone. unfold rows_after_set.
  destruct (ConfigService.first_index _ rows) as [j|] eqn:Ej.
  - apply first_index_found in Ej as (pre & row & post & -> & <- & Hhit).
    assert (Hc0 : cell row 0 = JStr k).
    { destruct (cell row 0); try done. cbn in Hhit. by apply bool_decide_eq_true in Hhit as ->. }
    assert (Hn : names k row = true).
    { unfold names. rewrite Hc0. cbn. rewrite bool_decide_eq_true_2 by done.
      by destruct k. }
    pose proof (single_name k pre post row Hone Hn) as Hpost.
    rewrite list_lookup_middle by done. cbn [default from_option id].
    rewrite write_at_middle.
    set (row' := ConfigService.write_at (JStr []) 1 value row).
    assert (H0 : cell row' 0 = JStr k).
    { subst row'. destruct row as [|c0 row]; [done|]. exact Hc0. }
    assert (H1 : cell row' 1 = value).
    { subst row'. destruct row as [|c0 [|c1 row]]; done. }
    assert (Hn' : names k row' = true).
    { unfold names. rewrite H0. cbn. rewrite bool_decide_eq_true_2 by done.
      by destruct k. }
    split.
    + rewrite (cons_middle row' pre post), app_assoc, fold_left_app.
      rewrite (config_skip k post _ Hpost).
      by rewrite (config_last k pre row' [] Hn'), H1.
    + intros k' Hk'. rewrite !fold_left_app. cbn [fold_left].
      apply config_agree. unfold config_step. rewrite H0, Hc0. cbn [truthy ToString].
      destruct k; [done|]. rewrite !assoc_assoc_set.
      by rewrite bool_decide_eq_false_2 by done.
  - split.
    + rewrite (config_last k rows _ []); [done|].
      unfold names. cbn. rewrite bool_decide_eq_true_2 by done. by destruct k.
    + intros k' Hk'. rewrite fold_left_app. cbn. unfold config_step at 1. cbn.
      destruct k; [done|]. rewrite assoc_assoc_set.
      by rewrite bool_decide_eq_false_2 by done.
Qed.

End SettingRoundTrip.

(** X25.  [set] followed by [getConfig]: with a reachable spreadsheet
    whose settings sheet has its header row, a number or a boolean set
    under a non-empty name (other than __proto__) that at most one row
    carries is what [getConfig] then returns under that name, whatever
    was cached before, and every other name reads as it would have
    without the call.  With an unreachable spreadsheet [set] returns as
    if it had worked and changes nothing, the cache included. *)
Theorem setting_is_read_back (k : jsstring) (value : jsval) (w : World) :
  (sink_open w ->
   k <> [] -> k <> js "__proto__" ->
   (exists z, value = JNum z) \/ (exists b, value = JBool b) ->
   sheets w !! CONFIG.SETTINGS_SHEET <> Some [] ->
   (length (List.filter (names k) (settings_rows w)) <= 1)%nat ->
   exists w1 config w2 before w0,
     ConfigService.set (JStr k) value w = (Ret tt, w1)
     /\ ConfigService.getConfig w1 = (Ret config, w2)
     /\ prop config k = value
     /\ ConfigService.getConfig (with_configCache None w) = (Ret before, w0)
     /\ forall k', k' <> k -> prop config k' = prop before k')
  /\ (sink_closed w -> ConfigService.set (JStr k) value w = (Ret tt, w)).
Proof.
  split; [|apply set_closed].
  intros Ho Hk _ Hv Hne Hone.
  destruct (default (template CONFIG.SETTINGS_SHEET) (sheets w !! CONFIG.SETTINGS_SHEET))
    as [|hdr rows] eqn:Hs.
  { by destruct (sheets w !! CONFIG.SETTINGS_SHEET) as [[|]|]. }
  assert (Hrows : settings_rows w = rows) by (unfold settings_rows; by rewrite Hs).
  rewrite Hrows in Hone.
  destruct (rows_after_set_read k value rows Hk Hone) as (Hread & Hother).
  set (w1 := with_configCache None
               (with_sheets
                  (insert CONFIG.SETTINGS_SHEET (hdr :: rows_after_set (JStr k) value rows))
                  w)).
  assert (Hs1 : default (template CONFIG.SETTINGS_SHEET)
                   (sheets w1 !! CONFIG.SETTINGS_SHEET)
                 = hdr :: rows_after_set (JStr k) value rows).
  { subst w1. cbn. by rewrite lookup_insert_eq. }
  destruct (getConfig_reads hdr (rows_after_set (JStr k) value rows) w1 Ho eq_refl Hs1)
    as (w2 & E2).
  destruct (getConfig_reads hdr rows (with_configCache None w) Ho eq_refl Hs)
    as (w0 & E0).
  exists w1, (JObj (fold_left config_step (rows_after_set (JStr k) value rows) [])), w2,
    (JObj (fold_left config_step rows [])), w0.
  split; [by apply set_open|]. split; [exact E2|]. split.
  - cbn [prop]. rewrite Hread. cbn. by destruct Hv as [[z ->]|[b ->]].
  - split; [exact E0|]. intros k' Hk'. cbn [prop]. by rewrite (Hother k' Hk').
Qed.

(** The statement at a newly deployed script, whose settings sheet is
    created with the default rows. *)
Lemma setting_is_read_back_witness :
  exists w1 config w2,
    ConfigService.set (JStr (js "max_ai_tokens")) (JNum 800) Demo.fresh
    = (Ret tt, w1)
    /\ ConfigService.getConfig w1 = (Ret config, w2)
    /\ prop config (js "max_ai_tokens") = JNum 800.
Proof.
  destruct (proj1 (setting_is_read_back (js "max_ai_tokens") (JNum 800)
                     Demo.fresh))
    as (w1 & config & w2 & _ & _ & E1 & E2 & Hp & _).
  - split; vm_compute; reflexivity.
  - intros H. vm_compute in H. discriminate.
  - intros H. vm_compute in H. discriminate.
  - left. by exists 800%Z.
  - vm_compute. discriminate.
  - vm_compute. lia.
  - exists w1, config, w2. split; [exact E1|]. split; [exact E2 | exact Hp].
Defined.

(** A sheet that carries a name twice. *)
Definition doubled : World :=
  with_sheets
    (insert CONFIG.SETTINGS_SHEET
       [[JStr (js "Configuración"); JStr (js "Valor"); JStr (js "Descripción")];
        [JStr (js "limit"); JNum 1; JStr []];
        [JStr (js "limit"); JNum 2; JStr []]])
    Demo.fresh.

(** [set] writes the first row of the name, [getConfig] reads the last. *)
Example doubled_name_reads_the_later_row :
  fst (ConfigService.getConfig
         (snd (ConfigService.set (JStr (js "limit")) (JNum 5) doubled)))
  = Ret (JObj [(js "limit", JNum 2)])
  /\ sheets (snd (ConfigService.set (JStr (js "limit")) (JNum 5) doubled))
       !! CONFIG.SETTINGS_SHEET
     = Some [[JStr (js "Configuración"); JStr (js "Valor"); JStr (js "Descripción")];
             [JStr (js "limit"); JNum 5; JStr []];
             [JStr (js "limit"); JNum 2; JStr []]].
Proof. split; vm_compute; reflexivity. Qed.

(** ** Deleting old log rows ([loggingService.gs], [cleanupOldLogs]) *)

Section Cleanup.
Context {host : Host} {calendar : Calendar}.

Lemma cleanupOldLogs_closed (daysToKeep : jsval) w :
  sink_closed w -> LoggingService.cleanupOldLogs daysToKeep w = (Ret tt, w).
Proof.
  intros Hc. unfold LoggingService.cleanupOldLogs. munfold.
  by destruct (getSheet_closed CONFIG.LOGS_SHEET w Hc) as [e ->].
Qed.

Lemma cleanupOldLogs_open (daysToKeep : jsval) (hdr : list jsval)
  (rows : list (list jsval)) w :
  sink_open w ->
  default (template CONFIG.LOGS_SHEET) (sheets w !! CONFIG.LOGS_SHEET) = hdr :: rows ->
  Forall (fun row => length row = length hdr) rows ->
  existsb (fun c => negb (is_str c [])) hdr = true ->
  LoggingService.cleanupOldLogs daysToKeep w
  = (Ret tt,
     with_sheets
       (insert CONFIG.LOGS_SHEET
          (hdr :: List.filter
                    (fun row =>
                       LoggingService.date_ge (cell row 0)
                         (LoggingService.cutoffDate
                            match daysToKeep with JUndefined => JNum 90 | _ => daysToKeep end
                            (now w)))
                    rows)) w).
Proof.
  intros Ho Hs Hwide Hhdr. unfold LoggingService.cleanupOldLogs. munfold.
  rewrite (getSheet_open CONFIG.LOGS_SHEET w Ho).
  assert (Hl : sheets (ensure CONFIG.LOGS_SHEET w) !! CONFIG.LOGS_SHEET
               = Some (hdr :: rows)).
  { by rewrite ensure_lookup, bool_decide_eq_true_2, Hs by done. }
  unfold SheetsService.getValues. rewrite Hl. cbn [default from_option id drop take app].
  rewrite drop_0, take_0. cbn [app].
  set (kept := List.filter _ rows).
  assert (Hkept : Forall (fun row => length row = length hdr) kept).
  { rewrite Forall_forall in Hwide |- *. intros row Hr. apply Hwide.
    apply list_elem_of_In in Hr. apply filter_In in Hr as [Hr _].
    by apply list_elem_of_In. }
  unfold SheetsService.clear, SheetsService.setValues. cbn [head default from_option id].
  assert (Hw : (length hdr =? 0)%nat = false).
  { destruct hdr; [done|]. done. }
  rewrite Hw.
  assert (Hall : forallb (fun row => (length row =? length hdr)%nat) (hdr :: kept) = true).
  { cbn. rewrite Nat.eqb_refl. cbn. apply forallb_forall. intros row Hr.
    apply Nat.eqb_eq. rewrite Forall_forall in Hkept. apply Hkept.
    by apply list_elem_of_In. }
  rewrite Hall.
  assert (Hblank : forallb (forallb (fun c => is_str c [])) (hdr :: kept) = false).
  { cbn. apply andb_false_iff. left. apply not_true_is_false. intros Hb.
    rewrite forallb_forall in Hb. apply existsb_exists in Hhdr as (c & Hc & Hn).
    rewrite (Hb c Hc) in Hn. done. }
  rewrite Hblank. f_equal.
  unfold with_sheets. cbn. rewrite insert_insert_eq.
  unfold ensure. destruct (sheets w !! CONFIG.LOGS_SHEET); [done|].
  cbn. by rewrite insert_insert_eq.
Qed.

End Cleanup.

(** X26.  [cleanupOldLogs] with a reachable spreadsheet, on a log sheet
    that is a grid under a header with some text: the header stays, and
    of the data rows exactly those stay, in their order, whose timestamp
    can be read as a date not before the cutoff; a row whose timestamp
    cannot be read is deleted whatever the period, and when moving the
    date back gives no date every row is.  No period means 90 days.
    With an unreachable spreadsheet nothing happens and nothing is
    reported. *)
Theorem cleanup_keeps_the_rows_since_the_cutoff {host : Host} {calendar : Calendar}
  (days : Z) (hdr : list jsval) (rows : list (list jsval)) (w : World) :
  LoggingService.cleanupOldLogs JUndefined w = LoggingService.cleanupOldLogs (JNum 90) w
  /\ (sink_open w ->
      default (template CONFIG.LOGS_SHEET) (sheets w !! CONFIG.LOGS_SHEET) = hdr :: rows ->
      Forall (fun row => length row = length hdr) rows ->
      existsb (fun c => negb (is_str c [])) hdr = true ->
      exists kept,
        LoggingService.cleanupOldLogs (JNum days) w
        = (Ret tt, with_sheets (insert CONFIG.LOGS_SHEET (hdr :: kept)) w)
        /\ sublist kept rows
        /\ forall row,
             row ∈ kept
             <-> row ∈ rows
                 /\ exists t cutoff,
                      Date_getTime (cell row 0) = Some t
                      /\ setDate_back (now w) days = Some cutoff
                      /\ (cutoff <= t)%Z)
  /\ (sink_closed w -> LoggingService.cleanupOldLogs (JNum days) w = (Ret tt, w)).
Proof.
  split; [reflexivity|]. split; [|apply cleanupOldLogs_closed].
  intros Ho Hs Hwide Hhdr. eexists. split; [by apply cleanupOldLogs_open|].
  split; [apply filter_is_sublist|].
  intros row. rewrite !list_elem_of_In, filter_In.
  unfold LoggingService.date_ge, LoggingService.cutoffDate. cbn [ToNumber].
  split.
  - intros [Hin Hge]. split; [exact Hin|].
    destruct (Date_getTime (cell row 0)) as [t|]; [|done].
    destruct (setDate_back (now w) days) as [c|]; [|done].
    exists t, c. repeat split. by apply Z.leb_le.
  - intros [Hin (t & c & -> & -> & Hle)]. split; [exact Hin|]. by apply Z.leb_le.
Qed.

(** A calendar without time changes. *)
Definition plain_days : Calendar :=
  {| setDate_back := fun t days => Some (t - days * 86400000)%Z |}.

(** A log of three rows: one of two months ago, one whose first cell
    is no date, one of four days ago. *)
Definition three_rows : World :=
  with_sheets
    (insert CONFIG.LOGS_SHEET
       [SheetsService.logsHeaders;
        JNum 1700000000000 :: replicate 8 (JStr []);
        JStr (js "ayer") :: replicate 8 (JStr []);
        JNum 1705000000000 :: replicate 8 (JStr [])])
    Demo.fresh.

Lemma cleanup_keeps_the_rows_since_the_cutoff_witness :
  exists kept,
    @LoggingService.cleanupOldLogs Demo.host plain_days (JNum 30) three_rows
    = (Ret tt,
       with_sheets (insert CONFIG.LOGS_SHEET (SheetsService.logsHeaders :: kept)) three_rows)
    /\ (JNum 1705000000000 :: replicate 8 (JStr [])) ∈ kept
    /\ ~ (JStr (js "ayer") :: replicate 8 (JStr [])) ∈ kept.
Proof.
  destruct (proj1 (proj2 (@cleanup_keeps_the_rows_since_the_cutoff Demo.host plain_days 30
              SheetsService.logsHeaders
              [JNum 1700000000000 :: replicate 8 (JStr []);
               JStr (js "ayer") :: replicate 8 (JStr []);
               JNum 1705000000000 :: replicate 8 (JStr [])] three_rows)))
    as (kept & E & _ & Hiff).
  - split; vm_compute; reflexivity.
  - vm_compute. reflexivity.
  - repeat constructor.
  - vm_compute. reflexivity.
  - exists kept. split; [exact E|]. split.
    + apply Hiff. split; [by do 2 right; left|].
      exists 1705000000000%Z, 1702722600000%Z. repeat split. lia.
    + intros H. apply Hiff in H as [_ (t & c & Ht & _)]. vm_compute in Ht. discriminate.
Defined.

(** ** Sessions whose stored context cannot be read ([ChatService]) *)

Section Conversation.
Context {host : Host} {ai : AIGateway}.

(** The replies to the messages of one session, sent one after another. *)
Fixpoint talk (messages : list jsval) (sessionId : jsval) (w : World)
  : list (outcome jsval) * World :=
  match messages with
  | [] => ([], w)
  | message :: rest =>
      let (reply, w1) := ChatService.processMessage message sessionId w in
      let (replies, w2) := talk rest sessionId w1 in
      (reply :: replies, w2)
  end.

Lemma getSessionContext_unreadable (sessionId : jsval) (stored : jsstring) (e : exn) w :
  properties w !! ChatService.sessionKey sessionId = Some stored ->
  stored <> [] -> JSON_parse stored = Throw e ->
  ChatService.getSessionContext sessionId w = (Throw e, w).
Proof.
  intros Hs Hne Hp. unfold ChatService.getSessionContext, getProperty. munfold.
  rewrite Hs. destruct stored; [done|]. cbn. by rewrite Hp.
Qed.

Lemma processMessage_unreadable (message sessionId : jsval) (stored : jsstring)
  (e : exn) w :
  properties w !! ChatService.sessionKey sessionId = Some stored ->
  stored <> [] -> JSON_parse stored = Throw e ->
  exists w1,
    ChatService.processMessage message sessionId w = (Ret (chatError w), w1)
    /\ same_outside_sheets w w1.
Proof.
  intros Hs Hne Hp.
  destruct (chat_handler e (obj [(js "message", message); (js "sessionId", sessionId)]) w)
    as (w1 & E & Hf & _); [done | done |].
  exists w1. split; [|exact Hf].
  unfold ChatService.processMessage.
  by rewrite (try_catch_bind_throw _ _ _ w e w
                (getSessionContext_unreadable sessionId stored e w Hs Hne Hp)).
Qed.

End Conversation.

(** X27.  A session whose stored context is not accepted by [JSON.parse]
    does not recover: every message sent in it, whatever it says, is
    answered by the error reply of [processMessage], and the stored
    context is left as it is. *)
Theorem unreadable_session_does_not_recover {host : Host} {ai : AIGateway}
  (messages : list jsval) (sessionId : jsval) (stored : jsstring) (e : exn)
  (w : World) :
  properties w !! ChatService.sessionKey sessionId = Some stored ->
  stored <> [] ->
  JSON_parse stored = Throw e ->
  (talk messages sessionId w).1 = List.map (fun _ => Ret (chatError w)) messages
  /\ properties (talk messages sessionId w).2 = properties w.
Proof.
  intros Hs Hne Hp. revert w Hs.
  induction messages as [|message rest IH]; intros w Hs; [done|].
  destruct (processMessage_unreadable message sessionId stored e w Hs Hne Hp)
    as (w1 & E & (Hprops & Hnow & _)).
  cbn [talk List.map]. rewrite E.
  assert (Hs1 : properties w1 !! ChatService.sessionKey sessionId = Some stored)
    by (by rewrite Hprops).
  destruct (IH w1 Hs1) as (IH1 & IH2).
  destruct (talk rest sessionId w1) as [replies w2]. cbn in *.
  split; [|congruence].
  f_equal. rewrite IH1. apply map_ext. intros _. unfold chatError. by rewrite Hnow.
Qed.

(** A host whose parser rejects every text. *)
Definition strict_host : Host :=
  {| toISOString := @toISOString Demo.host;
     localTime := @localTime Demo.host;
     Date_getTime := @Date_getTime Demo.host;
     Date_setSeconds := @Date_setSeconds Demo.host;
     JSON_stringify := ToString;
     JSON_parse := fun _ => Throw (Error (js "Unexpected token"));
     encodeURIComponent := fun s => s;
     toLocaleDateString := ToString;
     UrlFetchApp_fetch := fun _ => Throw (Error (js "Address unavailable")) |}.

(** A script with a damaged context for session s1. *)
Definition damaged : World :=
  with_properties (insert (js "SESSION_s1") (js "{")) Demo.fresh.

Lemma unreadable_session_does_not_recover_witness :
  (@talk strict_host Demo.canned [JStr (js "hola"); JStr (js "menu")] (JStr (js "s1"))
     damaged).1
  = [Ret (@chatError strict_host damaged); Ret (@chatError strict_host damaged)]
  /\ properties
       (@talk strict_host Demo.canned [JStr (js "hola"); JStr (js "menu")] (JStr (js "s1"))
          damaged).2
     = properties damaged.
Proof.
  apply (@unreadable_session_does_not_recover strict_host Demo.canned
           [JStr (js "hola"); JStr (js "menu")] (JStr (js "s1")) (js "{")
           (Error (js "Unexpected token")) damaged).
  - vm_compute. reflexivity.
  - intros H. vm_compute in H. discriminate.
  - reflexivity.
Defined.

(** ** Escalation from the chat ([ChatService], [handleChatEscalation]) *)

(** The row that [logEscalation] writes. *)
Definition escalationRow {host : Host} (sessionId reason : jsval) (status : jsstring)
  (w : World) : list jsval :=
  [JStr (toISOString (now w));
   sessionId;
   JStr (js "escalation");
   JStr (LoggingService.sanitizeMessage reason);
   JStr (js "Escalation status: " ++ status);
   JStr [];
   JNum 0;
   JStr status;
   JStr (JSON_stringify
           (obj [(js "escalationReason", reason);
                 (js "escalationStatus", JStr status);
                 (js "businessHours",
                  JBool (negb (bool_decide (status = js "after_hours"))))]))].

(** The reply of [handleChatEscalation]. *)
Definition escalationReply {host : Host} (isBusinessHours : bool) (w : World) : jsval :=
  obj [(js "success", JBool true);
       (js "type", JStr (js "escalation"));
       (js "message",
        JStr (if isBusinessHours
              then js "Te conectaré con un agente humano. Por favor espera un momento mientras te transfiero."
              else js "Actualmente estamos fuera del horario de atención. Tu consulta será atendida en el próximo horario hábil."));
       (js "businessHours", JBool isBusinessHours);
       (js "showMenu", JBool false);
       (js "timestamp", JStr (toISOString (now w)))].

Section ChatEscalation.
Context {host : Host} {ai : AIGateway}.

Lemma strategy_escalation (m : jsstring) (context : jsval) w :
  menu_word (toLowerCase m) = false ->
  ChatService.containsOrderKeywords (toLowerCase m) = false ->
  ChatService.containsProductKeywords (toLowerCase m) = false ->
  ChatService.containsEscalationKeywords (toLowerCase m) = true ->
  ChatService.determineResponseStrategy (JStr m) context w = (Ret escalation, w).
Proof.
  intros Hm Ho Hp He. unfold ChatService.determineResponseStrategy.
  unfold menu_word in Hm. by rewrite Hm, Ho, Hp, He.
Qed.

Lemma logs_ready_open w : logs_ready w -> sink_open w.
Proof. by intros (Hid & Hok & _). Qed.

(** Worlds that differ in the cache and the settings sheet only. *)
Definition same_log (w w1 : World) : Prop :=
  same_outside_sheets w w1
  /\ sheets w1 !! CONFIG.LOGS_SHEET = sheets w !! CONFIG.LOGS_SHEET.

Lemma same_log_ready w w1 : same_log w w1 -> logs_ready w -> logs_ready w1.
Proof.
  intros ((Hp & _ & _ & Hok) & Hs) (Hid & Hok' & Hl).
  repeat split; [by rewrite Hp | by rewrite Hok | by rewrite Hs].
Qed.

Lemma same_log_rows w w1 : same_log w w1 -> log_rows w1 = log_rows w.
Proof. intros (_ & Hs). unfold log_rows. by rewrite Hs. Qed.

Lemma getConfig_same_log w :
  sink_open w -> exists config w1, ConfigService.getConfig w = (Ret config, w1) /\ same_log w w1.
Proof.
  intros Ho. unfold ConfigService.getConfig. munfold.
  destruct (match configCache w with Some _ => _ | None => _ end) as [cache|].
  { exists cache, w. split; [done|]. split; [apply same_outside_sheets_refl | done]. }
  rewrite (getSheet_open CONFIG.SETTINGS_SHEET w Ho). cbn.
  eexists _, _. split; [reflexivity|]. split.
  - pose proof (ensure_frame CONFIG.SETTINGS_SHEET w) as (A1 & A2 & A3 & A4).
    by repeat split.
  - cbn. rewrite ensure_lookup. rewrite bool_decide_eq_false_2; [done|].
    apply sheet_names_differ.
Qed.

Lemma getBusinessHours_same_log w :
  sink_open w ->
  exists bh w1, ConfigService.getBusinessHours w = (Ret bh, w1) /\ same_log w w1.
Proof.
  intros Ho. destruct (getConfig_same_log w Ho) as (config & w1 & E & Hs).
  unfold ConfigService.getBusinessHours.
  rewrite (try_catch_bind_ret _ _ _ w config w1 E). cbv zeta.
  destruct (js_or (prop config (js "business_days")) _); by eexists _, w1.
Qed.

Lemma logEscalation_ready (sessionId reason : jsval) (status : jsstring) w :
  logs_ready w ->
  LoggingService.logEscalation sessionId reason status w
  = (Ret tt,
     with_sheets
       (insert CONFIG.LOGS_SHEET (log_rows w ++ [escalationRow sessionId reason status w]))
       w).
Proof.
  intros Hr. unfold LoggingService.logEscalation. munfold.
  by rewrite (appendData_ready _ w Hr).
Qed.

Lemma sessionKey_is_no_setting (sessionId : jsval) :
  ChatService.sessionKey sessionId <> js "SPREADSHEET_ID".
Proof.
  unfold ChatService.sessionKey. intros H.
  assert (H1 : js "SESSION_" = [83; 69; 83; 83; 73; 79; 78; 95]%N)
    by (vm_compute; reflexivity).
  assert (H2 : js "SPREADSHEET_ID"
               = [83; 80; 82; 69; 65; 68; 83; 72; 69; 69; 84; 95; 73; 68]%N)
    by (vm_compute; reflexivity).
  rewrite H1, H2 in H. cbn in H. discriminate.
Qed.

(** The tail of [processMessage] with the log sheet in place, for a
    session without stored context. *)
Lemma chat_tail_ready (m : jsstring) (sessionId reply : jsval) (strategy : Strategy) w
  (handler : exn -> M jsval) :
  present (properties w !! ChatService.sessionKey sessionId) = false ->
  logs_ready w ->
  exists row w2,
    try_catch
      (let* w0 := get_world in
       ChatService.updateSessionContext sessionId
         (obj [(js "lastMessage", JStr m); (js "lastResponse", reply);
               (js "timestamp", JStr (toISOString (now w0)))]) ;;
       LoggingService.logInteraction (js "chat_message") sessionId
         (obj [(js "userMessage", JStr m);
               (js "responseType", JStr (strategy_type strategy));
               (js "botResponse", reply)]) ;;
       ret reply) handler w
    = (Ret reply, w2)
    /\ properties w2
       = <[ChatService.sessionKey sessionId := sessionRecord (JStr m) reply w]>
           (properties w)
    /\ fetched w2 = fetched w
    /\ log_rows w2 = log_rows w ++ [row]
    /\ cell row 2 = JStr (js "chat_message").
Proof.
  intros Hnew Hr.
  set (w' := with_properties
               (insert (ChatService.sessionKey sessionId) (sessionRecord (JStr m) reply w))
               w).
  assert (Hr' : logs_ready w').
  { destruct Hr as (Hid & Hok & Hl). repeat split; [|done..].
    subst w'. cbn. rewrite lookup_insert_ne; [done|]. apply sessionKey_is_no_setting. }
  set (data := obj [(js "userMessage", JStr m);
                    (js "responseType", JStr (strategy_type strategy));
                    (js "botResponse", reply)]).
  pose proof (logInteraction_ready (js "chat_message") sessionId data w' Hr' eq_refl) as El.
  exists (interactionRow (js "chat_message") sessionId data w'),
    (with_sheets
       (insert CONFIG.LOGS_SHEET
          (log_rows w' ++ [interactionRow (js "chat_message") sessionId data w'])) w').
  split.
  { rewrite (try_catch_bind_ret get_world _ _ w w w eq_refl).
    rewrite (try_catch_bind_ret _ _ _ w tt w'
               (updateSessionContext_new sessionId (JStr m) reply w Hnew)).
    fold data. rewrite (try_catch_bind_ret _ _ _ w' tt _ El). reflexivity. }
  split; [reflexivity|]. split; [reflexivity|]. split; [|reflexivity].
  by rewrite log_rows_append.
Qed.

Lemma handleChatEscalation_ready (m : jsstring) (sessionId : jsval) w :
  logs_ready w ->
  exists bh wb,
    ConfigService.getBusinessHours w = (Ret bh, wb)
    /\ same_log w wb
    /\ let open_now := MenuService.isWithinBusinessHours (localTime (now w)) bh in
       let status := if open_now then js "pending" else js "after_hours" in
       ChatService.handleChatEscalation (JStr m) sessionId w
       = (Ret (escalationReply open_now w),
          with_sheets
            (insert CONFIG.LOGS_SHEET
               (log_rows w ++ [escalationRow sessionId (JStr m) status w])) wb).
Proof.
  intros Hr.
  destruct (getBusinessHours_same_log w (logs_ready_open w Hr)) as (bh & wb & E & Hs).
  exists bh, wb. split; [exact E|]. split; [exact Hs|]. cbv zeta.
  pose proof (same_log_ready w wb Hs Hr) as Hrb.
  pose proof (same_log_rows w wb Hs) as Hrows.
  destruct Hs as ((_ & Hnow & _) & _).
  unfold ChatService.handleChatEscalation. munfold. rewrite E.
  rewrite (logEscalation_ready _ _ _ wb Hrb).
  unfold escalationReply, escalationRow. rewrite Hrows, Hnow.
  by destruct (MenuService.isWithinBusinessHours (localTime (now w)) bh).
Qed.

End ChatEscalation.

(** X28.  A message of Latin-1 characters with one of the escalation
    words (agente, humano, persona, hablar, representante) and none of the
    menu, order or product words, in a session without stored context and with the log
    sheet in place: the reply is of type 'escalation' with [showMenu:
    false], and it tells the user to wait exactly when the current time
    is within the business hours [getBusinessHours] reports.  What the
    escalation does is write a log row: its status is 'pending' within
    business hours and 'after_hours' otherwise, its message column holds
    the masked message; the row of the chat message follows it, the
    session key is set, and no HTTP request is made. *)
Theorem chat_escalation_writes_a_log_row {host : Host} {ai : AIGateway}
  (m : jsstring) (sessionId : jsval) (w : World) :
  latin1 m = true ->
  menu_word (toLowerCase m) = false ->
  ChatService.containsOrderKeywords (toLowerCase m) = false ->
  ChatService.containsProductKeywords (toLowerCase m) = false ->
  ChatService.containsEscalationKeywords (toLowerCase m) = true ->
  present (properties w !! ChatService.sessionKey sessionId) = false ->
  logs_ready w ->
  exists bh wb w2 row1 row2,
    ConfigService.getBusinessHours w = (Ret bh, wb)
    /\ let open_now := MenuService.isWithinBusinessHours (localTime (now w)) bh in
       ChatService.processMessage (JStr m) sessionId w
       = (Ret (escalationReply open_now w), w2)
       /\ prop (escalationReply open_now w) (js "businessHours") = JBool open_now
       /\ prop (escalationReply open_now w) (js "showMenu") = JBool false
       /\ fetched w2 = fetched w
       /\ properties w2
          = <[ChatService.sessionKey sessionId
              := sessionRecord (JStr m) (escalationReply open_now w) w]> (properties w)
       /\ log_rows w2 = log_rows w ++ [row1; row2]
       /\ cell row1 2 = JStr (js "escalation")
       /\ cell row1 3 = JStr (LoggingService.sanitizeMessage (JStr m))
       /\ cell row1 7 = JStr (if open_now then js "pending" else js "after_hours")
       /\ cell row2 2 = JStr (js "chat_message").
Proof.
  intros _ Hm Ho Hp He Hnew Hr.
  destruct (handleChatEscalation_ready m sessionId w Hr) as (bh & wb & E & Hs & Eh).
  cbv zeta in Eh.
  set (open_now := MenuService.isWithinBusinessHours (localTime (now w)) bh) in *.
  set (status := if open_now then js "pending" else js "after_hours") in *.
  set (wl := with_sheets
               (insert CONFIG.LOGS_SHEET
                  (log_rows w ++ [escalationRow sessionId (JStr m) status w])) wb) in *.
  pose proof Hs as ((Hprops & Hnow & Hfetched & _) & _).
  assert (Hnewl : present (properties wl !! ChatService.sessionKey sessionId) = false).
  { subst wl. cbn. by rewrite Hprops. }
  assert (Hrl : logs_ready wl).
  { subst wl. apply logs_ready_append. by apply (same_log_ready w wb). }
  destruct (chat_tail_ready m sessionId (escalationReply open_now w) escalation wl
              (fun error =>
                 LoggingService.logError (js "processMessage") error
                   (obj [(js "message", JStr m); (js "sessionId", sessionId)]) ;;
                 let* w0 := get_world in ret (chatError w0)) Hnewl Hrl)
    as (row2 & w2 & Et & Hp2 & Hf2 & Hl2 & Hc2).
  exists bh, wb, w2, (escalationRow sessionId (JStr m) status w), row2.
  split; [exact E|]. cbv zeta. fold open_now.
  split.
  { unfold ChatService.processMessage.
    rewrite (try_catch_bind_ret _ _ _ w _ w (getSessionContext_new sessionId w Hnew)).
    rewrite (try_catch_bind_ret _ _ _ w _ w (strategy_escalation m (JObj []) w Hm Ho Hp He)).
    cbv iota.
    rewrite (try_catch_bind_ret _ _ _ w _ wl Eh).
    exact Et. }
  split; [by destruct open_now|]. split; [by destruct open_now|].
  split; [by rewrite Hf2; subst wl; cbn; rewrite Hfetched|].
  split.
  { rewrite Hp2. subst wl. cbn [properties with_sheets]. rewrite Hprops.
    unfold sessionRecord. cbn [now with_sheets]. by rewrite Hnow. }
  split.
  { rewrite Hl2. subst wl. rewrite log_rows_append. by rewrite <- app_assoc. }
  by repeat split.
Qed.

(** 'quiero hablar con un agente' on the sample system. *)
Lemma chat_escalation_writes_a_log_row_witness :
  exists bh wb w2,
    ConfigService.getBusinessHours Demo.ready = (Ret bh, wb)
    /\ @ChatService.processMessage Demo.host Demo.broken
         (JStr (js "quiero hablar con un agente")) (JStr (js "s1")) Demo.ready
       = (Ret (@escalationReply Demo.host
                 (MenuService.isWithinBusinessHours
                    (@localTime Demo.host (now Demo.ready)) bh) Demo.ready), w2)
    /\ fetched w2 = fetched Demo.ready.
Proof.
  destruct (@chat_escalation_writes_a_log_row Demo.host Demo.broken
              (js "quiero hablar con un agente") (JStr (js "s1")) Demo.ready)
    as (bh & wb & w2 & row1 & row2 & E & H).
  - vm_compute. reflexivity.
  - vm_compute. reflexivity.
  - vm_compute. reflexivity.
  - vm_compute. reflexivity.
  - vm_compute. reflexivity.
  - vm_compute. reflexivity.
  - repeat split; [vm_compute; reflexivity .. | vm_compute; by eexists].
  - cbv zeta in H. destruct H as (Ep & _ & _ & Hf & _).
    exists bh, wb, w2. split; [exact E|]. split; [exact Ep | exact Hf].
Defined.
